(** * robosat.pink: the training tool [robosat_pink/tools/train.py]

    A shallow embedding of the training driver: argument conversion
    ([add_parser]), the start-up sequence and epoch loop ([main]), the two
    passes ([train], [validate]) and the construction of the data loaders
    ([get_dataset_loaders]), followed by the properties the design document
    states about them.

    Python integers are [Z] (tensor dimensions and counts are [nat]), strings
    are [string], the checkpoint directory is a finite map from paths to
    checkpoint records, and the objects the driver mutates ([net],
    [optimizer], the per-pass [Metrics], the log) are fields of one [World]
    threaded through a state-and-exception monad. *)

From Stdlib Require Import Ascii QArith.
From stdpp Require Import gmap strings list pretty.

Open Scope Z_scope.

(** ** Python built-ins used by the tool *)

Module Py.

(** Exceptions the tool can raise.  [SystemExit] is [sys.exit(msg)] with a
    string argument: the message goes to stderr and the status is 1. *)
Inductive exn : Type :=
| AssertionError (msg : string)
| IndexError
| TypeError
| ValueError (msg : string)
| FileNotFoundError (path : string)
| SystemExit (msg : string).

(** Exit status of the process when the exception reaches the top level:
    1 for [sys.exit] with a message as for an uncaught exception. *)
Definition exit_status (e : exn) : Z := 1.

(** [range(a, b)] *)
Definition range (a b : Z) : list Z :=
  map (fun i : nat => a + Z.of_nat i) (seq 0 (Z.to_nat (b - a))).

(** ["{}".format(n)] for an int. *)
Definition str_int (n : Z) : string := pretty n.

(** ["{}".format(b)] for a bool. *)
Definition str_bool (b : bool) : string := if b then "True" else "False".

Fixpoint zeros (n : nat) : string :=
  match n with
  | O => ""
  | S n' => String "0"%char (zeros n')
  end.

(** Left padding with zeros up to [width] characters. *)
Definition zero_pad (width : nat) (digits : string) : string :=
  zeros (width - String.length digits) +:+ digits.

(** ["{:05d}".format(n)]: the sign, when there is one, counts in the width
    and stays in front of the padding. *)
Definition format_05d (n : Z) : string :=
  match n with
  | Zneg p => "-" +:+ zero_pad 4 (pretty (Zpos p))
  | _ => zero_pad 5 (pretty n)
  end.

Fixpoint last_char (s : string) : option ascii :=
  match s with
  | "" => None
  | String c "" => Some c
  | String _ s' => last_char s'
  end.

Definition startswith_sep (s : string) : bool :=
  match s with
  | String "/"%char _ => true
  | _ => false
  end.

Definition endswith_sep (s : string) : bool :=
  match last_char s with
  | Some "/"%char => true
  | _ => false
  end.

(** [os.path.join(a, b)] of posixpath, two arguments. *)
Definition path_join (a b : string) : string :=
  if startswith_sep b then b
  else if bool_decide (a = "") || endswith_sep a then a +:+ b
  else a +:+ "/" +:+ b.

(** [sep.join(l)] *)
Fixpoint str_join (sep : string) (l : list string) : string :=
  match l with
  | [] => ""
  | [x] => x
  | x :: l' => x +:+ sep +:+ str_join sep l'
  end.

Definition hex_digit (n : nat) : ascii :=
  match n with
  | 0 => "0" | 1 => "1" | 2 => "2" | 3 => "3" | 4 => "4" | 5 => "5"
  | 6 => "6" | 7 => "7" | 8 => "8" | 9 => "9" | 10 => "a" | 11 => "b"
  | 12 => "c" | 13 => "d" | 14 => "e" | _ => "f"
  end%char%nat.

Fixpoint contains_char (c : ascii) (s : string) : bool :=
  match s with
  | "" => false
  | String d s' => bool_decide (c = d) || contains_char c s'
  end.

Definition backslash : ascii := ascii_of_nat 92.
Definition squote : ascii := ascii_of_nat 39.
Definition dquote : ascii := ascii_of_nat 34.
Definition tab : ascii := ascii_of_nat 9.

(** One character of [repr(s)] for an ASCII string quoted with [q]. *)
Definition repr_char (q c : ascii) : string :=
  let n := nat_of_ascii c in
  if bool_decide (c = q) || bool_decide (c = backslash) then
    String backslash (String c "")
  else if bool_decide (n = 9%nat) then String backslash "t"
  else if bool_decide (n = 10%nat) then String backslash "n"
  else if bool_decide (n = 13%nat) then String backslash "r"
  else if bool_decide (n < 32)%nat || bool_decide (n = 127%nat) then
    String backslash
      (String "x"%char (String (hex_digit (n / 16)) (String (hex_digit (n mod 16)) "")))
  else String c "".

Fixpoint repr_body (q : ascii) (s : string) : string :=
  match s with
  | "" => ""
  | String c s' => repr_char q c +:+ repr_body q s'
  end.

(** [repr(s)] of a str: single quotes, unless the string has a single quote
    and no double quote.  Characters are taken as ASCII. *)
Definition repr_str (s : string) : string :=
  let q := if contains_char squote s && negb (contains_char dquote s)
           then dquote else squote in
  String q (repr_body q s) +:+ String q "".

(** ["{}".format(l)] for a list of str. *)
Definition str_list (l : list string) : string :=
  "[" +:+ str_join ", " (map repr_str l) +:+ "]".

(** [l[i]] on a list. *)
Definition index {A} (l : list A) (i : nat) : exn + A :=
  match l !! i with
  | Some x => inr x
  | None => inl IndexError
  end.

End Py.

(** ** The libraries the tool drives *)

(** What the tool uses of Python floats and of torch: tensors, the network
    selected by name, the Adam optimizer and the loss selected by name.  The
    tool treats all of these as opaque; only tensor sizes are inspected. *)
Class Torch : Type := {
  float : Type;
  float_of_int : Z -> float;
  float_add : float -> float -> float;
  float_div : float -> nat -> float;
  float_truthy : float -> bool;
  float_str : float -> string;
  float_fixed : nat -> float -> string;
  float_parse : string -> option float;

  (** Rasters: PIL images before the tensor conversion, torch tensors after. *)
  tensor : Type;
  size : tensor -> list nat;
  unbind : tensor -> list tensor;
  stack : list tensor -> tensor;
  normalize : list Q -> list Q -> tensor -> tensor;

  (** [net.state_dict()], the [.grad] fields of the parameters and
      [optimizer.state_dict()]. *)
  state_dict : Type;
  grads : Type;
  optim_state : Type;
  no_grads : grads;
  new_model : string -> nat -> nat -> string -> bool -> state_dict;
  new_adam : float -> float -> optim_state;
  (** [net(images)]: the flag is [net.training]; a forward pass in training
      mode may update buffers of the state dict. *)
  forward : bool -> state_dict -> tensor -> tensor * state_dict;
  zero_grad : grads -> grads;
  (** [criterion(outputs, masks)] for the loss of that name, as [loss.item()],
      and [loss.backward()], which accumulates into the gradients. *)
  criterion_item : string -> tensor -> tensor -> float;
  backward : string -> state_dict -> tensor -> tensor -> grads -> grads;
  adam_step : optim_state -> state_dict -> grads -> optim_state * state_dict;

  (** Random number generator state. *)
  rng : Type;
  randperm : rng -> nat -> list nat * rng;
}.

(** Tile identifier (x, y, z). *)
Definition tile : Type := Z * Z * Z.

Record Channel : Type := {
  sub : string;
  bands : list Z;
}.

Inductive flip_or_rotate : Type :=
| NoOp | FlipLeftRight | FlipTopBottom | Rotate90 | Rotate180 | Rotate270.

(** What the tool uses of the other modules of the package: [metrics],
    [transforms] and [datasets]. *)
Class Robosat `{Torch} : Type := {
  metrics : Type;
  Metrics : metrics;
  metrics_add : metrics -> tensor -> tensor -> metrics;
  get_miou : metrics -> float;
  get_fg_iou : metrics -> float;
  get_mcc : metrics -> float;

  resize_image : Z -> tensor -> tensor;
  resize_mask : Z -> tensor -> tensor;
  flip_image : flip_or_rotate -> tensor -> tensor;
  flip_mask : flip_or_rotate -> tensor -> tensor;
  random_choice : rng -> flip_or_rotate * rng;
  image_to_tensor : tensor -> tensor;
  mask_to_tensor : tensor -> tensor;

  (** The aligned (image, mask, tile) triples that
      [SlippyMapTilesConcatenation(root, channels, labels)] finds on disk. *)
  slippy_tiles : string -> list Channel -> string -> list (tensor * tensor * tile);
}.

(** ** Configuration and arguments *)

Section Driver.
Context `{Robosat}.

(** The configuration document, as [load_config] returns it. *)
Record Config : Type := {
  model_name : string;
  model_encoder : string;
  model_pretrained : bool;
  model_loss : string;
  model_lr : float;
  model_decay : float;
  model_epochs : Z;
  model_batch_size : Z;
  model_tile_size : Z;
  model_data_augmentation : bool;
  dataset_path : string;
  classes_titles : list string;
  channels : list Channel;
}.

(** The values argparse accepts for [type=str], [type=int], [type=float]. *)
Inductive arg_type : Type := TStr | TInt | TFloat | TStoreTrue.

Inductive arg_value : Type :=
| VStr (s : string)
| VInt (n : Z)
| VFloat (x : float)
| VBool (b : bool).

(** The namespace [add_parser] makes argparse build.  [--dataset] is
    declared with [type=int]. *)
Record Args : Type := {
  args_config : string;
  args_checkpoint : option string;
  args_resume : bool;
  args_workers : Z;
  args_dataset : option Z;
  args_epochs : option Z;
  args_lr : option float;
  args_out : string;
}.

(** A checkpoint record, as [torch.save] writes it. *)
Record Checkpoint : Type := {
  ck_epoch : Z;
  ck_state_dict : state_dict;
  ck_optimizer : optim_state;
}.

(** ** The world the driver mutates *)

(** Calls into torch objects, recorded in program order (ghost state). *)
Inductive call : Type :=
| CTrainMode
| CEvalMode
| CZeroGrad
| CForward (training grad_enabled : bool)
| CBackward
| CStep
| CMetricsAdd
| CLoad (path : string)
| CSave (path : string).

Record World : Type := {
  net_sd : state_dict;
  net_training : bool;
  net_grads : grads;
  optimizer_sd : optim_state;
  grad_enabled : bool;
  metrics_obj : metrics;
  files : gmap string Checkpoint;
  logged : list string;
  calls : list call;
  rng_state : rng;
}.

Definition M (A : Type) : Type := World -> (Py.exn + A) * World.

Definition ret {A} (a : A) : M A := fun w => (inr a, w).

Definition bind {A B} (m : M A) (k : A -> M B) : M B :=
  fun w =>
    match m w with
    | (inl e, w') => (inl e, w')
    | (inr a, w') => k a w'
    end.

Definition raise {A} (e : Py.exn) : M A := fun w => (inl e, w).

Definition lift {A} (r : Py.exn + A) : M A := fun w => (r, w).

Definition get_world : M World := fun w => (inr w, w).

Definition modify (f : World -> World) : M unit := fun w => (inr tt, f w).

End Driver.

Declare Scope py_scope.
Delimit Scope py_scope with py.
Notation "x <- m ;; k" := (bind m (fun x => k))
  (at level 100, m at next level, right associativity) : py_scope.
Notation "m ;; k" := (bind m (fun _ => k))
  (at level 100, right associativity) : py_scope.
Open Scope py_scope.

(** ** Field updates of the world *)

Section Setters.
Context `{Robosat}.

Definition set_net_sd (v : state_dict) (w : World) : World :=
  {| net_sd := v; net_training := net_training w; net_grads := net_grads w;
     optimizer_sd := optimizer_sd w; grad_enabled := grad_enabled w;
     metrics_obj := metrics_obj w; files := files w; logged := logged w;
     calls := calls w; rng_state := rng_state w |}.

Definition set_net_training (v : bool) (w : World) : World :=
  {| net_sd := net_sd w; net_training := v; net_grads := net_grads w;
     optimizer_sd := optimizer_sd w; grad_enabled := grad_enabled w;
     metrics_obj := metrics_obj w; files := files w; logged := logged w;
     calls := calls w; rng_state := rng_state w |}.

Definition set_net_grads (v : grads) (w : World) : World :=
  {| net_sd := net_sd w; net_training := net_training w; net_grads := v;
     optimizer_sd := optimizer_sd w; grad_enabled := grad_enabled w;
     metrics_obj := metrics_obj w; files := files w; logged := logged w;
     calls := calls w; rng_state := rng_state w |}.

Definition set_optimizer_sd (v : optim_state) (w : World) : World :=
  {| net_sd := net_sd w; net_training := net_training w;
     net_grads := net_grads w; optimizer_sd := v;
     grad_enabled := grad_enabled w; metrics_obj := metrics_obj w;
     files := files w; logged := logged w; calls := calls w;
     rng_state := rng_state w |}.

Definition set_grad_enabled (v : bool) (w : World) : World :=
  {| net_sd := net_sd w; net_training := net_training w;
     net_grads := net_grads w; optimizer_sd := optimizer_sd w;
     grad_enabled := v; metrics_obj := metrics_obj w; files := files w;
     logged := logged w; calls := calls w; rng_state := rng_state w |}.

Definition set_metrics_obj (v : metrics) (w : World) : World :=
  {| net_sd := net_sd w; net_training := net_training w;
     net_grads := net_grads w; optimizer_sd := optimizer_sd w;
     grad_enabled := grad_enabled w; metrics_obj := v; files := files w;
     logged := logged w; calls := calls w; rng_state := rng_state w |}.

Definition set_files (v : gmap string Checkpoint) (w : World) : World :=
  {| net_sd := net_sd w; net_training := net_training w;
     net_grads := net_grads w; optimizer_sd := optimizer_sd w;
     grad_enabled := grad_enabled w; metrics_obj := metrics_obj w;
     files := v; logged := logged w; calls := calls w;
     rng_state := rng_state w |}.

Definition set_logged (v : list string) (w : World) : World :=
  {| net_sd := net_sd w; net_training := net_training w;
     net_grads := net_grads w; optimizer_sd := optimizer_sd w;
     grad_enabled := grad_enabled w; metrics_obj := metrics_obj w;
     files := files w; logged := v; calls := calls w;
     rng_state := rng_state w |}.

Definition set_calls (v : list call) (w : World) : World :=
  {| net_sd := net_sd w; net_training := net_training w;
     net_grads := net_grads w; optimizer_sd := optimizer_sd w;
     grad_enabled := grad_enabled w; metrics_obj := metrics_obj w;
     files := files w; logged := logged w; calls := v;
     rng_state := rng_state w |}.

Definition set_rng_state (v : rng) (w : World) : World :=
  {| net_sd := net_sd w; net_training := net_training w;
     net_grads := net_grads w; optimizer_sd := optimizer_sd w;
     grad_enabled := grad_enabled w; metrics_obj := metrics_obj w;
     files := files w; logged := logged w; calls := calls w;
     rng_state := v |}.

End Setters.

(** ** Transforms, datasets and loaders *)

(** The transform objects [get_dataset_loaders] constructs. *)
Inductive transform : Type :=
| ImageToTensor
| MaskToTensor
| Normalize (mean std : list Q).

Inductive joint_stage : Type :=
| JointResize (size : Z)
| JointRandomFlipOrRotate (p : bool)
| JointTransform (image_transform mask_transform : option transform).

Record Dataset : Type := {
  ds_root : string;
  ds_channels : list Channel;
  ds_labels : string;
  ds_joint_transform : list joint_stage;
}.

Record DataLoader : Type := {
  dl_dataset : Dataset;
  dl_batch_size : Z;
  dl_shuffle : bool;
  dl_drop_last : bool;
  dl_num_workers : Z;
}.

(** torch's [BatchSampler.__iter__]: indices are appended to the current
    batch, a full batch is yielded, and what is left at the end is yielded
    only without [drop_last]. *)
Fixpoint batch_sampler (batch_size : nat) (drop_last : bool)
    (batch : list nat) (sampler : list nat) : list (list nat) :=
  match sampler with
  | [] =>
      if negb drop_last && bool_decide (0 < length batch)%nat then [batch] else []
  | idx :: rest =>
      let batch := batch ++ [idx] in
      if bool_decide (length batch = batch_size) then
        batch :: batch_sampler batch_size drop_last [] rest
      else batch_sampler batch_size drop_last batch rest
  end.

Section Loaders.
Context `{Robosat}.

Record Batch : Type := {
  b_images : tensor;
  b_masks : tensor;
  b_tiles : list tile;
}.

Fixpoint foldM {A B} (f : A -> B -> M A) (a : A) (l : list B) : M A :=
  match l with
  | [] => ret a
  | b :: l' => a' <- f a b ;; foldM f a' l'
  end.

Fixpoint mapM {A B} (f : A -> M B) (l : list A) : M (list B) :=
  match l with
  | [] => ret []
  | a :: l' => b <- f a ;; bs <- mapM f l' ;; ret (b :: bs)
  end.

Fixpoint for_each {A} (l : list A) (body : A -> M unit) : M unit :=
  match l with
  | [] => ret tt
  | a :: l' => body a ;; for_each l' body
  end.

Definition apply_transform (t : option transform) (x : tensor) : tensor :=
  match t with
  | None => x
  | Some ImageToTensor => image_to_tensor x
  | Some MaskToTensor => mask_to_tensor x
  | Some (Normalize mean std) => normalize mean std x
  end.

(** Modelled from the spec: the stages of [robosat_pink.transforms], which
    is not among the sources.  Each stage takes (image, mask) and returns
    (image, mask); [JointTransform] applies one transform to each side, a
    null transform leaving that side untouched; the random flip or rotation
    draws one operation and applies it to both sides when enabled. *)
Definition apply_stage (s : joint_stage) (im : tensor * tensor) : M (tensor * tensor) :=
  match s with
  | JointResize sz => ret (resize_image sz (fst im), resize_mask sz (snd im))
  | JointRandomFlipOrRotate p =>
      if p then
        w <- get_world ;;
        let '(op, g) := random_choice (rng_state w) in
        modify (set_rng_state g) ;;
        ret (flip_image op (fst im), flip_mask op (snd im))
      else ret im
  | JointTransform it mt => ret (apply_transform it (fst im), apply_transform mt (snd im))
  end.

(** Modelled from the spec: [JointCompose], a sequence of stages applied in
    order. *)
Definition JointCompose (stages : list joint_stage) (im : tensor * tensor) :
    M (tensor * tensor) :=
  foldM (fun im s => apply_stage s im) im stages.

(** Modelled from the spec: [SlippyMapTilesConcatenation.__getitem__], which
    is not among the sources: the tile at index [i], run through the joint
    transform. *)
Definition getitem (ds : Dataset) (i : nat) : M (tensor * tensor * tile) :=
  sample <- lift (Py.index (slippy_tiles (ds_root ds) (ds_channels ds) (ds_labels ds)) i) ;;
  let '(image, mask, t) := sample in
  im <- JointCompose (ds_joint_transform ds) (image, mask) ;;
  ret (fst im, snd im, t).

Definition dataset_len (ds : Dataset) : nat :=
  length (slippy_tiles (ds_root ds) (ds_channels ds) (ds_labels ds)).

(** torch's default collate: images and masks are stacked, tiles listed. *)
Definition collate (samples : list (tensor * tensor * tile)) : Batch :=
  {| b_images := stack (map (fun s => fst (fst s)) samples);
     b_masks := stack (map (fun s => snd (fst s)) samples);
     b_tiles := map snd samples |}.

(** The order in which one iteration of the loader visits the indices. *)
Definition sampler (dl : DataLoader) : M (list nat) :=
  let n := dataset_len (dl_dataset dl) in
  if dl_shuffle dl then
    w <- get_world ;;
    let '(order, g) := randperm (rng_state w) n in
    modify (set_rng_state g) ;;
    ret order
  else ret (seq 0 n).

(** The batches of indices of one iteration of the loader. *)
Definition batches_of (dl : DataLoader) (order : list nat) : list (list nat) :=
  batch_sampler (Z.to_nat (dl_batch_size dl)) (dl_drop_last dl) [] order.

(** One iteration over a [DataLoader]. *)
Definition iterate (dl : DataLoader) : M (list Batch) :=
  order <- sampler dl ;;
  mapM (fun idxs => samples <- mapM (getitem (dl_dataset dl)) idxs ;; ret (collate samples))
       (batches_of dl order).

(** torch's [DataLoader(dataset, batch_size, shuffle, drop_last, num_workers)]:
    the worker count is checked first, then the sampler is built, a
    [RandomSampler] under [shuffle], which refuses an empty data set, then
    the [BatchSampler], which refuses a batch size that is not positive. *)
Definition new_DataLoader (ds : Dataset) (batch_size : Z) (shuffle drop_last : bool)
    (num_workers : Z) : Py.exn + DataLoader :=
  if bool_decide (num_workers < 0) then
    inl (Py.ValueError "num_workers option should be non-negative; use num_workers=0 to disable multiprocessing.")
  else if shuffle && bool_decide (dataset_len ds = 0%nat) then
    inl (Py.ValueError "num_samples should be a positive integer value, but got num_samples=0")
  else if bool_decide (batch_size <= 0) then
    inl (Py.ValueError ("batch_size should be a positive integer value, but got batch_size="
                        +:+ Py.str_int batch_size))
  else
    inr {| dl_dataset := ds; dl_batch_size := batch_size; dl_shuffle := shuffle;
           dl_drop_last := drop_last; dl_num_workers := num_workers |}.

End Loaders.

(** ** Primitive operations on the world *)

Section Passes.
Context `{Robosat}.

Definition assert (c : bool) (msg : string) : M unit :=
  if c then ret tt else raise (Py.AssertionError msg).

Definition record (c : call) : M unit :=
  modify (fun w => set_calls (calls w ++ [c]) w).

(** [log.log(line)] *)
Definition log_log (line : string) : M unit :=
  modify (fun w => set_logged (logged w ++ [line]) w).

(** [net.train()] and [net.eval()] *)
Definition net_train : M unit :=
  record CTrainMode ;; modify (set_net_training true).

Definition net_eval : M unit :=
  record CEvalMode ;; modify (set_net_training false).

(** [optimizer.zero_grad()] *)
Definition optimizer_zero_grad : M unit :=
  record CZeroGrad ;; modify (fun w => set_net_grads (zero_grad (net_grads w)) w).

(** [net(images)] *)
Definition net_call (images : tensor) : M tensor :=
  w <- get_world ;;
  record (CForward (net_training w) (grad_enabled w)) ;;
  let '(outputs, sd) := forward (net_training w) (net_sd w) images in
  modify (set_net_sd sd) ;;
  ret outputs.

(** [loss.backward()] *)
Definition loss_backward (criterion : string) (images masks : tensor) : M unit :=
  record CBackward ;;
  modify (fun w => set_net_grads (backward criterion (net_sd w) images masks (net_grads w)) w).

(** [optimizer.step()] *)
Definition optimizer_step : M unit :=
  record CStep ;;
  modify (fun w =>
    let '(o, sd) := adam_step (optimizer_sd w) (net_sd w) (net_grads w) in
    set_optimizer_sd o (set_net_sd sd w)).

(** [metrics.add(mask, output)] *)
Definition metrics_add_call (mask output : tensor) : M unit :=
  record CMetricsAdd ;;
  modify (fun w => set_metrics_obj (metrics_add (metrics_obj w) mask output) w).

(** [with torch.no_grad(): body]; the previous mode is restored on exit,
    also when the body raises. *)
Definition with_no_grad {A} (body : M A) : M A :=
  fun w =>
    let prev := grad_enabled w in
    let '(r, w') := body (set_grad_enabled false w) in
    (r, set_grad_enabled prev w').

(** Iteration over the first dimension of a tensor; a 0-d tensor raises. *)
Definition iter_tensor (t : tensor) : M (list tensor) :=
  match size t with
  | [] => raise Py.TypeError
  | _ => ret (unbind t)
  end.

(** [torch.load(path)] and [torch.save(states, path)] *)
Definition torch_load (path : string) : M Checkpoint :=
  record (CLoad path) ;;
  w <- get_world ;;
  match files w !! path with
  | Some chkpt => ret chkpt
  | None => raise (Py.FileNotFoundError path)
  end.

Definition torch_save (states : Checkpoint) (path : string) : M unit :=
  record (CSave path) ;;
  modify (fun w => set_files (<[path := states]> (files w)) w).

(** ** [train] and [validate] *)

Record Hist : Type := {
  loss : float;
  miou : float;
  fg_iou : float;
  mcc : float;
}.

(** The two local counters of a pass. *)
Record Counters : Type := {
  num_samples : nat;
  running_loss : float;
}.

Definition images_masks_sync : string := "resolutions for images and masks are in sync".
Definition predictions_masks_sync : string := "resolutions for predictions and masks are in sync".
Definition classes_sync : string := "classes for predictions and dataset are in sync".

(** Body of the loop of [train]. *)
Definition train_batch (num_classes : nat) (criterion : string)
    (acc : Counters) (b : Batch) : M Counters :=
  let images := b_images b in
  let masks := b_masks b in
  assert (bool_decide (drop 2 (size images) = drop 1 (size masks))) images_masks_sync ;;
  n <- lift (Py.index (size images) 0) ;;
  let num_samples := (num_samples acc + n)%nat in
  optimizer_zero_grad ;;
  outputs <- net_call images ;;
  assert (bool_decide (drop 2 (size outputs) = drop 1 (size masks))) predictions_masks_sync ;;
  k <- lift (Py.index (size outputs) 1) ;;
  assert (bool_decide (k = num_classes)) classes_sync ;;
  let loss := criterion_item criterion outputs masks in
  loss_backward criterion images masks ;;
  optimizer_step ;;
  let running_loss := float_add (running_loss acc) loss in
  ms <- iter_tensor masks ;;
  os <- iter_tensor outputs ;;
  for_each (zip ms os) (fun mo => metrics_add_call (fst mo) (snd mo)) ;;
  ret {| num_samples := num_samples; running_loss := running_loss |}.

Definition make_hist (acc : Counters) : M Hist :=
  w <- get_world ;;
  ret {| loss := float_div (running_loss acc) (num_samples acc);
         miou := get_miou (metrics_obj w);
         fg_iou := get_fg_iou (metrics_obj w);
         mcc := get_mcc (metrics_obj w) |}.

Definition train_empty : string := "dataset contains training images and labels".
Definition validate_empty : string := "dataset contains validation images and labels".

Definition counters0 : Counters :=
  {| num_samples := 0; running_loss := float_of_int 0 |}.

(** The loop of [train] over the batches of one iteration of the loader. *)
Definition train_batches (num_classes : nat) (criterion : string) (batches : list Batch) :
    M Counters :=
  foldM (train_batch num_classes criterion) counters0 batches.

(** [train(loader, num_classes, device, net, optimizer, criterion)].  [net]
    and [optimizer] are the objects of the world; moves to the device, the
    progress bar and [detach] do not change what is computed and are left
    out.  The batches are drawn from the loader before the loop runs over
    them; drawing only advances the random generator, which the loop does
    not read. *)
Definition train (loader : DataLoader) (num_classes : nat) (criterion : string) : M Hist :=
  modify (set_metrics_obj Metrics) ;;
  net_train ;;
  acc <- (batches <- iterate loader ;; train_batches num_classes criterion batches) ;;
  assert (bool_decide (0 < num_samples acc)%nat) train_empty ;;
  make_hist acc.

(** Body of the loop of [validate]. *)
Definition validate_batch (num_classes : nat) (criterion : string)
    (acc : Counters) (b : Batch) : M Counters :=
  let images := b_images b in
  let masks := b_masks b in
  assert (bool_decide (drop 2 (size images) = drop 1 (size masks))) images_masks_sync ;;
  n <- lift (Py.index (size images) 0) ;;
  let num_samples := (num_samples acc + n)%nat in
  outputs <- net_call images ;;
  assert (bool_decide (drop 2 (size outputs) = drop 1 (size masks))) predictions_masks_sync ;;
  k <- lift (Py.index (size outputs) 1) ;;
  assert (bool_decide (k = num_classes)) classes_sync ;;
  let loss := criterion_item criterion outputs masks in
  let running_loss := float_add (running_loss acc) loss in
  ms <- iter_tensor masks ;;
  os <- iter_tensor outputs ;;
  for_each (zip ms os) (fun mo => metrics_add_call (fst mo) (snd mo)) ;;
  ret {| num_samples := num_samples; running_loss := running_loss |}.

Definition validate_batches (num_classes : nat) (criterion : string)
    (batches : list Batch) : M Counters :=
  foldM (validate_batch num_classes criterion) counters0 batches.

(** [validate(loader, num_classes, device, net, criterion)] *)
Definition validate (loader : DataLoader) (num_classes : nat) (criterion : string) : M Hist :=
  modify (set_metrics_obj Metrics) ;;
  net_eval ;;
  acc <- with_no_grad
           (batches <- iterate loader ;; validate_batches num_classes criterion batches) ;;
  assert (bool_decide (0 < num_samples acc)%nat) validate_empty ;;
  make_hist acc.

End Passes.

(** ** [get_dataset_loaders] *)

(** The value bound to [dataset_path] in [main]: the int that [--dataset]
    converts to, or the str of the configuration. *)
Inductive path_val : Type :=
| PathInt (n : Z)
| PathStr (s : string).

(** [os.path.join(path, name)]; an int is not a path. *)
Definition os_path_join (path : path_val) (name : string) : Py.exn + string :=
  match path with
  | PathStr s => inr (Py.path_join s name)
  | PathInt _ => inl Py.TypeError
  end.

Definition str_path (path : path_val) : string :=
  match path with
  | PathStr s => s
  | PathInt n => Py.str_int n
  end.

(** Values computed on the ImageNet data set. *)
Definition mean : list Q := [0.485%Q; 0.456%Q; 0.406%Q].
Definition std : list Q := [0.229%Q; 0.224%Q; 0.225%Q].

Section GetDatasetLoaders.
Context `{Robosat}.

Definition transform_of (config : Config) : list joint_stage :=
  [ JointResize (model_tile_size config);
    JointRandomFlipOrRotate (model_data_augmentation config);
    JointTransform (Some ImageToTensor) (Some MaskToTensor);
    JointTransform (Some (Normalize mean std)) None ].

Definition get_dataset_loaders (path : path_val) (config : Config) (workers : Z) :
    Py.exn + (DataLoader * DataLoader) :=
  let transform := transform_of config in
  match os_path_join path "training" with
  | inl e => inl e
  | inr training =>
  let train_dataset :=
    {| ds_root := training; ds_channels := channels config;
       ds_labels := Py.path_join training "labels"; ds_joint_transform := transform |} in
  match os_path_join path "validation" with
  | inl e => inl e
  | inr validation =>
  let val_dataset :=
    {| ds_root := validation; ds_channels := channels config;
       ds_labels := Py.path_join validation "labels"; ds_joint_transform := transform |} in
  let batch_size := model_batch_size config in
  match new_DataLoader train_dataset batch_size true true workers with
  | inl e => inl e
  | inr train_loader =>
  match new_DataLoader val_dataset batch_size false true workers with
  | inl e => inl e
  | inr val_loader => inr (train_loader, val_loader)
  end end end end.

End GetDatasetLoaders.

(** ** [main] *)

Section Main.
Context `{Robosat}.

(** What [main] reads from its environment: the configuration loader, the
    CUDA device count when CUDA is available, and the module names that
    [pkgutil.iter_modules] lists in the [models] and [losses] packages. *)
Record Env : Type := {
  load_config : string -> Config;
  cuda_device_count : option Z;
  model_modules : list string;
  loss_modules : list string;
}.

Definition exit_unknown_model (models : list string) : string :=
  "Unknown model, thoses available are " +:+ Py.str_list models.

Definition exit_unknown_loss (losses : list string) : string :=
  "Unknown loss, thoses available are " +:+ Py.str_list losses.

Definition exit_epoch_reached (num_epochs : Z) (config_path : string) : string :=
  "Error: Epoch " +:+ Py.str_int num_epochs +:+ " set in " +:+ config_path
  +:+ " already reached by the checkpoint provided".

Definition checkpoint_name (epoch num_epochs : Z) : string :=
  "checkpoint-" +:+ Py.format_05d epoch +:+ "-of-" +:+ Py.format_05d num_epochs +:+ ".pth".

(** The three overrides at the top of [main]: [x if x else default]. *)
Definition choose_lr (args : Args) (config : Config) : float :=
  match args_lr args with
  | Some x => if float_truthy x then x else model_lr config
  | None => model_lr config
  end.

Definition choose_dataset_path (args : Args) (config : Config) : path_val :=
  match args_dataset args with
  | Some n => if bool_decide (n ≠ 0) then PathInt n else PathStr (dataset_path config)
  | None => PathStr (dataset_path config)
  end.

Definition choose_num_epochs (args : Args) (config : Config) : Z :=
  match args_epochs args with
  | Some n => if bool_decide (n ≠ 0) then n else model_epochs config
  | None => model_epochs config
  end.

(** [if args.checkpoint:] a str is true when it is not empty. *)
Definition checkpoint_given (args : Args) : option string :=
  match args_checkpoint args with
  | Some path => if bool_decide (path ≠ "") then Some path else None
  | None => None
  end.

Definition count_channels (chans : list Channel) : nat :=
  fold_left (fun n channel => (n + length (bands channel))%nat) chans 0%nat.

(** Lines 85 to 98: weights are loaded whenever a checkpoint is given, the
    optimizer state and the epoch only with [--resume]. *)
Definition load_checkpoint (args : Args) : M Z :=
  match checkpoint_given args with
  | Some path =>
      chkpt <- torch_load path ;;
      modify (set_net_sd (ck_state_dict chkpt)) ;;
      log_log ("Using checkpoint: " +:+ path) ;;
      if args_resume args then
        modify (set_optimizer_sd (ck_optimizer chkpt)) ;;
        ret (ck_epoch chkpt)
      else ret 0
  | None => ret 0
  end.

Definition log_channels (chans : list Channel) : M unit :=
  foldM (fun num_channel channel =>
           foldM (fun num_channel band =>
                    log_log ("Channel " +:+ Py.str_int num_channel +:+ ":"
                             +:+ String Py.tab (String Py.tab " ")
                             +:+ sub channel +:+ "[band: " +:+ Py.str_int band +:+ "]") ;;
                    ret (num_channel + 1))
                 num_channel (bands channel))
        1 chans ;;
  ret tt.

Definition tabs (n : nat) : string := String.concat "" (replicate n (String Py.tab "")).

Definition log_hyper_parameters (config : Config) (lr : float) : M unit :=
  log_log "--- Hyper Parameters ---" ;;
  log_log ("Model:" +:+ tabs 3 +:+ " " +:+ model_name config) ;;
  log_log ("Encoder model:" +:+ tabs 2 +:+ " " +:+ model_encoder config) ;;
  log_log ("Loss function:" +:+ tabs 2 +:+ " " +:+ model_loss config) ;;
  log_log ("ResNet pre-trained:" +:+ tabs 1 +:+ " " +:+ Py.str_bool (model_pretrained config)) ;;
  log_log ("Batch Size:" +:+ tabs 2 +:+ " " +:+ Py.str_int (model_batch_size config)) ;;
  log_log ("Tile Size:" +:+ tabs 2 +:+ " " +:+ Py.str_int (model_tile_size config)) ;;
  log_log ("Data Augmentation:" +:+ tabs 1 +:+ " "
           +:+ Py.str_bool (model_data_augmentation config)) ;;
  log_log ("Learning Rate:" +:+ tabs 2 +:+ " " +:+ float_str lr) ;;
  log_log ("Weight Decay:" +:+ tabs 2 +:+ " " +:+ float_str (model_decay config)) ;;
  log_log "".

Definition hist_line (pass : string) (title : string) (h : Hist) : string :=
  pass +:+ " loss: " +:+ float_fixed 4 (loss h) +:+ ", mIoU: " +:+ float_fixed 3 (miou h)
  +:+ ", " +:+ title +:+ " IoU: " +:+ float_fixed 3 (fg_iou h)
  +:+ ", MCC: " +:+ float_fixed 3 (mcc h).

(** Body of the epoch loop, lines 134 to 157. *)
Definition run_epoch (config : Config) (out : string) (num_epochs : Z) (num_classes : nat)
    (criterion : string) (train_loader val_loader : DataLoader) (epoch : Z) : M unit :=
  log_log "---" ;;
  log_log ("Epoch: " +:+ Py.str_int (epoch + 1) +:+ "/" +:+ Py.str_int num_epochs) ;;
  train_hist <- train train_loader num_classes criterion ;;
  title <- lift (Py.index (classes_titles config) 1) ;;
  log_log (hist_line "Train   " title train_hist) ;;
  val_hist <- validate val_loader num_classes criterion ;;
  title <- lift (Py.index (classes_titles config) 1) ;;
  log_log (hist_line "Validate" title val_hist) ;;
  w <- get_world ;;
  let states :=
    {| ck_epoch := epoch + 1; ck_state_dict := net_sd w; ck_optimizer := optimizer_sd w |} in
  let checkpoint_path := Py.path_join out (checkpoint_name (epoch + 1) num_epochs) in
  torch_save states checkpoint_path.

(** [main(args)].  The log file that [Logs] opens under [args.out] is the
    [logged] field of the world; the device and [DataParallel] do not change
    what is computed and are left out. *)
Definition main (env : Env) (args : Args) : M unit :=
  let config := load_config env (args_config args) in
  let lr := choose_lr args config in
  let dataset_path := choose_dataset_path args config in
  let num_epochs := choose_num_epochs args config in
  match cuda_device_count env with
  | Some count =>
      log_log ("RoboSat - training on " +:+ Py.str_int count +:+ " GPUs, with "
               +:+ Py.str_int (args_workers args) +:+ " workers")
  | None =>
      log_log ("RoboSat - training on CPU, with " +:+ Py.str_int (args_workers args)
               +:+ " workers")
  end ;;
  let num_classes := length (classes_titles config) in
  let num_channels := count_channels (channels config) in
  let pretrained := model_pretrained config in
  let encoder := model_encoder config in
  let models := model_modules env in
  (if bool_decide (model_name config ∉ models)
   then raise (Py.SystemExit (exit_unknown_model models)) else ret tt) ;;
  modify (fun w =>
    set_net_training true (set_net_grads no_grads
      (set_net_sd
         (new_model (model_name config) num_classes num_channels encoder pretrained) w))) ;;
  modify (set_optimizer_sd (new_adam lr (model_decay config))) ;;
  resume <- load_checkpoint args ;;
  let losses := loss_modules env in
  (if bool_decide (model_loss config ∉ losses)
   then raise (Py.SystemExit (exit_unknown_loss losses)) else ret tt) ;;
  let criterion := model_loss config in
  loaders <- lift (get_dataset_loaders dataset_path config (args_workers args)) ;;
  let '(train_loader, val_loader) := loaders in
  (if bool_decide (resume >= num_epochs)
   then raise (Py.SystemExit (exit_epoch_reached num_epochs (args_config args))) else ret tt) ;;
  log_log "" ;;
  log_log ("--- Input tensor from Dataset: " +:+ str_path dataset_path +:+ " ---") ;;
  log_channels (channels config) ;;
  log_log "" ;;
  log_hyper_parameters config lr ;;
  for_each (Py.range resume num_epochs)
    (run_epoch config (args_out args) num_epochs num_classes criterion train_loader val_loader).

End Main.

(** ** [add_parser] and the conversion of command-line values *)

Module PyInt.

Definition digit_value (c : ascii) : option Z :=
  let n := nat_of_ascii c in
  if bool_decide (48 <= n)%nat && bool_decide (n <= 57)%nat
  then Some (Z.of_nat (n - 48)) else None.

Definition is_whitespace (c : ascii) : bool :=
  let n := nat_of_ascii c in
  bool_decide (n = 32%nat) || (bool_decide (9 <= n)%nat && bool_decide (n <= 13)%nat).

Fixpoint lstrip (s : string) : string :=
  match s with
  | String c s' => if is_whitespace c then lstrip s' else s
  | "" => ""
  end.

Definition strip (s : string) : string :=
  String.rev (lstrip (String.rev (lstrip s))).

(** Decimal digits, single underscores allowed between two digits. *)
Fixpoint digits (acc : Z) (after_digit : bool) (s : string) : option Z :=
  match s with
  | "" => if after_digit then Some acc else None
  | String c s' =>
      match digit_value c with
      | Some d => digits (acc * 10 + d) true s'
      | None =>
          if bool_decide (c = "_"%char) && after_digit then digits acc false s' else None
      end
  end.

(** [int(s)] for a str, base 10; [None] stands for [ValueError]. *)
Definition int_of_str (s : string) : option Z :=
  match strip s with
  | String "-" s' => Z.opp <$> digits 0 false s'
  | String "+" s' => digits 0 false s'
  | s' => digits 0 false s'
  end.

Fixpoint only_digits (s : string) : bool :=
  match s with
  | "" => true
  | String c s' => bool_decide (is_Some (digit_value c)) && only_digits s'
  end.

(** The string before and after the first dot. *)
Fixpoint split_dot (s : string) : option (string * string) :=
  match s with
  | "" => None
  | String c s' =>
      if bool_decide (c = "."%char) then Some ("", s')
      else match split_dot s' with
           | Some (a, b) => Some (String c a, b)
           | None => None
           end
  end.

(** argparse's pattern for negative numbers: [-] digits, or [-] digits [.]
    digits with at least one digit after the dot. *)
Definition negative_number_like (s : string) : bool :=
  match s with
  | String "-" r =>
      match split_dot r with
      | None => negb (bool_decide (r = "")) && only_digits r
      | Some (a, b) => only_digits a && negb (bool_decide (b = "")) && only_digits b
      end
  | _ => false
  end.

End PyInt.

Section Argparse.
Context `{Robosat}.

(** One [parser.add_argument] call: the option string (or the name of a
    positional), its [type] or [action], whether it is required and its
    default. *)
Record argument : Type := {
  arg_name : string;
  arg_dest : string;
  arg_type_of : arg_type;
  arg_required : bool;
  arg_default : option arg_value;
}.

Definition add_parser : list argument :=
  [ {| arg_name := "--config"; arg_dest := "config"; arg_type_of := TStr;
       arg_required := true; arg_default := None |};
    {| arg_name := "--checkpoint"; arg_dest := "checkpoint"; arg_type_of := TStr;
       arg_required := false; arg_default := None |};
    {| arg_name := "--resume"; arg_dest := "resume"; arg_type_of := TStoreTrue;
       arg_required := false; arg_default := Some (VBool false) |};
    {| arg_name := "--workers"; arg_dest := "workers"; arg_type_of := TInt;
       arg_required := false; arg_default := Some (VInt 0) |};
    {| arg_name := "--dataset"; arg_dest := "dataset"; arg_type_of := TInt;
       arg_required := false; arg_default := None |};
    {| arg_name := "--epochs"; arg_dest := "epochs"; arg_type_of := TInt;
       arg_required := false; arg_default := None |};
    {| arg_name := "--lr"; arg_dest := "lr"; arg_type_of := TFloat;
       arg_required := false; arg_default := None |};
    {| arg_name := "out"; arg_dest := "out"; arg_type_of := TStr;
       arg_required := true; arg_default := None |} ].

Definition type_name (t : arg_type) : string :=
  match t with
  | TStr => "str" | TInt => "int" | TFloat => "float" | TStoreTrue => "bool"
  end.

(** argparse's [_get_value]: the [type] function applied to the string. *)
Definition get_value (a : argument) (s : string) : string + arg_value :=
  let converted :=
    match arg_type_of a with
    | TStr => Some (VStr s)
    | TInt => VInt <$> PyInt.int_of_str s
    | TFloat => VFloat <$> float_parse s
    | TStoreTrue => None
    end in
  match converted with
  | Some v => inr v
  | None =>
      inl ("argument " +:+ arg_name a +:+ ": invalid " +:+ type_name (arg_type_of a)
           +:+ " value: " +:+ Py.repr_str s)
  end.

(** A string of the command line that is read here as an option rather
    than as a value: it starts with a dash, is not the dash alone and does
    not look like a negative number.  argparse reads every string that is
    not one of these as a value; among these it reads as a value, too, a
    string with a space in it that matches no option. *)
Definition is_option (s : string) : bool :=
  match s with
  | String "-" "" => false
  | String "-" _ => negb (PyInt.negative_number_like s)
  | _ => false
  end.

Definition find_argument (name : string) : option argument :=
  List.find (fun a => bool_decide (arg_name a = name)) add_parser.

(** The command line read left to right: an option takes the next string
    as its value when that string is not itself read as an option
    ([--resume] takes none), the other strings are positionals, of which the
    parser has one.  Abbreviated options, the [--opt=value] form and the
    help option are left out, and a string that is not recognized stops the
    reading at once, where argparse would first report a required argument
    that is missing.  An error is argparse's message; the process then exits
    with status 2. *)
Fixpoint parse_known (argv : list string) (ns : gmap string arg_value) :
    string + gmap string arg_value :=
  match argv with
  | [] => inr ns
  | s :: rest =>
      if is_option s then
        match find_argument s with
        | None => inl ("unrecognized arguments: " +:+ s)
        | Some a =>
            match arg_type_of a with
            | TStoreTrue => parse_known rest (<[arg_dest a := VBool true]> ns)
            | _ =>
                match rest with
                | [] => inl ("argument " +:+ arg_name a +:+ ": expected one argument")
                | v :: rest' =>
                    if is_option v then
                      inl ("argument " +:+ arg_name a +:+ ": expected one argument")
                    else
                      match get_value a v with
                      | inl e => inl e
                      | inr x => parse_known rest' (<[arg_dest a := x]> ns)
                      end
                end
            end
        end
      else
        match ns !! "out" with
        | Some _ => inl ("unrecognized arguments: " +:+ s)
        | None => parse_known rest (<["out" := VStr s]> ns)
        end
  end.

Definition defaults : gmap string arg_value :=
  {[ "resume" := VBool false; "workers" := VInt 0 ]}.

Definition missing_required (ns : gmap string arg_value) : list string :=
  map arg_name
    (List.filter
       (fun a => arg_required a && match ns !! arg_dest a with None => true | Some _ => false end)
       add_parser).

Definition get_str (ns : gmap string arg_value) (k : string) : option string :=
  match ns !! k with Some (VStr s) => Some s | _ => None end.

Definition get_int (ns : gmap string arg_value) (k : string) : option Z :=
  match ns !! k with Some (VInt n) => Some n | _ => None end.

Definition get_float (ns : gmap string arg_value) (k : string) : option float :=
  match ns !! k with Some (VFloat x) => Some x | _ => None end.

Definition get_bool (ns : gmap string arg_value) (k : string) : bool :=
  match ns !! k with Some (VBool b) => b | _ => false end.

(** [parser.parse_args(argv)] for the [train] sub-command. *)
Definition parse_args (argv : list string) : string + Args :=
  match parse_known argv defaults with
  | inl e => inl e
  | inr ns =>
      match missing_required ns with
      | (_ :: _) as l =>
          inl ("the following arguments are required: " +:+ Py.str_join ", " l)
      | [] =>
          inr {| args_config := default "" (get_str ns "config");
                 args_checkpoint := get_str ns "checkpoint";
                 args_resume := get_bool ns "resume";
                 args_workers := default 0 (get_int ns "workers");
                 args_dataset := get_int ns "dataset";
                 args_epochs := get_int ns "epochs";
                 args_lr := get_float ns "lr";
                 args_out := default "" (get_str ns "out") |}
      end
  end.

(** The whole command: parse, then [main]. *)
Inductive outcome : Type :=
| UsageError (msg : string)
| Ran (r : Py.exn + unit) (w : World).

Definition run (env : Env) (argv : list string) (w : World) : outcome :=
  match parse_args argv with
  | inl e => UsageError e
  | inr args => let '(r, w') := main env args w in Ran r w'
  end.

(** Exit status of the process. *)
Definition status (o : outcome) : Z :=
  match o with
  | UsageError _ => 2
  | Ran (inl e) _ => Py.exit_status e
  | Ran (inr _) _ => 0
  end.

End Argparse.

(** ** Vocabulary of the properties *)

(** The number a string of decimal digits denotes. *)
Fixpoint dec_value (s : string) : N :=
  match s with
  | "" => 0
  | String c s' =>
      ((N.of_nat (nat_of_ascii c) - 48) * 10 ^ N.of_nat (String.length s') + dec_value s')%N
  end.

Fixpoint all_digits (s : string) : bool :=
  match s with
  | "" => true
  | String c s' =>
      bool_decide (48 <= nat_of_ascii c <= 57)%nat && all_digits s'
  end.

(** [s] occurs in [t]. *)
Definition substring (s t : string) : Prop :=
  exists pre post, t = pre +:+ s +:+ post.

(** The calls a validation pass may make: the switch to evaluation mode,
    forward passes in evaluation mode with gradients disabled, and
    [metrics.add]. *)
Definition eval_only (c : call) : bool :=
  match c with
  | CEvalMode | CMetricsAdd | CForward false false => true
  | _ => false
  end.

Section Vocabulary.
Context `{Robosat}.

(** Every run of [m] relates the world before to the world after by [R]. *)
Definition preserves {A} (R : World -> World -> Prop) (m : M A) : Prop :=
  forall w r w', m w = (r, w') -> R w w'.

Definition sync_messages : list string :=
  [images_masks_sync; predictions_masks_sync; classes_sync].

(** From a world in evaluation mode with gradients disabled: both stay so,
    state dict, optimizer state and gradients are unchanged, and only
    [eval_only] calls were added. *)
Definition eval_frame (w w' : World) : Prop :=
  net_training w = false -> grad_enabled w = false ->
  net_training w' = false /\ grad_enabled w' = false
  /\ net_sd w' = net_sd w /\ optimizer_sd w' = optimizer_sd w
  /\ net_grads w' = net_grads w
  /\ exists l, calls w' = calls w ++ l /\ forallb eval_only l = true.

(** The checkpoint directory is as it was. *)
Definition same_files (w w' : World) : Prop := files w' = files w.

(** The file at [path] is as it was. *)
Definition same_file (path : string) (w w' : World) : Prop :=
  files w' !! path = files w !! path.

(** The world a computation leaves. *)
Definition world_after {A} (m : M A) (w : World) : World := snd (m w).

Definition startup_line (env : Env) (args : Args) : string :=
  match cuda_device_count env with
  | Some count =>
      "RoboSat - training on " +:+ Py.str_int count +:+ " GPUs, with "
      +:+ Py.str_int (args_workers args) +:+ " workers"
  | None =>
      "RoboSat - training on CPU, with " +:+ Py.str_int (args_workers args) +:+ " workers"
  end.

(** The world once the network and the optimizer have been created. *)
Definition created (env : Env) (args : Args) (w : World) : World :=
  let config := load_config env (args_config args) in
  set_optimizer_sd (new_adam (choose_lr args config) (model_decay config))
    (set_net_training true
       (set_net_grads no_grads
          (set_net_sd
             (new_model (model_name config) (length (classes_titles config))
                (count_channels (channels config)) (model_encoder config)
                (model_pretrained config))
             (set_logged (logged w ++ [startup_line env args]) w)))).

(** What [main] does once the resume guard has passed: the log of the
    inputs and hyper-parameters, then the epoch loop. *)
Definition training (env : Env) (args : Args) (resume : Z)
    (loaders : DataLoader * DataLoader) : M unit :=
  let config := load_config env (args_config args) in
  let num_epochs := choose_num_epochs args config in
  log_log "" ;;
  log_log ("--- Input tensor from Dataset: "
           +:+ str_path (choose_dataset_path args config) +:+ " ---") ;;
  log_channels (channels config) ;;
  log_log "" ;;
  log_hyper_parameters config (choose_lr args config) ;;
  for_each (Py.range resume num_epochs)
    (run_epoch config (args_out args) num_epochs (length (classes_titles config))
       (model_loss config) (fst loaders) (snd loaders)).

(** The world once the checkpoint has been loaded. *)
Definition loaded (args : Args) (path : string) (chkpt : Checkpoint) (w : World) : World :=
  let w :=
    set_logged (logged w ++ ["Using checkpoint: " +:+ path])
      (set_net_sd (ck_state_dict chkpt) (set_calls (calls w ++ [CLoad path]) w)) in
  if args_resume args then set_optimizer_sd (ck_optimizer chkpt) w else w.

(** Nothing was trained between [w] and [w']: no file was written and the
    only call made, if any, loaded a checkpoint. *)
Definition untrained (w w' : World) : Prop :=
  files w' = files w
  /\ (calls w' = calls w \/ exists path, calls w' = calls w ++ [CLoad path]).

End Vocabulary.

(** A relation between the world before and after a computation that is
    insensitive to the random generator, to the metrics object and to the
    record of [metrics.add] calls. *)
Class Frame `{Robosat} (R : World -> World -> Prop) : Prop := {
  frame_refl : forall w, R w w;
  frame_trans : forall w1 w2 w3, R w1 w2 -> R w2 w3 -> R w1 w3;
  frame_rng : forall w g, R w (set_rng_state g w);
  frame_metrics : forall w m, R w (set_metrics_obj m w);
  frame_metrics_add : forall w, R w (set_calls (calls w ++ [CMetricsAdd]) w);
}.

(** *** The two passes, side by side *)

Inductive pass_kind : Type := TrainPass | ValidatePass.

Section PassVocabulary.
Context `{Robosat}.

Definition pass (k : pass_kind) : DataLoader -> nat -> string -> M Hist :=
  match k with
  | TrainPass => train
  | ValidatePass => validate
  end.

Definition pass_batches (k : pass_kind) : nat -> string -> list Batch -> M Counters :=
  match k with
  | TrainPass => train_batches
  | ValidatePass => validate_batches
  end.

Definition pass_batch (k : pass_kind) : nat -> string -> Counters -> Batch -> M Counters :=
  match k with
  | TrainPass => train_batch
  | ValidatePass => validate_batch
  end.

Definition empty_message (k : pass_kind) : string :=
  match k with
  | TrainPass => train_empty
  | ValidatePass => validate_empty
  end.

(** The sub-directory of the data set a pass reads. *)
Definition subdirectory (k : pass_kind) : string :=
  match k with
  | TrainPass => "training"
  | ValidatePass => "validation"
  end.

Definition loader_of (k : pass_kind) (loaders : DataLoader * DataLoader) : DataLoader :=
  match k with
  | TrainPass => fst loaders
  | ValidatePass => snd loaders
  end.

(** The world in which a pass starts drawing its batches: fresh metrics,
    the mode set and, for validation, gradients disabled. *)
Definition enter_pass (k : pass_kind) (w : World) : World :=
  let w := set_metrics_obj Metrics w in
  match k with
  | TrainPass => set_net_training true (set_calls (calls w ++ [CTrainMode]) w)
  | ValidatePass =>
      set_grad_enabled false
        (set_net_training false (set_calls (calls w ++ [CEvalMode]) w))
  end.

(** The world a pass leaves, from the world [w0] it was called in and the
    world [w] its loop stopped in. *)
Definition leave_pass (k : pass_kind) (w0 w : World) : World :=
  match k with
  | TrainPass => w
  | ValidatePass => set_grad_enabled (grad_enabled w0) w
  end.

(** [images.size(0)] summed over the batches. *)
Definition samples_processed (batches : list Batch) : nat :=
  sum_list (map (fun b => default 0%nat (head (size (b_images b)))) batches).

Definition hist_of (acc : Counters) (w : World) : Hist :=
  {| loss := float_div (running_loss acc) (num_samples acc);
     miou := get_miou (metrics_obj w);
     fg_iou := get_fg_iou (metrics_obj w);
     mcc := get_mcc (metrics_obj w) |}.

(** A batch whose shapes disagree, for the network in state [sd] and mode
    [training]: image against mask, output against mask, or the class
    dimension of the output against the class count. *)
Definition shape_mismatch (num_classes : nat) (training : bool) (sd : state_dict)
    (b : Batch) : Prop :=
  let outputs := fst (forward training sd (b_images b)) in
  drop 2 (size (b_images b)) ≠ drop 1 (size (b_masks b))
  ∨ drop 2 (size outputs) ≠ drop 1 (size (b_masks b))
  ∨ exists k, size outputs !! 1%nat = Some k ∧ k ≠ num_classes.

(** The assertion a mismatched batch fails: the checks run in the order
    image against mask, output against mask, class dimension. *)
Definition failed_check (training : bool) (sd : state_dict) (b : Batch) : string :=
  let outputs := fst (forward training sd (b_images b)) in
  if bool_decide (drop 2 (size (b_images b)) = drop 1 (size (b_masks b))) then
    if bool_decide (drop 2 (size outputs) = drop 1 (size (b_masks b)))
    then classes_sync else predictions_masks_sync
  else images_masks_sync.

End PassVocabulary.

(** *** Vocabulary of the further properties *)

Section MoreVocabulary.
Context `{Robosat}.

(** Nothing but the random generator differs between [w] and [w']. *)
Definition only_rng (w w' : World) : Prop := w' = set_rng_state (rng_state w') w.

(** The calls of the body of the training loop for one batch that yields
    [pairs] (mask, output) pairs. *)
Definition train_batch_calls (grad : bool) (pairs : nat) : list call :=
  [CZeroGrad; CForward true grad; CBackward; CStep] ++ replicate pairs CMetricsAdd.

(** What an evaluation-mode network in state [sd] gives for a batch: its
    outputs, its loss and what it adds to the metrics. *)
Definition eval_outputs (sd : state_dict) (b : Batch) : tensor :=
  fst (forward false sd (b_images b)).

Definition eval_loss (criterion : string) (sd : state_dict) (b : Batch) : float :=
  criterion_item criterion (eval_outputs sd b) (b_masks b).

Definition add_pairs (m : metrics) (pairs : list (tensor * tensor)) : metrics :=
  fold_left (fun m mo => metrics_add m (fst mo) (snd mo)) pairs m.

Definition eval_metrics (sd : state_dict) (m : metrics) (b : Batch) : metrics :=
  add_pairs m (zip (unbind (b_masks b)) (unbind (eval_outputs sd b))).

(** The (sub-directory, band) pairs of the channels, in order, and the log
    line of the pair numbered [i]. *)
Definition channel_bands (chans : list Channel) : list (string * Z) :=
  flat_map (fun channel => map (fun band => (sub channel, band)) (bands channel)) chans.

Definition channel_line (i : Z) (sb : string * Z) : string :=
  "Channel " +:+ Py.str_int i +:+ ":" +:+ String Py.tab (String Py.tab " ")
  +:+ fst sb +:+ "[band: " +:+ Py.str_int (snd sb) +:+ "]".

(** What a training step works on: the state dict of the network, its
    accumulated gradients and the state of the optimizer. *)
Record Learner : Type := {
  l_state_dict : state_dict;
  l_grads : grads;
  l_optimizer : optim_state;
}.

Definition learner_of (w : World) : Learner :=
  {| l_state_dict := net_sd w; l_grads := net_grads w; l_optimizer := optimizer_sd w |}.

(** The (mask, output) pairs of a batch, the outputs being those of the
    network in training mode before the step on that batch. *)
Definition train_pairs (l : Learner) (b : Batch) : list (tensor * tensor) :=
  zip (unbind (b_masks b)) (unbind (fst (forward true (l_state_dict l) (b_images b)))).

(** One step on a batch: gradients zeroed, forward pass in training mode,
    backward pass, optimizer step. *)
Definition train_step (criterion : string) (l : Learner) (b : Batch) : Learner :=
  let sd := snd (forward true (l_state_dict l) (b_images b)) in
  let g := backward criterion sd (b_images b) (b_masks b) (zero_grad (l_grads l)) in
  let '(o, sd') := adam_step (l_optimizer l) sd g in
  {| l_state_dict := sd'; l_grads := g; l_optimizer := o |}.

(** The calls of the training loop over [batches], from the learner [l]. *)
Fixpoint train_trace (grad : bool) (criterion : string) (l : Learner)
    (batches : list Batch) : list call :=
  match batches with
  | [] => []
  | b :: rest =>
      train_batch_calls grad (length (train_pairs l b))
      ++ train_trace grad criterion (train_step criterion l b) rest
  end.

(** The metrics once the training loop has run over [batches]. *)
Fixpoint train_seen (criterion : string) (l : Learner) (m : metrics)
    (batches : list Batch) : metrics :=
  match batches with
  | [] => m
  | b :: rest =>
      train_seen criterion (train_step criterion l b) (add_pairs m (train_pairs l b)) rest
  end.

(** The log lines of the pairs [l], numbered from [n]. *)
Definition channel_lines (n : Z) (l : list (string * Z)) : list string :=
  imap (fun i sb => channel_line (n + Z.of_nat i) sb) l.

(** The log is as it was. *)
Definition same_log (w w' : World) : Prop := logged w' = logged w.

End MoreVocabulary.

(** ** A small concrete backend

    An instance on which the driver computes: a tensor is known by its
    shape only, floats are natural numbers, the network maps a batch [N; C; H; W]
    to [N; 2; H; W] and counts its training-mode forward passes and its
    optimizer steps in the state dict. *)

Module Tiny.

Definition shape_unbind (t : list nat) : list (list nat) :=
  match t with
  | [] => []
  | n :: rest => replicate n rest
  end.

Definition shape_stack (l : list (list nat)) : list nat :=
  length l :: default [] (head l).

Definition shape_forward (training : bool) (sd : nat) (x : list nat) : list nat * nat :=
  (match x with
   | n :: _ :: hw => n :: 2%nat :: hw
   | _ => x
   end,
   if training then S sd else sd).

#[global] Instance torch : Torch := {|
  float := nat;
  float_of_int := Z.to_nat;
  float_add := Nat.add;
  float_div := Nat.div;
  float_truthy := fun x => negb (Nat.eqb x 0);
  float_str := fun _ => "float";
  float_fixed := fun _ _ => "float";
  float_parse := fun s => Some (String.length s);
  tensor := list nat;
  size := fun t => t;
  unbind := shape_unbind;
  stack := shape_stack;
  normalize := fun _ _ t => t;
  state_dict := nat;
  grads := nat;
  optim_state := nat;
  no_grads := 0%nat;
  new_model := fun _ _ _ _ _ => 0%nat;
  new_adam := fun _ _ => 0%nat;
  forward := shape_forward;
  zero_grad := fun _ => 0%nat;
  criterion_item := fun _ _ _ => 1%nat;
  backward := fun _ _ _ _ g => S g;
  adam_step := fun o sd g => (S o, (sd + 100 * g)%nat);
  rng := nat;
  randperm := fun g n => (reverse (seq 0 n), S g);
|}.

(** Three aligned tiles under [data/training], two under [data/validation],
    one misaligned tile under [bad/training] and [bad/validation]. *)
Definition tiles_on_disk (root : string) (chans : list Channel) (labels : string) :
    list (list nat * list nat * tile) :=
  if bool_decide (root = "data/training") then
    [([3; 4; 4]%nat, [4; 4]%nat, (0, 0, 18)); ([3; 4; 4]%nat, [4; 4]%nat, (0, 1, 18));
     ([3; 4; 4]%nat, [4; 4]%nat, (1, 0, 18))]
  else if bool_decide (root = "data/validation") then
    [([3; 4; 4]%nat, [4; 4]%nat, (5, 5, 18)); ([3; 4; 4]%nat, [4; 4]%nat, (5, 6, 18))]
  else if bool_decide (root = "bad/training") || bool_decide (root = "bad/validation") then
    [([3; 4; 4]%nat, [5; 5]%nat, (9, 9, 18))]
  else [].

#[global] Instance robosat : Robosat := {|
  metrics := nat;
  Metrics := 0%nat;
  metrics_add := fun m _ _ => S m;
  get_miou := fun m => m;
  get_fg_iou := fun m => m;
  get_mcc := fun m => m;
  resize_image := fun _ t => t;
  resize_mask := fun _ t => t;
  flip_image := fun _ t => t;
  flip_mask := fun _ t => t;
  random_choice := fun g => (Rotate90, S g);
  image_to_tensor := fun t => t;
  mask_to_tensor := fun t => t;
  slippy_tiles := tiles_on_disk;
|}.

Definition config (path : string) (batch_size epochs : Z) : Config :=
  {| model_name := "albunet"; model_encoder := "resnet50"; model_pretrained := true;
     model_loss := "lovasz"; model_lr := 1%nat; model_decay := 0%nat;
     model_epochs := epochs;
     model_batch_size := batch_size; model_tile_size := 4;
     model_data_augmentation := true; dataset_path := path;
     classes_titles := ["background"; "building"];
     channels := [ {| sub := "images"; bands := [1; 2; 3] |} ] |}.

Definition env (path : string) (batch_size epochs : Z) : Env :=
  {| load_config := fun _ => config path batch_size epochs;
     cuda_device_count := None;
     model_modules := ["albunet"; "unet"];
     loss_modules := ["crossentropy"; "lovasz"] |}.

Definition args : Args :=
  {| args_config := "config.toml"; args_checkpoint := None; args_resume := false;
     args_workers := 0; args_dataset := None; args_epochs := None; args_lr := None;
     args_out := "out" |}.

Definition world0 : World :=
  {| net_sd := 0%nat; net_training := true; net_grads := 0%nat; optimizer_sd := 0%nat;
     grad_enabled := true; metrics_obj := 0%nat; files := ∅; logged := []; calls := [];
     rng_state := 0%nat |}.

End Tiny.

(** Runs of [main] on the small backend: a checkpoint on disk, arguments
    that name it, and an environment without the configured model. *)
Module TinyRuns.

Definition loaders (path : string) (batch_size : Z) : DataLoader * DataLoader :=
  match get_dataset_loaders (PathStr path) (Tiny.config path batch_size 2) 0 with
  | inr l => l
  | inl _ =>
      let ds := {| ds_root := ""; ds_channels := []; ds_labels := "";
                   ds_joint_transform := [] |} in
      let dl := {| dl_dataset := ds; dl_batch_size := 1; dl_shuffle := false;
                   dl_drop_last := true; dl_num_workers := 0 |} in
      (dl, dl)
  end.

Definition chkpt (epoch : Z) : @Checkpoint Tiny.torch :=
  @Build_Checkpoint Tiny.torch epoch 7%nat 9%nat.

Definition world_with (epoch : Z) : World :=
  set_files {[ "ck.pth" := chkpt epoch ]} Tiny.world0.

Definition args_with (resume : bool) : Args :=
  {| args_config := "config.toml"; args_checkpoint := Some "ck.pth";
     args_resume := resume; args_workers := 0; args_dataset := None;
     args_epochs := None; args_lr := None; args_out := "out" |}.

Definition unknown_env : Env :=
  {| load_config := fun _ => Tiny.config "data" 1 2;
     cuda_device_count := Some 1;
     model_modules := ["unet"];
     loss_modules := ["crossentropy"; "lovasz"] |}.

(** An environment with the configured model but without the configured
    loss. *)
Definition unknown_loss_env : Env :=
  {| load_config := fun _ => Tiny.config "data" 1 2;
     cuda_device_count := None;
     model_modules := ["albunet"; "unet"];
     loss_modules := ["crossentropy"] |}.

End TinyRuns.

(** One epoch on the small backend, step by step. *)
Module TinyPass.

Definition train_loader : DataLoader := fst (TinyRuns.loaders "data" 1).
Definition val_loader : DataLoader := snd (TinyRuns.loaders "data" 1).

(** The batches one training pass draws, and the world once drawn. *)
Definition drawn : (Py.exn + list Batch) * World :=
  iterate train_loader (enter_pass TrainPass Tiny.world0).

Definition batches : list Batch :=
  match fst drawn with inr l => l | inl _ => [] end.

Definition first_batch : Batch :=
  default {| b_images := []; b_masks := []; b_tiles := [] |} (head batches).

Definition looped : (Py.exn + Counters) * World :=
  pass_batches TrainPass 2 "lovasz" batches (snd drawn).

Definition counted : Counters :=
  match fst looped with inr acc => acc | inl _ => counters0 end.

Definition epoch_start : World :=
  world_after (log_log "---" ;; log_log ("Epoch: " +:+ Py.str_int (0 + 1) +:+ "/"
                                         +:+ Py.str_int 2)) Tiny.world0.

Definition trained : (Py.exn + Hist) * World := train train_loader 2 "lovasz" epoch_start.

Definition train_hist : Hist :=
  match fst trained with
  | inr h => h
  | inl _ => {| loss := 0%nat; miou := 0%nat; fg_iou := 0%nat; mcc := 0%nat |}
  end.

Definition validated : (Py.exn + Hist) * World :=
  validate val_loader 2 "lovasz"
    (world_after (log_log (hist_line "Train   " "building" train_hist)) (snd trained)).

Definition val_hist : Hist :=
  match fst validated with
  | inr h => h
  | inl _ => {| loss := 0%nat; miou := 0%nat; fg_iou := 0%nat; mcc := 0%nat |}
  end.

End TinyPass.

(** Further runs on the small backend: a whole epoch, a configuration with
    a single class title, arguments that resume from the checkpoint of the
    first epoch or override the data set, and a validation pass. *)
Module TinyEpoch.

Definition single_class : Config :=
  {| model_name := "albunet"; model_encoder := "resnet50"; model_pretrained := true;
     model_loss := "lovasz"; model_lr := 1%nat; model_decay := 0%nat;
     model_epochs := 2;
     model_batch_size := 1; model_tile_size := 4;
     model_data_augmentation := true; dataset_path := "data";
     classes_titles := ["building"];
     channels := [ {| sub := "images"; bands := [1; 2; 3] |} ] |}.

Definition done : (Py.exn + unit) * World :=
  run_epoch (Tiny.config "data" 1 2) "out" 2 2 "lovasz" TinyPass.train_loader
    TinyPass.val_loader 0 Tiny.world0.

Definition resume_args : Args :=
  {| args_config := "config.toml";
     args_checkpoint := Some "out/checkpoint-00001-of-00002.pth";
     args_resume := true; args_workers := 0; args_dataset := None;
     args_epochs := None; args_lr := None; args_out := "out" |}.

Definition resume_only : Args :=
  {| args_config := "config.toml"; args_checkpoint := None; args_resume := true;
     args_workers := 0; args_dataset := None; args_epochs := None; args_lr := None;
     args_out := "out" |}.

Definition dataset_args : Args :=
  {| args_config := "config.toml"; args_checkpoint := None; args_resume := false;
     args_workers := 0; args_dataset := Some 5; args_epochs := None; args_lr := None;
     args_out := "out" |}.

Definition trained : (Py.exn + Hist) * World :=
  train TinyPass.train_loader 2 "lovasz" Tiny.world0.

Definition train_hist : Hist :=
  match fst trained with
  | inr h => h
  | inl _ => {| loss := 0%nat; miou := 0%nat; fg_iou := 0%nat; mcc := 0%nat |}
  end.

Definition val_drawn : (Py.exn + list Batch) * World :=
  iterate TinyPass.val_loader (enter_pass ValidatePass Tiny.world0).

Definition val_batches : list Batch :=
  match fst val_drawn with inr l => l | inl _ => [] end.

Definition validated : (Py.exn + Hist) * World :=
  validate TinyPass.val_loader 2 "lovasz" Tiny.world0.

Definition val_hist : Hist :=
  match fst validated with
  | inr h => h
  | inl _ => {| loss := 0%nat; miou := 0%nat; fg_iou := 0%nat; mcc := 0%nat |}
  end.

(** One iteration of the training loader with batches of two. *)
Definition pairs_drawn : (Py.exn + list Batch) * World :=
  iterate (fst (TinyRuns.loaders "data" 2)) Tiny.world0.

Definition pairs_batches : list Batch :=
  match fst pairs_drawn with inr l => l | inl _ => [] end.

(** The training loop on misaligned tiles. *)
Definition interrupted : (Py.exn + unit) * World :=
  training (Tiny.env "bad" 1 2) Tiny.args 0 (TinyRuns.loaders "bad" 1) Tiny.world0.

End TinyEpoch.

(** * Properties *)

(** ** The definitions on small inputs *)

Example range_3_6 : Py.range 3 6 = [3; 4; 5].
Proof. reflexivity. Qed.

Example range_empty : Py.range 10 10 = [].
Proof. reflexivity. Qed.

Example format_05d_7 : Py.format_05d 7 = "00007".
Proof. reflexivity. Qed.

Example format_05d_minus_42 : Py.format_05d (-42) = "-0042".
Proof. reflexivity. Qed.

Example format_05d_wide : Py.format_05d 123456 = "123456".
Proof. reflexivity. Qed.

Example path_join_plain : Py.path_join "out" "log" = "out/log".
Proof. reflexivity. Qed.

Example path_join_slash : Py.path_join "out/" "log" = "out/log".
Proof. reflexivity. Qed.

Example path_join_empty : Py.path_join "" "log" = "log".
Proof. reflexivity. Qed.

Example str_list_two : Py.str_list ["albunet"; "unet"] = "['albunet', 'unet']".
Proof. reflexivity. Qed.

Example batch_sampler_drop :
  batch_sampler 2 true [] [0; 1; 2; 3; 4]%nat = [[0; 1]; [2; 3]]%nat.
Proof. reflexivity. Qed.

Example batch_sampler_keep :
  batch_sampler 2 false [] [0; 1; 2; 3; 4]%nat = [[0; 1]; [2; 3]; [4]]%nat.
Proof. reflexivity. Qed.

Example int_of_str_42 : PyInt.int_of_str " 42 " = Some 42.
Proof. reflexivity. Qed.

Example int_of_str_neg : PyInt.int_of_str "-7" = Some (-7).
Proof. reflexivity. Qed.

Example int_of_str_underscore : PyInt.int_of_str "1_000" = Some 1000.
Proof. reflexivity. Qed.

Example int_of_str_path : PyInt.int_of_str "/data/tiles" = None.
Proof. reflexivity. Qed.

Example int_of_str_empty : PyInt.int_of_str "" = None.
Proof. reflexivity. Qed.

Example negative_number_like_cases :
  map PyInt.negative_number_like ["-5"; "-5.5"; "-.5"; "-5."; "-"; "--lr"; "5"]
  = [true; true; true; false; false; false; false].
Proof. reflexivity. Qed.

Example parse_args_negative_value :
  match parse_args ["--config"; "c"; "--epochs"; "-3"; "out"] with
  | inr args => args_epochs args
  | inl _ => None
  end = Some (-3).
Proof. reflexivity. Qed.

Example path_join_absolute : Py.path_join "out" "/tmp/log" = "/tmp/log".
Proof. reflexivity. Qed.

Example repr_str_escapes :
  Py.repr_str (String "a" (String Py.backslash (String Py.squote "b")))
  = String Py.dquote
      (String "a" (String Py.backslash (String Py.backslash
         (String Py.squote (String "b" (String Py.dquote "")))))).
Proof. reflexivity. Qed.

Example parse_args_overrides :
  parse_args ["--config"; "config.toml"; "--epochs"; "5"; "--resume"; "out"]
  = inr {| args_config := "config.toml"; args_checkpoint := None; args_resume := true;
           args_workers := 0; args_dataset := None; args_epochs := Some 5;
           args_lr := None; args_out := "out" |}.
Proof. reflexivity. Qed.

Example parse_args_missing_value :
  parse_args ["--config"; "--resume"; "out"] = inl "argument --config: expected one argument".
Proof. reflexivity. Qed.

Example parse_args_missing_out :
  parse_args ["--config"; "config.toml"]
  = inl "the following arguments are required: out".
Proof. reflexivity. Qed.

(** A whole run on the small backend: two epochs, two checkpoint files. *)
Example main_two_epochs :
  let run := main (Tiny.env "data" 1 2) Tiny.args Tiny.world0 in
  fst run = inr tt
  /\ map fst (map_to_list (files (snd run)))
     = ["out/checkpoint-00001-of-00002.pth"; "out/checkpoint-00002-of-00002.pth"]
  /\ map (fun f => ck_epoch (snd f)) (map_to_list (files (snd run))) = [1; 2]
  /\ List.filter
       (fun c => match c with CTrainMode | CEvalMode | CSave _ => true | _ => false end)
       (calls (snd run))
     = [CTrainMode; CEvalMode; CSave "out/checkpoint-00001-of-00002.pth";
        CTrainMode; CEvalMode; CSave "out/checkpoint-00002-of-00002.pth"].
Proof. vm_compute. repeat split. Qed.

(** No tile under the training directory: the shuffling loader is refused. *)
Example loaders_empty_training :
  get_dataset_loaders (PathStr "empty") (Tiny.config "empty" 1 2) 0
  = inl (Py.ValueError
           "num_samples should be a positive integer value, but got num_samples=0").
Proof. vm_compute. reflexivity. Qed.

(** A batch size that is not positive: the batch sampler is refused. *)
Example loaders_batch_size_zero :
  get_dataset_loaders (PathStr "data") (Tiny.config "data" 0 2) 0
  = inl (Py.ValueError
           "batch_size should be a positive integer value, but got batch_size=0").
Proof. vm_compute. reflexivity. Qed.

(** A batch size above the sample count: the first pass finds no batch. *)
Example main_short_dataset :
  fst (main (Tiny.env "data" 4 2) Tiny.args Tiny.world0)
  = inl (Py.AssertionError "dataset contains training images and labels").
Proof. vm_compute. reflexivity. Qed.

(** Misaligned tiles: the first batch fails the first assertion. *)
Example main_misaligned :
  fst (main (Tiny.env "bad" 1 2) Tiny.args Tiny.world0)
  = inl (Py.AssertionError "resolutions for images and masks are in sync").
Proof. vm_compute. reflexivity. Qed.

(** ** Strings and decimal formatting *)

Lemma append_cons (c : ascii) (s t : string) : String c s +:+ t = String c (s +:+ t).
Proof. reflexivity. Qed.

Lemma append_nil_l (t : string) : "" +:+ t = t.
Proof. reflexivity. Qed.

Lemma append_nil_r (s : string) : s +:+ "" = s.
Proof.
  induction s as [|c s IH]; [reflexivity|]. rewrite append_cons. now f_equal.
Qed.

Lemma append_length (s t : string) :
  String.length (s +:+ t) = (String.length s + String.length t)%nat.
Proof.
  induction s as [|c s IH]; [reflexivity|].
  rewrite append_cons. simpl. now rewrite IH.
Qed.

Lemma append_assoc (s t u : string) : (s +:+ t) +:+ u = s +:+ (t +:+ u).
Proof.
  induction s as [|c s IH]; [reflexivity|].
  rewrite !append_cons. now rewrite IH.
Qed.

Lemma append_inv_tail (s1 s2 r : string) : s1 +:+ r = s2 +:+ r -> s1 = s2.
Proof.
  revert s2. induction s1 as [|c s1 IH]; intros [|d s2] Heq.
  - reflexivity.
  - apply (f_equal String.length) in Heq.
    rewrite append_nil_l, append_cons in Heq. simpl in Heq.
    rewrite append_length in Heq. lia.
  - apply (f_equal String.length) in Heq.
    rewrite append_nil_l, append_cons in Heq. simpl in Heq.
    rewrite append_length in Heq. lia.
  - rewrite !append_cons in Heq. injection Heq as -> Heq.
    f_equal. now apply IH.
Qed.

Lemma pretty_N_char_value (d : N) :
  (d < 10)%N -> (N.of_nat (nat_of_ascii (pretty_N_char d)) - 48)%N = d.
Proof.
  intros Hd.
  assert (d = 0 ∨ d = 1 ∨ d = 2 ∨ d = 3 ∨ d = 4
          ∨ d = 5 ∨ d = 6 ∨ d = 7 ∨ d = 8 ∨ d = 9)%N as Hcases by lia.
  repeat (destruct Hcases as [-> | Hcases]; [reflexivity|]).
  subst d. reflexivity.
Qed.

Lemma pretty_N_char_digit (d : N) :
  bool_decide (48 <= nat_of_ascii (pretty_N_char d) <= 57)%nat = true.
Proof.
  unfold pretty_N_char.
  destruct d as [|p]; [reflexivity|].
  do 4 (try destruct p as [p|p|]); reflexivity.
Qed.

Lemma dec_value_pretty_go (x : N) (s : string) :
  dec_value (pretty_N_go x s) = (x * 10 ^ N.of_nat (String.length s) + dec_value s)%N.
Proof.
  revert s. induction (N.lt_wf_0 x) as [x _ IH]; intros s.
  destruct (decide (x = 0)%N) as [-> | Hx].
  { rewrite pretty_N_go_0. lia. }
  rewrite pretty_N_go_step by lia.
  rewrite IH by (apply N.div_lt; lia).
  simpl dec_value. simpl String.length.
  rewrite pretty_N_char_value by (apply N.mod_lt; lia).
  rewrite Nat2N.inj_succ, N.pow_succ_r'.
  pose proof (N.div_mod x 10 ltac:(lia)) as Hdm.
  set (p := (10 ^ N.of_nat (String.length s))%N) in *.
  rewrite Hdm at 3. lia.
Qed.

Lemma all_digits_pretty_go (x : N) (s : string) :
  all_digits s = true -> all_digits (pretty_N_go x s) = true.
Proof.
  revert s. induction (N.lt_wf_0 x) as [x _ IH]; intros s Hs.
  destruct (decide (x = 0)%N) as [-> | Hx].
  { now rewrite pretty_N_go_0. }
  rewrite pretty_N_go_step by lia.
  apply IH; [apply N.div_lt; lia|].
  simpl. now rewrite pretty_N_char_digit, Hs.
Qed.

Lemma dec_value_pretty_N (x : N) : dec_value (pretty x) = x.
Proof.
  unfold pretty, pretty_N. case_decide as Hx; [now subst|].
  rewrite dec_value_pretty_go.
  change (x * 1 + 0 = x)%N. lia.
Qed.

Lemma all_digits_pretty_N (x : N) : all_digits (pretty x) = true.
Proof.
  unfold pretty, pretty_N. case_decide; [reflexivity|].
  now apply all_digits_pretty_go.
Qed.

Lemma dec_value_zeros (k : nat) (s : string) : dec_value (Py.zeros k +:+ s) = dec_value s.
Proof.
  induction k as [|k IH]; [reflexivity|].
  simpl Py.zeros. rewrite append_cons.
  change (dec_value (String "0" (Py.zeros k +:+ s)))
    with (0 * 10 ^ N.of_nat (String.length (Py.zeros k +:+ s)) + dec_value (Py.zeros k +:+ s))%N.
  rewrite IH, N.mul_0_l. reflexivity.
Qed.

Lemma all_digits_zeros (k : nat) (s : string) :
  all_digits s = true -> all_digits (Py.zeros k +:+ s) = true.
Proof.
  intros Hs. induction k as [|k IH]; [assumption|].
  simpl Py.zeros. rewrite append_cons. simpl. now rewrite IH.
Qed.

Lemma dec_value_zero_pad (w : nat) (x : N) : dec_value (Py.zero_pad w (pretty x)) = x.
Proof. unfold Py.zero_pad. now rewrite dec_value_zeros, dec_value_pretty_N. Qed.

Lemma all_digits_zero_pad (w : nat) (x : N) : all_digits (Py.zero_pad w (pretty x)) = true.
Proof. unfold Py.zero_pad. apply all_digits_zeros, all_digits_pretty_N. Qed.

(** A non-negative number is formatted from its digits only, a negative one
    as a minus sign followed by digits. *)
Lemma format_05d_nonneg (n : Z) :
  0 <= n -> Py.format_05d n = Py.zero_pad 5 (pretty (Z.to_N n)).
Proof.
  intros Hn. destruct n as [|p|p]; [reflexivity|reflexivity|lia].
Qed.

Lemma format_05d_neg (p : positive) :
  Py.format_05d (Zneg p) = String "-" (Py.zero_pad 4 (pretty (Npos p))).
Proof. reflexivity. Qed.

Lemma format_05d_inj (a b : Z) : Py.format_05d a = Py.format_05d b -> a = b.
Proof.
  intros Heq.
  destruct (Z_lt_le_dec a 0) as [Ha|Ha], (Z_lt_le_dec b 0) as [Hb|Hb].
  - destruct a as [|pa|pa]; try lia. destruct b as [|pb|pb]; try lia.
    rewrite !format_05d_neg in Heq. injection Heq as Heq.
    apply (f_equal dec_value) in Heq. rewrite !dec_value_zero_pad in Heq.
    congruence.
  - destruct a as [|pa|pa]; try lia.
    rewrite format_05d_neg, (format_05d_nonneg b) in Heq by assumption.
    pose proof (all_digits_zero_pad 5 (Z.to_N b)) as Hd.
    rewrite <- Heq in Hd. discriminate Hd.
  - destruct b as [|pb|pb]; try lia.
    rewrite format_05d_neg, (format_05d_nonneg a) in Heq by assumption.
    pose proof (all_digits_zero_pad 5 (Z.to_N a)) as Hd.
    rewrite Heq in Hd. discriminate Hd.
  - rewrite !format_05d_nonneg in Heq by assumption.
    apply (f_equal dec_value) in Heq. rewrite !dec_value_zero_pad in Heq. lia.
Qed.

(** ** Checkpoint file names *)

Section CheckpointNames.
Context `{Robosat}.

Lemma checkpoint_name_inj (e1 e2 num_epochs : Z) :
  checkpoint_name e1 num_epochs = checkpoint_name e2 num_epochs -> e1 = e2.
Proof.
  unfold checkpoint_name. intros Heq.
  apply (inj (String.append "checkpoint-")) in Heq.
  apply append_inv_tail in Heq.
  now apply format_05d_inj.
Qed.

Lemma checkpoint_name_relative (e num_epochs : Z) :
  Py.startswith_sep (checkpoint_name e num_epochs) = false.
Proof. reflexivity. Qed.

Lemma path_join_relative_inj (out a b : string) :
  Py.startswith_sep a = false -> Py.startswith_sep b = false ->
  Py.path_join out a = Py.path_join out b -> a = b.
Proof.
  unfold Py.path_join. intros -> ->.
  destruct (bool_decide (out = "") || Py.endswith_sep out); intros Heq.
  - now apply (inj (String.append out)) in Heq.
  - apply (inj (String.append out)) in Heq.
    now apply (inj (String.append "/")) in Heq.
Qed.

(** Distinct epochs are saved under distinct paths. *)
Lemma checkpoint_path_inj (out : string) (e1 e2 num_epochs : Z) :
  Py.path_join out (checkpoint_name e1 num_epochs)
  = Py.path_join out (checkpoint_name e2 num_epochs) -> e1 = e2.
Proof.
  intros Heq. apply path_join_relative_inj in Heq;
    [|apply checkpoint_name_relative..].
  now apply checkpoint_name_inj in Heq.
Qed.

End CheckpointNames.

(** ** Reasoning in the monad *)

Section MonadLemmas.
Context `{Robosat}.

Lemma bind_inr {A B} (m : M A) (k : A -> M B) (w w' : World) (a : A) :
  m w = (inr a, w') -> bind m k w = k a w'.
Proof. unfold bind. now intros ->. Qed.

Lemma bind_inl {A B} (m : M A) (k : A -> M B) (w w' : World) (e : Py.exn) :
  m w = (inl e, w') -> bind m k w = (inl e, w').
Proof. unfold bind. now intros ->. Qed.

(** A computation that returned went through each of its two halves. *)
Lemma bind_inv_inr {A B} (m : M A) (k : A -> M B) (w w' : World) (b : B) :
  bind m k w = (inr b, w') ->
  exists a w1, m w = (inr a, w1) /\ k a w1 = (inr b, w').
Proof.
  unfold bind. destruct (m w) as [[e|a] w1]; [discriminate|]. eauto.
Qed.

Lemma foldM_app {A B} (f : A -> B -> M A) (a : A) (l1 l2 : list B) (w : World) :
  foldM f a (l1 ++ l2) w =
  match foldM f a l1 w with
  | (inl e, w') => (inl e, w')
  | (inr a', w') => foldM f a' l2 w'
  end.
Proof.
  revert a w. induction l1 as [|b l1 IH]; intros a w; simpl.
  - reflexivity.
  - unfold bind. destruct (f a b w) as [[e|a'] w']; [reflexivity|]. apply IH.
Qed.

Lemma for_each_app {A} (l1 l2 : list A) (body : A -> M unit) (w : World) :
  for_each (l1 ++ l2) body w =
  match for_each l1 body w with
  | (inl e, w') => (inl e, w')
  | (inr _, w') => for_each l2 body w'
  end.
Proof.
  revert w. induction l1 as [|a l1 IH]; intros w; simpl.
  - reflexivity.
  - unfold bind. destruct (body a w) as [[e|[]] w']; [reflexivity|]. apply IH.
Qed.

(** *** Relations every step of a computation respects *)

Section Preserves.
Variable R : World -> World -> Prop.
Hypothesis R_refl : forall w, R w w.
Hypothesis R_trans : forall w1 w2 w3, R w1 w2 -> R w2 w3 -> R w1 w3.

Lemma preserves_ret {A} (a : A) : preserves R (ret a).
Proof. intros w r w' [= <- <-]. apply R_refl. Qed.

Lemma preserves_raise {A} (e : Py.exn) : preserves R (@raise _ _ A e).
Proof. intros w r w' [= <- <-]. apply R_refl. Qed.

Lemma preserves_lift {A} (x : Py.exn + A) : preserves R (lift x).
Proof. intros w r w' [= <- <-]. apply R_refl. Qed.

Lemma preserves_get : preserves R get_world.
Proof. intros w r w' [= <- <-]. apply R_refl. Qed.

Lemma preserves_assert (c : bool) (msg : string) : preserves R (assert c msg).
Proof. destruct c; [apply preserves_ret|apply preserves_raise]. Qed.

Lemma preserves_modify (f : World -> World) :
  (forall w, R w (f w)) -> preserves R (modify f).
Proof. intros Hf w r w' [= <- <-]. apply Hf. Qed.

Lemma preserves_bind {A B} (m : M A) (k : A -> M B) :
  preserves R m -> (forall a, preserves R (k a)) -> preserves R (bind m k).
Proof.
  intros Hm Hk w r w'. unfold bind.
  destruct (m w) as [[e|a] w1] eqn:Em.
  - intros [= <- <-]. eapply Hm, Em.
  - intros Ek. eapply R_trans; [eapply Hm, Em|eapply Hk, Ek].
Qed.

Lemma preserves_foldM {A B} (f : A -> B -> M A) (l : list B) :
  (forall a b, preserves R (f a b)) -> forall a, preserves R (foldM f a l).
Proof.
  intros Hf. induction l as [|b l IH]; intros a; simpl.
  - apply preserves_ret.
  - apply preserves_bind; [apply Hf|apply IH].
Qed.

Lemma preserves_mapM {A B} (f : A -> M B) (l : list A) :
  (forall a, preserves R (f a)) -> preserves R (mapM f l).
Proof.
  intros Hf. induction l as [|a l IH]; simpl.
  - apply preserves_ret.
  - apply preserves_bind; [apply Hf|]. intros b.
    apply preserves_bind; [apply IH|]. intros bs. apply preserves_ret.
Qed.

Lemma preserves_for_each {A} (l : list A) (body : A -> M unit) :
  (forall a, preserves R (body a)) -> preserves R (for_each l body).
Proof.
  intros Hb. induction l as [|a l IH]; simpl.
  - apply preserves_ret.
  - apply preserves_bind; [apply Hb|]. intros _. apply IH.
Qed.

End Preserves.

End MonadLemmas.

(** ** Frames: what drawing batches and accumulating metrics leave alone *)

Section FrameLemmas.
Context `{Robosat} (R : World -> World -> Prop) `{!Frame R}.

Ltac keeps_step :=
  first
    [ apply (preserves_bind R frame_trans)
    | apply (preserves_ret R frame_refl)
    | apply (preserves_raise R frame_refl)
    | apply (preserves_lift R frame_refl)
    | apply (preserves_get R frame_refl)
    | apply (preserves_assert R frame_refl)
    | apply (preserves_foldM R frame_refl frame_trans)
    | apply (preserves_mapM R frame_refl frame_trans)
    | apply (preserves_for_each R frame_refl frame_trans)
    | apply (preserves_modify R) ].

Lemma keeps_bind {A B} (m : M A) (k : A -> M B) :
  preserves R m -> (forall a, preserves R (k a)) -> preserves R (bind m k).
Proof. apply (preserves_bind R frame_trans). Qed.

Lemma keeps_apply_stage (s : joint_stage) (im : tensor * tensor) : preserves R (apply_stage s im).
Proof.
  destruct s as [sz|[]|it mt]; simpl; [keeps_step| |keeps_step|keeps_step].
  keeps_step; [keeps_step|]. intros w.
  destruct (random_choice (rng_state w)) as [op g].
  keeps_step; [keeps_step; intros w'; apply frame_rng|intros _; keeps_step].
Qed.

Lemma keeps_JointCompose (stages : list joint_stage) (im : tensor * tensor) :
  preserves R (JointCompose stages im).
Proof.
  unfold JointCompose. revert im. apply (preserves_foldM R frame_refl frame_trans).
  intros im s. apply keeps_apply_stage.
Qed.

Lemma keeps_getitem (ds : Dataset) (i : nat) : preserves R (getitem ds i).
Proof.
  unfold getitem. keeps_step; [keeps_step|]. intros [[image mask] t].
  keeps_step; [apply keeps_JointCompose|]. intros im. keeps_step.
Qed.

Lemma keeps_sampler (dl : DataLoader) : preserves R (sampler dl).
Proof.
  unfold sampler. destruct (dl_shuffle dl); [|keeps_step].
  keeps_step; [keeps_step|]. intros w.
  destruct (randperm (rng_state w) (dataset_len (dl_dataset dl))) as [order g].
  keeps_step; [keeps_step; intros w'; apply frame_rng|intros _; keeps_step].
Qed.

Lemma keeps_iterate (dl : DataLoader) : preserves R (iterate dl).
Proof.
  unfold iterate. keeps_step; [apply keeps_sampler|]. intros order.
  keeps_step. intros idxs. keeps_step; [|intros samples; keeps_step].
  keeps_step. apply keeps_getitem.
Qed.

Lemma keeps_iter_tensor (t : tensor) : preserves R (iter_tensor t).
Proof. unfold iter_tensor. destruct (size t); keeps_step. Qed.

Lemma keeps_metrics_add_call (mask output : tensor) : preserves R (metrics_add_call mask output).
Proof.
  unfold metrics_add_call, record.
  keeps_step; [keeps_step; intros w; apply frame_metrics_add|].
  intros _. keeps_step. intros w. apply frame_metrics.
Qed.

Lemma keeps_accumulate (ms os : list tensor) :
  preserves R (for_each (zip ms os) (fun mo => metrics_add_call (fst mo) (snd mo))).
Proof. keeps_step. intros mo. apply keeps_metrics_add_call. Qed.

(** The loop body of [validate] respects [R] as soon as the forward pass
    does. *)
Lemma keeps_validate_batch (num_classes : nat) (criterion : string) (acc : Counters)
    (b : Batch) :
  (forall images, preserves R (net_call images)) ->
  preserves R (validate_batch num_classes criterion acc b).
Proof.
  intros Hnet. unfold validate_batch.
  repeat first
    [ apply keeps_iter_tensor | apply keeps_accumulate | apply Hnet
    | keeps_step | intros ? ].
Qed.

Lemma keeps_make_hist (acc : Counters) : preserves R (make_hist acc).
Proof. unfold make_hist. keeps_step; [keeps_step|intros w; keeps_step]. Qed.

End FrameLemmas.

(** ** The shape of a pass *)

Section PassLemmas.
Context `{Robosat}.

Lemma pass_unfold (k : pass_kind) (loader : DataLoader) (num_classes : nat)
    (criterion : string) (w : World) :
  pass k loader num_classes criterion w =
  match iterate loader (enter_pass k w) with
  | (inl e, w1) => (inl e, leave_pass k w w1)
  | (inr batches, w1) =>
      match pass_batches k num_classes criterion batches w1 with
      | (inl e, w2) => (inl e, leave_pass k w w2)
      | (inr acc, w2) =>
          if bool_decide (0 < num_samples acc)%nat
          then (inr (hist_of acc w2), leave_pass k w w2)
          else (inl (Py.AssertionError (empty_message k)), leave_pass k w w2)
      end
  end.
Proof.
  destruct k; simpl.
  - unfold train, net_train, record, modify, bind, assert, make_hist, get_world, ret, raise.
    simpl. destruct (iterate loader _) as [[e|batches] w1]; [reflexivity|].
    destruct (train_batches _ _ _ _) as [[e|acc] w2]; [reflexivity|].
    destruct (bool_decide _); reflexivity.
  - unfold validate, net_eval, record, modify, bind, with_no_grad, assert, make_hist,
      get_world, ret, raise.
    simpl. destruct (iterate loader _) as [[e|batches] w1]; [reflexivity|].
    destruct (validate_batches _ _ _ _) as [[e|acc] w2]; [reflexivity|].
    destruct (bool_decide _); reflexivity.
Qed.

End PassLemmas.

(** ** Counting samples *)

Section Counting.
Context `{Robosat}.

Ltac inv_bind H :=
  let a := fresh "a" in
  let w := fresh "w" in
  let Hm := fresh "Hm" in
  apply bind_inv_inr in H as (a & w & Hm & H).

Lemma index_0_head {A} (l : list A) (x : A) : Py.index l 0 = inr x -> head l = Some x.
Proof. destruct l; [discriminate|]. now intros [= ->]. Qed.

Lemma pass_batch_counts (k : pass_kind) (num_classes : nat) (criterion : string)
    (acc acc' : Counters) (b : Batch) (w w' : World) :
  pass_batch k num_classes criterion acc b w = (inr acc', w') ->
  num_samples acc' = (num_samples acc + default 0 (head (size (b_images b))))%nat.
Proof.
  destruct k; simpl; intros Hrun.
  - unfold train_batch in Hrun.
    apply bind_inv_inr in Hrun as (? & wa & _ & Hrun).
    apply bind_inv_inr in Hrun as (n & wb & Hidx & Hrun).
    unfold lift in Hidx. injection Hidx as Hn _.
    apply index_0_head in Hn. rewrite Hn.
    repeat inv_bind Hrun. unfold ret in Hrun. now injection Hrun as <- _.
  - unfold validate_batch in Hrun.
    apply bind_inv_inr in Hrun as (? & wa & _ & Hrun).
    apply bind_inv_inr in Hrun as (n & wb & Hidx & Hrun).
    unfold lift in Hidx. injection Hidx as Hn _.
    apply index_0_head in Hn. rewrite Hn.
    repeat inv_bind Hrun. unfold ret in Hrun. now injection Hrun as <- _.
Qed.

Lemma fold_batches_counts (k : pass_kind) (num_classes : nat) (criterion : string)
    (batches : list Batch) (acc acc' : Counters) (w w' : World) :
  foldM (pass_batch k num_classes criterion) acc batches w = (inr acc', w') ->
  num_samples acc' = (num_samples acc + samples_processed batches)%nat.
Proof.
  revert acc w. induction batches as [|b batches IH]; intros acc w; simpl.
  - intros [= <- _]. unfold samples_processed. simpl. lia.
  - intros Hrun. inv_bind Hrun.
    apply pass_batch_counts in Hm. apply IH in Hrun.
    unfold samples_processed in *. simpl. lia.
Qed.

Lemma pass_batches_fold (k : pass_kind) (num_classes : nat) (criterion : string)
    (batches : list Batch) :
  pass_batches k num_classes criterion batches
  = foldM (pass_batch k num_classes criterion) counters0 batches.
Proof. now destruct k. Qed.

Lemma pass_batches_counts (k : pass_kind) (num_classes : nat) (criterion : string)
    (batches : list Batch) (acc : Counters) (w w' : World) :
  pass_batches k num_classes criterion batches w = (inr acc, w') ->
  num_samples acc = samples_processed batches.
Proof.
  rewrite pass_batches_fold. intros Hrun.
  now apply fold_batches_counts in Hrun.
Qed.

(** C3. When the loop of a training or validation pass has run over all the
    batches of the loader, the pass fails with the empty-dataset assertion
    exactly when the batches held zero samples in total; with at least one
    sample it returns its statistics record: the running loss over the
    sample count and the three figures of the metrics object. *)
Theorem empty_dataset_iff_no_samples (k : pass_kind) (loader : DataLoader)
    (num_classes : nat) (criterion : string) (w w1 w2 : World)
    (batches : list Batch) (acc : Counters) :
  iterate loader (enter_pass k w) = (inr batches, w1) ->
  pass_batches k num_classes criterion batches w1 = (inr acc, w2) ->
  (samples_processed batches = 0%nat <->
     exists w', pass k loader num_classes criterion w
                = (inl (Py.AssertionError (empty_message k)), w'))
  /\ ((0 < samples_processed batches)%nat ->
      pass k loader num_classes criterion w
      = (inr {| loss := float_div (running_loss acc) (samples_processed batches);
                miou := get_miou (metrics_obj w2);
                fg_iou := get_fg_iou (metrics_obj w2);
                mcc := get_mcc (metrics_obj w2) |},
         leave_pass k w w2)).
Proof.
  intros Hiter Hloop.
  pose proof (pass_batches_counts _ _ _ _ _ _ _ Hloop) as Hcount.
  rewrite pass_unfold, Hiter, Hloop, Hcount.
  split; [split|].
  - intros ->. rewrite bool_decide_eq_false_2 by lia. eauto.
  - intros [w' Hfail]. case_bool_decide as Hpos; [discriminate|lia].
  - intros Hpos. rewrite bool_decide_eq_true_2 by assumption.
    unfold hist_of. now rewrite Hcount.
Qed.

End Counting.

(** ** Running the primitive operations *)

Section Running.
Context `{Robosat}.

Lemma run_assert_true (c : bool) (msg : string) (w : World) :
  c = true -> assert c msg w = (inr tt, w).
Proof. now intros ->. Qed.

Lemma run_assert_false (c : bool) (msg : string) (w : World) :
  c = false -> assert c msg w = (inl (Py.AssertionError msg), w).
Proof. now intros ->. Qed.

Lemma run_lift {A} (x : A) (r : Py.exn + A) (w : World) :
  r = inr x -> lift r w = (inr x, w).
Proof. now intros ->. Qed.

Lemma run_zero_grad (w : World) :
  optimizer_zero_grad w
  = (inr tt, set_net_grads (zero_grad (net_grads w)) (set_calls (calls w ++ [CZeroGrad]) w)).
Proof. reflexivity. Qed.

Lemma run_net_call (images : tensor) (w : World) :
  net_call images w
  = (inr (fst (forward (net_training w) (net_sd w) images)),
     set_net_sd (snd (forward (net_training w) (net_sd w) images))
       (set_calls (calls w ++ [CForward (net_training w) (grad_enabled w)]) w)).
Proof.
  unfold net_call, bind, get_world, record, modify, ret. simpl.
  now destruct (forward (net_training w) (net_sd w) images).
Qed.

Lemma run_log (line : string) (w : World) :
  log_log line w = (inr tt, set_logged (logged w ++ [line]) w).
Proof. reflexivity. Qed.

Lemma run_modify (f : World -> World) (w : World) : modify f w = (inr tt, f w).
Proof. reflexivity. Qed.

Lemma run_torch_save (states : Checkpoint) (path : string) (w : World) :
  torch_save states path w
  = (inr tt, set_files (<[path := states]> (files w)) (set_calls (calls w ++ [CSave path]) w)).
Proof. reflexivity. Qed.

Lemma run_torch_load (path : string) (chkpt : Checkpoint) (w : World) :
  files w !! path = Some chkpt ->
  torch_load path w = (inr chkpt, set_calls (calls w ++ [CLoad path]) w).
Proof.
  intros Hfile. unfold torch_load, bind, record, modify, get_world. simpl.
  now rewrite Hfile.
Qed.

End Running.

Ltac run_ok lem := erewrite bind_inr by (apply lem; eassumption); cbv beta.
Ltac run_fail lem := erewrite bind_inl by (apply lem; eassumption).

(** ** Shape assertions *)

Section Shapes.
Context `{Robosat}.

Lemma index_lookup {A} (l : list A) (i : nat) (x : A) :
  l !! i = Some x -> Py.index l i = inr x.
Proof. unfold Py.index. now intros ->. Qed.

Lemma index_0_nonempty {A} (l : list A) : l ≠ [] -> exists x, Py.index l 0 = inr x.
Proof. destruct l as [|x l]; [congruence|]. intros _. now exists x. Qed.

(** One mismatched batch: the loop body raises the first assertion that
    fails and the metrics object is as it was. *)
Lemma mismatched_batch_fails (k : pass_kind) (num_classes : nat) (criterion : string)
    (acc : Counters) (b : Batch) (w : World) :
  size (b_images b) ≠ [] ->
  shape_mismatch num_classes (net_training w) (net_sd w) b ->
  exists w',
    pass_batch k num_classes criterion acc b w
    = (inl (Py.AssertionError (failed_check (net_training w) (net_sd w) b)), w')
    /\ metrics_obj w' = metrics_obj w.
Proof.
  intros Hdim Hbad. unfold shape_mismatch in Hbad. unfold failed_check.
  destruct (index_0_nonempty _ Hdim) as [n Hn].
  set (outputs := fst (forward (net_training w) (net_sd w) (b_images b))) in *.
  destruct (bool_decide (drop 2 (size (b_images b)) = drop 1 (size (b_masks b)))) eqn:Him.
  2:{ exists w. split; [|reflexivity].
      destruct k; simpl; unfold train_batch, validate_batch; now run_fail run_assert_false. }
  destruct (bool_decide (drop 2 (size outputs) = drop 1 (size (b_masks b)))) eqn:Hout.
  2:{ destruct k; simpl; eexists; split.
      - unfold train_batch. run_ok run_assert_true. run_ok @run_lift.
        run_ok run_zero_grad. run_ok run_net_call.
        run_fail run_assert_false. reflexivity.
      - reflexivity.
      - unfold validate_batch. run_ok run_assert_true. run_ok @run_lift.
        run_ok run_net_call. run_fail run_assert_false. reflexivity.
      - reflexivity. }
  destruct Hbad as [Hbad|[Hbad|(c & Hc & Hne)]];
    [now apply bool_decide_eq_true in Him|now apply bool_decide_eq_true in Hout|].
  apply index_lookup in Hc.
  assert (bool_decide (c = num_classes) = false) as Hcls
    by now apply bool_decide_eq_false.
  destruct k; simpl; eexists; split.
  - unfold train_batch. run_ok run_assert_true. run_ok @run_lift.
    run_ok run_zero_grad. run_ok run_net_call.
    run_ok run_assert_true. run_ok @run_lift.
    run_fail run_assert_false. reflexivity.
  - reflexivity.
  - unfold validate_batch. run_ok run_assert_true. run_ok @run_lift.
    run_ok run_net_call. run_ok run_assert_true. run_ok @run_lift.
    run_fail run_assert_false. reflexivity.
  - reflexivity.
Qed.

Lemma failed_check_sync (training : bool) (sd : state_dict) (b : Batch) :
  In (failed_check training sd b) sync_messages.
Proof. unfold failed_check. repeat case_bool_decide; simpl; auto. Qed.

End Shapes.

Section ShapesFatal.
Context `{Robosat}.

(** C2. In a training or validation pass, a batch that the loop reaches and
    whose image and mask sizes differ, or whose output and mask sizes
    differ, or whose output class dimension differs from the class count,
    makes the whole pass fail with a shape assertion, the first of the three
    that does not hold; the metrics object then holds what the batches
    before it accumulated and nothing of the mismatched batch. *)
Theorem shape_mismatch_is_fatal (k : pass_kind) (loader : DataLoader)
    (num_classes : nat) (criterion : string) (w w1 w2 : World)
    (pre post : list Batch) (b : Batch) (acc : Counters) :
  iterate loader (enter_pass k w) = (inr (pre ++ b :: post), w1) ->
  pass_batches k num_classes criterion pre w1 = (inr acc, w2) ->
  size (b_images b) ≠ [] ->
  shape_mismatch num_classes (net_training w2) (net_sd w2) b ->
  exists msg w',
    pass k loader num_classes criterion w = (inl (Py.AssertionError msg), leave_pass k w w')
    /\ msg = failed_check (net_training w2) (net_sd w2) b
    /\ In msg [ "resolutions for images and masks are in sync";
                "resolutions for predictions and masks are in sync";
                "classes for predictions and dataset are in sync" ]
    /\ metrics_obj w' = metrics_obj w2.
Proof.
  intros Hiter Hpre Hdim Hbad.
  destruct (mismatched_batch_fails k num_classes criterion acc b w2 Hdim Hbad)
    as (w' & Hfail & Hmetrics).
  eexists _, w'. split; [|split; [reflexivity|split; [apply failed_check_sync|assumption]]].
  rewrite pass_unfold, Hiter, pass_batches_fold, foldM_app.
  rewrite pass_batches_fold in Hpre. rewrite Hpre.
  simpl foldM. now rewrite (bind_inl _ _ _ _ _ Hfail).
Qed.

End ShapesFatal.

(** ** Validation leaves the model alone *)

Section Validation.
Context `{Robosat}.

#[global] Instance eval_frame_frame : Frame eval_frame.
Proof.
  split.
  - intros w Ht Hg. repeat split; try assumption. exists []. now rewrite app_nil_r.
  - intros w1 w2 w3 H12 H23 Ht Hg.
    destruct (H12 Ht Hg) as (Ht2 & Hg2 & Hsd2 & Ho2 & Hgr2 & l2 & Hc2 & Hl2).
    destruct (H23 Ht2 Hg2) as (Ht3 & Hg3 & Hsd3 & Ho3 & Hgr3 & l3 & Hc3 & Hl3).
    repeat split; try congruence.
    exists (l2 ++ l3). rewrite Hc3, Hc2, <- app_assoc. split; [reflexivity|].
    now rewrite forallb_app, Hl2, Hl3.
  - intros w g Ht Hg. repeat split; try assumption. exists []. simpl. now rewrite app_nil_r.
  - intros w m Ht Hg. repeat split; try assumption. exists []. simpl. now rewrite app_nil_r.
  - intros w Ht Hg. repeat split; try assumption. now exists [CMetricsAdd].
Qed.

Section EvalForward.
Hypothesis forward_eval : forall sd x, snd (forward false sd x) = sd.

Lemma eval_frame_net_call (images : tensor) : preserves eval_frame (net_call images).
Proof.
  intros w r w'. rewrite run_net_call. intros [= <- <-] Ht Hg.
  rewrite Ht, Hg. simpl. rewrite forward_eval.
  repeat split; try assumption. now exists [CForward false false].
Qed.

Lemma eval_frame_validate_batches (num_classes : nat) (criterion : string)
    (batches : list Batch) :
  preserves eval_frame (validate_batches num_classes criterion batches).
Proof.
  unfold validate_batches.
  apply (preserves_foldM eval_frame frame_refl frame_trans).
  intros acc b. apply keeps_validate_batch; [apply _|].
  apply eval_frame_net_call.
Qed.

End EvalForward.

(** C6. Provided a forward pass in evaluation mode leaves the state dict as
    it is, a validation pass, whether it returns or raises, leaves the
    state dict of the network, the optimizer state and the accumulated
    gradients as they were and restores the gradient mode; the network is
    left in evaluation mode; and the only calls it makes are the switch to
    evaluation mode, forward passes in evaluation mode with gradients
    disabled, and additions to the metrics: no backward pass, no optimizer
    step. *)
Theorem validate_leaves_model_alone (loader : DataLoader) (num_classes : nat)
    (criterion : string) (w w' : World) (r : Py.exn + Hist) :
  (forall sd x, snd (forward false sd x) = sd) ->
  validate loader num_classes criterion w = (r, w') ->
  net_sd w' = net_sd w
  /\ optimizer_sd w' = optimizer_sd w
  /\ net_grads w' = net_grads w
  /\ grad_enabled w' = grad_enabled w
  /\ net_training w' = false
  /\ exists l, calls w' = calls w ++ l /\ forallb eval_only l = true.
Proof.
  intros forward_eval Hrun.
  change (pass ValidatePass loader num_classes criterion w = (r, w')) in Hrun.
  rewrite pass_unfold in Hrun.
  assert (exists w2, w' = leave_pass ValidatePass w w2
                     /\ eval_frame (enter_pass ValidatePass w) w2) as (w2 & -> & Hframe).
  { destruct (iterate loader _) as [[e|batches] w1] eqn:Hiter.
    { injection Hrun as _ <-. eexists. split; [reflexivity|].
      eapply (keeps_iterate eval_frame), Hiter. }
    pose proof (keeps_iterate eval_frame _ _ _ _ Hiter) as H1.
    destruct (pass_batches _ _ _ _ _) as [[e|acc] w2] eqn:Hloop;
      pose proof (eval_frame_validate_batches forward_eval _ _ _ _ _ _ Hloop) as H2.
    - injection Hrun as _ <-. eexists. split; [reflexivity|].
      eapply frame_trans; eassumption.
    - exists w2. split; [|eapply frame_trans; eassumption].
      destruct (bool_decide _); now injection Hrun as _ <-. }
  destruct (Hframe eq_refl eq_refl) as (Ht & Hg & Hsd & Ho & Hgr & l & Hc & Hl).
  simpl in *. repeat split; try assumption.
  exists (CEvalMode :: l). rewrite Hc, <- app_assoc. split; [reflexivity|].
  simpl. exact Hl.
Qed.

End Validation.

(** ** Checkpoint files *)

Ltac frame_step R :=
  first
    [ apply (preserves_bind R frame_trans)
    | apply (preserves_ret R frame_refl)
    | apply (preserves_raise R frame_refl)
    | apply (preserves_lift R frame_refl)
    | apply (preserves_get R frame_refl)
    | apply (preserves_assert R frame_refl)
    | apply (keeps_iter_tensor R)
    | apply (keeps_accumulate R)
    | apply (keeps_iterate R)
    | apply (keeps_make_hist R) ].

Section Files.
Context `{Robosat}.

#[global] Instance same_files_frame : Frame same_files.
Proof.
  split; unfold same_files; try reflexivity. intros w1 w2 w3. congruence.
Qed.

#[global] Instance same_file_frame (path : string) : Frame (same_file path).
Proof.
  split; unfold same_file; try reflexivity. intros w1 w2 w3. congruence.
Qed.

Lemma same_files_same_file {A} (path : string) (m : M A) :
  preserves same_files m -> preserves (same_file path) m.
Proof. intros Hm w r w' Hrun. unfold same_file. now rewrite (Hm w r w' Hrun). Qed.

Lemma same_files_modify (f : World -> World) :
  (forall w, files (f w) = files w) -> preserves same_files (modify f).
Proof. intros Hf. now apply preserves_modify. Qed.

Lemma same_files_record (c : call) : preserves same_files (record c).
Proof. now apply same_files_modify. Qed.

Lemma same_files_log (line : string) : preserves same_files (log_log line).
Proof. now apply same_files_modify. Qed.

Lemma same_files_net_call (images : tensor) : preserves same_files (net_call images).
Proof. intros w r w'. rewrite run_net_call. now intros [= <- <-]. Qed.

Lemma same_files_zero_grad : preserves same_files optimizer_zero_grad.
Proof. intros w r w'. rewrite run_zero_grad. now intros [= <- <-]. Qed.

Lemma same_files_backward (criterion : string) (images masks : tensor) :
  preserves same_files (loss_backward criterion images masks).
Proof. now intros w r w' [= <- <-]. Qed.

Lemma same_files_step : preserves same_files optimizer_step.
Proof.
  intros w r w'. unfold optimizer_step, record, modify, bind. simpl.
  destruct (adam_step _ _ _). now intros [= <- <-].
Qed.

Lemma same_files_pass_batch (k : pass_kind) (num_classes : nat) (criterion : string)
    (acc : Counters) (b : Batch) :
  preserves same_files (pass_batch k num_classes criterion acc b).
Proof.
  destruct k; simpl.
  - unfold train_batch.
    repeat first
      [ apply same_files_net_call | apply same_files_zero_grad
      | apply same_files_backward | apply same_files_step
      | frame_step same_files | intros ? ].
  - apply keeps_validate_batch; [apply _|]. apply same_files_net_call.
Qed.

(** Neither pass touches the checkpoint directory, however it ends. *)
Lemma same_files_pass (k : pass_kind) (loader : DataLoader) (num_classes : nat)
    (criterion : string) :
  preserves same_files (pass k loader num_classes criterion).
Proof.
  intros w r w'. rewrite pass_unfold.
  assert (forall w2, files (leave_pass k w w2) = files w2) as Hleave by now destruct k.
  assert (files (enter_pass k w) = files w) as Henter by now destruct k.
  destruct (iterate loader _) as [[e|batches] w1] eqn:Hiter;
    pose proof (keeps_iterate same_files _ _ _ _ Hiter) as H1; unfold same_files in *.
  { intros [= <- <-]. rewrite Hleave. congruence. }
  rewrite pass_batches_fold.
  destruct (foldM _ _ _ _) as [[e|acc] w2] eqn:Hloop;
    pose proof (preserves_foldM same_files frame_refl frame_trans _ _
                  (same_files_pass_batch k num_classes criterion) _ _ _ _ Hloop) as H2;
    unfold same_files in H2.
  { intros [= <- <-]. rewrite Hleave. congruence. }
  destruct (bool_decide _); intros [= <- <-]; rewrite Hleave; congruence.
Qed.

Lemma preserves_for_each_in (R : World -> World -> Prop) `{!Frame R} {A} (l : list A)
    (body : A -> M unit) :
  (forall a, In a l -> preserves R (body a)) -> preserves R (for_each l body).
Proof.
  induction l as [|a l IH]; intros Hb; simpl.
  - apply (preserves_ret R frame_refl).
  - apply (preserves_bind R frame_trans); [apply Hb; now left|].
    intros _. apply IH. intros a' Ha'. apply Hb. now right.
Qed.

Lemma same_file_torch_save (path path' : string) (states : Checkpoint) :
  path' ≠ path -> preserves (same_file path) (torch_save states path').
Proof.
  intros Hne w r w'. rewrite run_torch_save. intros [= <- <-].
  unfold same_file. simpl. now apply lookup_insert_ne.
Qed.

(** An epoch leaves every file but its own as it was, however it ends. *)
Lemma same_file_run_epoch (config : Config) (out : string) (num_epochs : Z)
    (num_classes : nat) (criterion : string) (train_loader val_loader : DataLoader)
    (epoch : Z) (path : string) :
  path ≠ Py.path_join out (checkpoint_name (epoch + 1) num_epochs) ->
  preserves (same_file path)
    (run_epoch config out num_epochs num_classes criterion train_loader val_loader epoch).
Proof.
  intros Hne. unfold run_epoch.
  repeat first
    [ apply same_files_same_file, same_files_log
    | apply same_files_same_file, (same_files_pass TrainPass)
    | apply same_files_same_file, (same_files_pass ValidatePass)
    | apply same_file_torch_save; congruence
    | frame_step (same_file path) | intros ? ].
Qed.

End Files.

Section CheckpointPerEpoch.
Context `{Robosat}.

(** C5. An epoch whose training pass and validation pass both return ends
    by writing the record (epoch + 1, state dict, optimizer state), taken
    from the world the validation pass left, to the file named after
    epoch + 1 and the total, both zero-padded; and whatever other epochs
    run afterwards, and however they end, that file still holds that
    record. *)
Theorem checkpoint_per_epoch (config : Config) (out : string) (num_epochs : Z)
    (num_classes : nat) (criterion : string) (train_loader val_loader : DataLoader)
    (epoch : Z) (w w1 w2 : World) (title : string) (train_hist val_hist : Hist) :
  classes_titles config !! 1%nat = Some title ->
  train train_loader num_classes criterion
    (world_after (log_log "---" ;;
                  log_log ("Epoch: " +:+ Py.str_int (epoch + 1) +:+ "/"
                           +:+ Py.str_int num_epochs)) w)
  = (inr train_hist, w1) ->
  validate val_loader num_classes criterion
    (world_after (log_log (hist_line "Train   " title train_hist)) w1)
  = (inr val_hist, w2) ->
  let path :=
    Py.path_join out
      ("checkpoint-" +:+ Py.format_05d (epoch + 1) +:+ "-of-"
       +:+ Py.format_05d num_epochs +:+ ".pth") in
  let states :=
    {| ck_epoch := epoch + 1; ck_state_dict := net_sd w2;
       ck_optimizer := optimizer_sd w2 |} in
  exists w3,
    run_epoch config out num_epochs num_classes criterion train_loader val_loader epoch w
    = (inr tt, w3)
    /\ files w3 = <[path := states]> (files w)
    /\ forall (later : list Z) (r : Py.exn + unit) (w4 : World),
         ~ In epoch later ->
         for_each later
           (run_epoch config out num_epochs num_classes criterion train_loader val_loader) w3
         = (r, w4) ->
         files w4 !! path = Some states.
Proof.
  intros Htitle Htrain Hval path states.
  apply index_lookup in Htitle.
  pose proof (same_files_pass TrainPass _ _ _ _ _ _ Htrain) as Hf1.
  pose proof (same_files_pass ValidatePass _ _ _ _ _ _ Hval) as Hf2.
  unfold same_files in Hf1, Hf2. simpl in Hf1, Hf2.
  eexists. split; [|split].
  - unfold run_epoch.
    run_ok run_log. run_ok run_log.
    erewrite bind_inr by exact Htrain. cbv beta.
    run_ok @run_lift. run_ok run_log.
    erewrite bind_inr by exact Hval. cbv beta.
    run_ok @run_lift. run_ok run_log.
    unfold bind at 1, get_world. rewrite run_torch_save. reflexivity.
  - simpl. now rewrite Hf2, Hf1.
  - intros later r w4 Hlater Hrun.
    assert (preserves (same_file path)
              (for_each later
                 (run_epoch config out num_epochs num_classes criterion
                    train_loader val_loader))) as Hkeep.
    { apply preserves_for_each_in; [apply _|]. intros e' He'.
      apply same_file_run_epoch. intros Heq.
      apply checkpoint_path_inj in Heq.
      assert (e' = epoch) as -> by lia. contradiction. }
    rewrite (Hkeep _ _ _ Hrun). simpl. apply lookup_insert_eq.
Qed.

End CheckpointPerEpoch.

(** ** The start-up sequence of [main] *)

Section Startup.
Context `{Robosat}.

Lemma main_unfold (env : Env) (args : Args) (w : World) :
  main env args w =
  let config := load_config env (args_config args) in
  let num_epochs := choose_num_epochs args config in
  if bool_decide (model_name config ∉ model_modules env) then
    (inl (Py.SystemExit (exit_unknown_model (model_modules env))),
     set_logged (logged w ++ [startup_line env args]) w)
  else
    match load_checkpoint args (created env args w) with
    | (inl e, w1) => (inl e, w1)
    | (inr resume, w1) =>
        if bool_decide (model_loss config ∉ loss_modules env) then
          (inl (Py.SystemExit (exit_unknown_loss (loss_modules env))), w1)
        else
          match get_dataset_loaders (choose_dataset_path args config) config
                  (args_workers args) with
          | inl e => (inl e, w1)
          | inr loaders =>
              if bool_decide (resume >= num_epochs) then
                (inl (Py.SystemExit (exit_epoch_reached num_epochs (args_config args))), w1)
              else training env args resume loaders w1
          end
    end.
Proof.
  unfold main. cbv zeta.
  assert (forall k : unit -> M unit,
            bind match cuda_device_count env with
                 | Some count =>
                     log_log ("RoboSat - training on " +:+ Py.str_int count +:+ " GPUs, with "
                              +:+ Py.str_int (args_workers args) +:+ " workers")
                 | None =>
                     log_log ("RoboSat - training on CPU, with "
                              +:+ Py.str_int (args_workers args) +:+ " workers")
                 end k w
            = k tt (set_logged (logged w ++ [startup_line env args]) w)) as ->.
  { intros k. unfold startup_line. now destruct (cuda_device_count env). }
  destruct (bool_decide (model_name _ ∉ _)); [reflexivity|].
  unfold bind at 1. unfold ret at 1.
  unfold bind at 1. rewrite run_modify.
  unfold bind at 1. rewrite run_modify.
  change (set_optimizer_sd _ _) with (created env args w).
  unfold bind at 1.
  destruct (load_checkpoint args (created env args w)) as [[e|resume] w1]; [reflexivity|].
  destruct (bool_decide (model_loss _ ∉ _)); [reflexivity|].
  unfold bind at 1. unfold ret at 1.
  unfold bind at 1, lift at 1.
  destruct (get_dataset_loaders _ _ _) as [e|[train_loader val_loader]]; [reflexivity|].
  destruct (bool_decide (resume >= _)); reflexivity.
Qed.

(** The three ways [load_checkpoint] ends. *)
Lemma load_checkpoint_none (args : Args) (w : World) :
  checkpoint_given args = None -> load_checkpoint args w = (inr 0, w).
Proof. unfold load_checkpoint. now intros ->. Qed.

Lemma load_checkpoint_missing (args : Args) (path : string) (w : World) :
  checkpoint_given args = Some path -> files w !! path = None ->
  load_checkpoint args w
  = (inl (Py.FileNotFoundError path), set_calls (calls w ++ [CLoad path]) w).
Proof.
  unfold load_checkpoint. intros -> Hfile.
  unfold bind at 1, torch_load, bind, record, modify, get_world. simpl.
  now rewrite Hfile.
Qed.

Lemma load_checkpoint_found (args : Args) (path : string) (chkpt : Checkpoint) (w : World) :
  checkpoint_given args = Some path -> files w !! path = Some chkpt ->
  load_checkpoint args w
  = (inr (if args_resume args then ck_epoch chkpt else 0), loaded args path chkpt w).
Proof.
  unfold load_checkpoint, loaded. intros -> Hfile.
  erewrite bind_inr by (apply run_torch_load; exact Hfile). cbv beta.
  unfold bind at 1. rewrite run_modify.
  unfold bind at 1. rewrite run_log.
  now destruct (args_resume args).
Qed.

End Startup.

(** ** Messages that list names *)

Lemma substring_prepend (s t pre : string) : substring s t -> substring s (pre +:+ t).
Proof.
  intros (p & q & ->). exists (pre +:+ p), q. now rewrite append_assoc.
Qed.

Lemma substring_append (s t post : string) : substring s t -> substring s (t +:+ post).
Proof.
  intros (p & q & ->). exists p, (q +:+ post). now rewrite !append_assoc.
Qed.

Lemma str_join_lists (sep x : string) (l : list string) :
  In x l -> substring x (Py.str_join sep l).
Proof.
  induction l as [|y l IH]; [contradiction|].
  intros [-> | Hin].
  - destruct l as [|z l].
    + exists "", "". now rewrite append_nil_l, append_nil_r.
    + exists "", (sep +:+ Py.str_join sep (z :: l)). reflexivity.
  - destruct l as [|z l]; [contradiction|].
    change (Py.str_join sep (y :: z :: l)) with (y +:+ sep +:+ Py.str_join sep (z :: l)).
    now apply substring_prepend, substring_prepend, IH.
Qed.

(** Every name of the list is in the message, as its [repr]. *)
Lemma str_list_lists (names : list string) (name : string) :
  In name names -> substring (Py.repr_str name) (Py.str_list names).
Proof.
  intros Hin. unfold Py.str_list.
  apply substring_prepend, substring_append, str_join_lists.
  now apply in_map.
Qed.

(** ** Refusals of [main] *)

Section Refusals.
Context `{Robosat}.

Lemma untrained_created (env : Env) (args : Args) (w : World) :
  files (created env args w) = files w /\ calls (created env args w) = calls w.
Proof. split; reflexivity. Qed.

(** C1. With [--resume], a checkpoint path and a checkpoint whose stored
    epoch is at least the number of epochs to run, [main] raises, so that the
    process ends with a non-zero status, without having trained: no call
    into the network, the optimizer or the metrics, no file written.  When
    the model and loss names resolve and the loaders can be built, what it
    raises is [sys.exit] with the message that the epoch is already reached
    by the checkpoint. *)
Theorem resume_guard (env : Env) (args : Args) (w : World) (path : string)
    (chkpt : Checkpoint) :
  let config := load_config env (args_config args) in
  let num_epochs := choose_num_epochs args config in
  args_resume args = true ->
  checkpoint_given args = Some path ->
  files w !! path = Some chkpt ->
  num_epochs <= ck_epoch chkpt ->
  exists e w',
    main env args w = (inl e, w')
    /\ Py.exit_status e ≠ 0
    /\ untrained w w'
    /\ (model_name config ∈ model_modules env ->
        model_loss config ∈ loss_modules env ->
        (exists loaders,
           get_dataset_loaders (choose_dataset_path args config) config (args_workers args)
           = inr loaders) ->
        e = Py.SystemExit
              ("Error: Epoch " +:+ Py.str_int num_epochs +:+ " set in " +:+ args_config args
               +:+ " already reached by the checkpoint provided")).
Proof.
  intros config num_epochs Hresume Hgiven Hfile Hreached.
  rewrite main_unfold. cbv zeta. fold config. fold num_epochs.
  case_bool_decide as Hmodel.
  { eexists _, _. split; [reflexivity|]. split; [discriminate|].
    split; [split; [reflexivity|now left]|]. intros Hin. contradiction. }
  rewrite (load_checkpoint_found args path chkpt) by assumption.
  rewrite Hresume.
  assert (untrained w (loaded args path chkpt (created env args w))) as Hun.
  { unfold loaded. rewrite Hresume. split; [reflexivity|]. right. now exists path. }
  case_bool_decide as Hloss.
  { eexists _, _. split; [reflexivity|]. split; [discriminate|].
    split; [exact Hun|]. intros _ Hin. contradiction. }
  destruct (get_dataset_loaders _ _ _) as [e|loaders] eqn:Hloaders.
  { eexists _, _. split; [reflexivity|]. split; [now destruct e|].
    split; [exact Hun|]. intros _ _ [loaders' Hl]. discriminate Hl. }
  rewrite bool_decide_eq_true_2 by lia.
  eexists _, _. split; [reflexivity|]. split; [discriminate|].
  split; [exact Hun|]. reflexivity.
Qed.

(** C4. When the configured model name or the configured loss name is not
    among the available module names, [main] raises, so that the process
    ends with a non-zero status, without having trained.  For an unknown
    model it raises [sys.exit] with a message that lists every available
    model name; for a known model and an unknown loss, once the checkpoint,
    if one is given, has been read, it raises [sys.exit] with a message
    that lists every available loss name. *)
Theorem unknown_plugin_exits (env : Env) (args : Args) (w : World) :
  let config := load_config env (args_config args) in
  model_name config ∉ model_modules env \/ model_loss config ∉ loss_modules env ->
  exists e w',
    main env args w = (inl e, w')
    /\ Py.exit_status e ≠ 0
    /\ untrained w w'
    /\ (model_name config ∉ model_modules env ->
        e = Py.SystemExit (exit_unknown_model (model_modules env))
        /\ forall name, In name (model_modules env) ->
                        substring (Py.repr_str name) (exit_unknown_model (model_modules env)))
    /\ (model_name config ∈ model_modules env ->
        (forall path, checkpoint_given args = Some path -> is_Some (files w !! path)) ->
        e = Py.SystemExit (exit_unknown_loss (loss_modules env))
        /\ forall name, In name (loss_modules env) ->
                        substring (Py.repr_str name) (exit_unknown_loss (loss_modules env))).
Proof.
  intros config Hunknown.
  rewrite main_unfold. cbv zeta. fold config.
  case_bool_decide as Hmodel.
  { eexists _, _. split; [reflexivity|]. split; [discriminate|].
    split; [split; [reflexivity|now left]|]. split.
    - intros _. split; [reflexivity|]. intros name Hin.
      now apply substring_prepend, str_list_lists.
    - intros Hin. contradiction. }
  destruct Hunknown as [Hunknown|Hloss]; [contradiction|].
  destruct (checkpoint_given args) as [path|] eqn:Hgiven.
  - destruct (files w !! path) as [chkpt|] eqn:Hfile.
    + rewrite (load_checkpoint_found args path chkpt) by assumption.
      rewrite bool_decide_eq_true_2 by assumption.
      eexists _, _. split; [reflexivity|]. split; [discriminate|].
      split; [|split].
      * unfold loaded. split; [now destruct (args_resume args)|].
        right. exists path. now destruct (args_resume args).
      * intros Hnot. contradiction.
      * intros _ _. split; [reflexivity|]. intros name Hin.
        now apply substring_prepend, str_list_lists.
    + rewrite (load_checkpoint_missing args path) by assumption.
      eexists _, _. split; [reflexivity|]. split; [discriminate|].
      split; [|split].
      * split; [reflexivity|]. right. now exists path.
      * intros Hnot. contradiction.
      * intros _ Hfiles. destruct (Hfiles path eq_refl) as [chkpt Hsome].
        congruence.
  - rewrite load_checkpoint_none by assumption.
    rewrite bool_decide_eq_true_2 by assumption.
    eexists _, _. split; [reflexivity|]. split; [discriminate|].
    split; [|split].
    * split; [reflexivity|now left].
    * intros Hnot. contradiction.
    * intros _ _. split; [reflexivity|]. intros name Hin.
      now apply substring_prepend, str_list_lists.
Qed.

End Refusals.

(** ** Retraining from the weights of a checkpoint *)

Section Retrain.
Context `{Robosat}.

Lemma in_range (a b e : Z) : In e (Py.range a b) <-> a <= e < b.
Proof.
  unfold Py.range. rewrite in_map_iff. split.
  - intros (i & <- & Hi). apply in_seq in Hi. lia.
  - intros He. exists (Z.to_nat (e - a)). split; [lia|]. apply in_seq. lia.
Qed.

Lemma NoDup_range (a b : Z) : NoDup (Py.range a b).
Proof.
  unfold Py.range.
  apply (NoDup_fmap_2_strong (fun i : nat => a + Z.of_nat i)); [|apply NoDup_seq].
  intros i j _ _ Hij. lia.
Qed.

(** An epoch that returns has written its record. *)
Lemma run_epoch_saves (config : Config) (out : string) (num_epochs : Z)
    (num_classes : nat) (criterion : string) (train_loader val_loader : DataLoader)
    (epoch : Z) (w w' : World) :
  run_epoch config out num_epochs num_classes criterion train_loader val_loader epoch w
  = (inr tt, w') ->
  exists chkpt,
    files w' !! Py.path_join out (checkpoint_name (epoch + 1) num_epochs) = Some chkpt
    /\ ck_epoch chkpt = epoch + 1.
Proof.
  unfold run_epoch. intros Hrun.
  do 9 (apply bind_inv_inr in Hrun as (? & ? & _ & Hrun)).
  cbv zeta in Hrun. rewrite run_torch_save in Hrun. injection Hrun as <-.
  eexists. split; [apply lookup_insert_eq|reflexivity].
Qed.

(** A loop over distinct epochs that returns has written one record per
    epoch, each still in place at the end. *)
Lemma epochs_all_saved (config : Config) (out : string) (num_epochs : Z)
    (num_classes : nat) (criterion : string) (train_loader val_loader : DataLoader)
    (epochs : list Z) (w w' : World) :
  NoDup epochs ->
  for_each epochs
    (run_epoch config out num_epochs num_classes criterion train_loader val_loader) w
  = (inr tt, w') ->
  forall epoch, In epoch epochs ->
    exists chkpt,
      files w' !! Py.path_join out (checkpoint_name (epoch + 1) num_epochs) = Some chkpt
      /\ ck_epoch chkpt = epoch + 1.
Proof.
  intros Hnodup. revert w. induction Hnodup as [|e l Hnotin Hnodup IH]; intros w Hrun epoch Hin.
  - contradiction.
  - simpl in Hrun. apply bind_inv_inr in Hrun as ([] & w1 & Hfirst & Hrest).
    destruct Hin as [<- | Hin]; [|now apply (IH w1)].
    destruct (run_epoch_saves _ _ _ _ _ _ _ _ _ _ Hfirst) as (chkpt & Hfile & Hepoch).
    exists chkpt. split; [|assumption].
    rewrite <- Hfile.
    refine (preserves_for_each_in (same_file _) l _ _ _ _ _ Hrest).
    intros e' He'. apply same_file_run_epoch. intros Heq.
    apply checkpoint_path_inj in Heq.
    assert (e' = e) as -> by lia. now apply Hnotin, list_elem_of_In.
Qed.

(** C10. With a checkpoint path and without [--resume], names that resolve,
    loaders that can be built and at least one epoch to run, [main] goes on
    to the training loop from epoch 0 in a world where the state dict of
    the network is the one of the checkpoint and the optimizer state is the
    freshly created one; the loop runs over the epochs 0, 1, ...,
    num_epochs - 1, and a run that returns has written a checkpoint for each
    of them. *)
Theorem retrain_from_weights (env : Env) (args : Args) (w : World) (path : string)
    (chkpt : Checkpoint) (loaders : DataLoader * DataLoader) :
  let config := load_config env (args_config args) in
  let num_epochs := choose_num_epochs args config in
  checkpoint_given args = Some path ->
  args_resume args = false ->
  files w !! path = Some chkpt ->
  model_name config ∈ model_modules env ->
  model_loss config ∈ loss_modules env ->
  get_dataset_loaders (choose_dataset_path args config) config (args_workers args)
  = inr loaders ->
  0 < num_epochs ->
  exists w1,
    main env args w = training env args 0 loaders w1
    /\ net_sd w1 = ck_state_dict chkpt
    /\ optimizer_sd w1 = new_adam (choose_lr args config) (model_decay config)
    /\ Py.range 0 num_epochs = map Z.of_nat (seq 0 (Z.to_nat num_epochs))
    /\ forall w', main env args w = (inr tt, w') ->
         forall epoch, 0 <= epoch < num_epochs ->
           exists saved,
             files w' !! Py.path_join (args_out args) (checkpoint_name (epoch + 1) num_epochs)
             = Some saved
             /\ ck_epoch saved = epoch + 1.
Proof.
  intros config num_epochs Hgiven Hresume Hfile Hmodel Hloss Hloaders Hpos.
  assert (main env args w
          = training env args 0 loaders (loaded args path chkpt (created env args w)))
    as Hmain.
  { rewrite main_unfold. cbv zeta. fold config. fold num_epochs.
    rewrite bool_decide_eq_false_2 by (intros Hnot; contradiction).
    rewrite (load_checkpoint_found args path chkpt) by assumption.
    rewrite Hresume.
    rewrite bool_decide_eq_false_2 by (intros Hnot; contradiction).
    rewrite Hloaders.
    now rewrite bool_decide_eq_false_2 by lia. }
  exists (loaded args path chkpt (created env args w)).
  split; [exact Hmain|].
  unfold loaded. rewrite Hresume.
  split; [reflexivity|]. split; [reflexivity|]. split.
  { unfold Py.range. rewrite Z.sub_0_r. apply map_ext. intros i. lia. }
  intros w' Hrun epoch Hepoch.
  rewrite Hmain in Hrun. unfold training in Hrun.
  repeat (apply bind_inv_inr in Hrun as (? & ? & _ & Hrun)).
  eapply epochs_all_saved; [apply NoDup_range|exact Hrun|].
  apply in_range. exact Hepoch.
Qed.

End Retrain.

(** ** The loaders [get_dataset_loaders] builds *)

Section LoadersBuilt.
Context `{Robosat}.

(** What a successful call returns. *)
Lemma get_dataset_loaders_inv (path : path_val) (config : Config) (workers : Z)
    (loaders : DataLoader * DataLoader) :
  get_dataset_loaders path config workers = inr loaders ->
  exists root,
    path = PathStr root
    /\ 0 < model_batch_size config
    /\ forall k,
         loader_of k loaders =
         {| dl_dataset :=
              {| ds_root := Py.path_join root (subdirectory k);
                 ds_channels := channels config;
                 ds_labels := Py.path_join (Py.path_join root (subdirectory k)) "labels";
                 ds_joint_transform := transform_of config |};
            dl_batch_size := model_batch_size config;
            dl_shuffle := match k with TrainPass => true | ValidatePass => false end;
            dl_drop_last := true;
            dl_num_workers := workers |}.
Proof.
  unfold get_dataset_loaders, new_DataLoader.
  destruct path as [n|root]; [discriminate|]. simpl.
  case_bool_decide; [discriminate|].
  case_bool_decide as Hempty; [discriminate|].
  case_bool_decide as Hbs; [discriminate|].
  intros [= <-]. exists root. split; [reflexivity|]. split; [lia|].
  now intros [].
Qed.

(** C7. The joint transform of both loaders is the four stages in the
    order resize, random flip or rotation, tensor conversion, normalization;
    applied to an image and a mask it resizes both to the tile size, then,
    when data augmentation is on, applies one drawn flip or rotation to
    both, then converts both to tensors, then normalizes the image alone
    with the ImageNet means and standard deviations. *)
Theorem joint_transform_order (path : path_val) (config : Config) (workers : Z)
    (loaders : DataLoader * DataLoader) (k : pass_kind) (image mask : tensor) (w : World) :
  get_dataset_loaders path config workers = inr loaders ->
  let stages := ds_joint_transform (dl_dataset (loader_of k loaders)) in
  let tile_size := model_tile_size config in
  let norm := normalize [0.485%Q; 0.456%Q; 0.406%Q] [0.229%Q; 0.224%Q; 0.225%Q] in
  stages =
    [ JointResize tile_size;
      JointRandomFlipOrRotate (model_data_augmentation config);
      JointTransform (Some ImageToTensor) (Some MaskToTensor);
      JointTransform (Some (Normalize [0.485%Q; 0.456%Q; 0.406%Q]
                                      [0.229%Q; 0.224%Q; 0.225%Q])) None ]
  /\ JointCompose stages (image, mask) w =
     if model_data_augmentation config then
       let op := fst (random_choice (rng_state w)) in
       (inr (norm (image_to_tensor (flip_image op (resize_image tile_size image))),
             mask_to_tensor (flip_mask op (resize_mask tile_size mask))),
        set_rng_state (snd (random_choice (rng_state w))) w)
     else
       (inr (norm (image_to_tensor (resize_image tile_size image)),
             mask_to_tensor (resize_mask tile_size mask)),
        w).
Proof.
  intros Hloaders stages tile_size norm.
  destruct (get_dataset_loaders_inv _ _ _ _ Hloaders) as (root & _ & _ & Hk).
  subst stages. rewrite (Hk k). simpl ds_joint_transform.
  split; [reflexivity|].
  unfold transform_of, JointCompose, foldM, apply_stage, bind, ret.
  destruct (model_data_augmentation config); [|reflexivity].
  unfold get_world, modify. simpl.
  now destruct (random_choice (rng_state w)) as [op g].
Qed.

End LoadersBuilt.

(** ** Batches with [drop_last] *)

Section DropLast.

(** With a partial batch of fewer than [bs] indices in hand, the sampler
    yields the full batches of the indices in order and drops what is left. *)
Lemma batch_sampler_drop_last (bs : nat) (sampler batch : list nat) :
  (0 < bs)%nat -> (length batch < bs)%nat ->
  let all := batch ++ sampler in
  concat (batch_sampler bs true batch sampler) = take (length all / bs * bs) all
  /\ Forall (fun b => length b = bs) (batch_sampler bs true batch sampler).
Proof.
  intros Hbs. revert batch.
  induction sampler as [|idx rest IH]; intros batch Hlen; cbn zeta.
  - simpl. rewrite app_nil_r, Nat.div_small by assumption. split; [reflexivity|constructor].
  - simpl batch_sampler. case_bool_decide as Hfull.
    + destruct (IH [] ltac:(simpl; lia)) as [Hcat Hall]. simpl app in Hcat.
      split; [|constructor; assumption].
      simpl concat. rewrite Hcat.
      replace (batch ++ idx :: rest) with ((batch ++ [idx]) ++ rest)
        by now rewrite <- app_assoc.
      rewrite length_app, Hfull.
      replace (bs + length rest)%nat with (1 * bs + length rest)%nat by lia.
      rewrite Nat.div_add_l by lia.
      generalize (length rest / bs)%nat. intros q.
      replace ((1 + q) * bs)%nat with (bs + q * bs)%nat by lia.
      rewrite take_app, Hfull.
      rewrite (take_ge (batch ++ [idx])) by lia. f_equal. f_equal. lia.
    + rewrite length_app in Hfull. simpl in Hfull.
      destruct (IH (batch ++ [idx]) ltac:(rewrite length_app; simpl; lia)) as [Hcat Hall].
      rewrite <- app_assoc in Hcat. simpl app in Hcat.
      split; assumption.
Qed.

(** The indices a loader with [drop_last] visits are the first
    [n - n mod bs] of the sampling order, in batches of exactly [bs]. *)
Lemma batch_sampler_visits (bs : nat) (order : list nat) :
  (0 < bs)%nat ->
  let n := length order in
  concat (batch_sampler bs true [] order) = take (n - n mod bs) order
  /\ Forall (fun b => length b = bs) (batch_sampler bs true [] order).
Proof.
  intros Hbs n.
  destruct (batch_sampler_drop_last bs order [] Hbs) as [Hcat Hall]; [simpl; lia|].
  split; [|exact Hall]. rewrite Hcat. simpl app. fold n. f_equal.
  pose proof (Nat.div_mod_eq n bs). lia.
Qed.

Lemma batch_sampler_short (bs : nat) (order : list nat) :
  (length order < bs)%nat -> batch_sampler bs true [] order = [].
Proof.
  intros Hshort.
  assert (0 < bs)%nat as Hbs by lia.
  destruct (batch_sampler_visits bs order Hbs) as [Hcat Hall].
  rewrite Nat.mod_small, Nat.sub_diag in Hcat by assumption.
  destruct (batch_sampler bs true [] order) as [|b bs']; [reflexivity|].
  apply Forall_cons in Hall as [Hb _].
  apply (f_equal length) in Hcat. simpl in Hcat. rewrite length_app in Hcat. lia.
Qed.

End DropLast.

Section DropLastPass.
Context `{Robosat}.

Lemma sampler_returns (dl : DataLoader) (w : World) :
  (forall g n, length (fst (randperm g n)) = n) ->
  exists order w1,
    sampler dl w = (inr order, w1) /\ length order = dataset_len (dl_dataset dl).
Proof.
  intros Hperm. unfold sampler. destruct (dl_shuffle dl).
  - unfold bind, get_world, modify, ret.
    specialize (Hperm (rng_state w) (dataset_len (dl_dataset dl))).
    destruct (randperm _ _) as [order g]. eauto.
  - eexists _, _. split; [reflexivity|]. apply length_seq.
Qed.

Lemma sampler_length (dl : DataLoader) (w w1 : World) (order : list nat) :
  (forall g n, length (fst (randperm g n)) = n) ->
  sampler dl w = (inr order, w1) -> length order = dataset_len (dl_dataset dl).
Proof.
  intros Hperm Hrun. destruct (sampler_returns dl w Hperm) as (order' & w1' & Hrun' & Hlen).
  congruence.
Qed.

(** C9. Both loaders are built with [drop_last].  In one iteration of
    either, the indices visited are the first [n - n mod batch_size] of the
    sampling order of the [n] samples (for the validation loader, the order
    of the data set itself), in batches of exactly [batch_size], so that the
    last [n mod batch_size] of that order are in no batch; and when the data
    set is not empty but has fewer samples than the batch size, the pass
    raises the empty-dataset assertion. *)
Theorem drop_last_skips_remainder (path : path_val) (config : Config) (workers : Z)
    (loaders : DataLoader * DataLoader) (k : pass_kind) :
  get_dataset_loaders path config workers = inr loaders ->
  (forall g n, length (fst (randperm g n)) = n) ->
  let dl := loader_of k loaders in
  let n := dataset_len (dl_dataset dl) in
  let batch_size := Z.to_nat (model_batch_size config) in
  dl_drop_last dl = true
  /\ (forall w order w1,
        sampler dl w = (inr order, w1) ->
        length order = n
        /\ (k = ValidatePass -> order = seq 0 n)
        /\ concat (batches_of dl order) = take (n - n mod batch_size) order
        /\ Forall (fun b => length b = batch_size) (batches_of dl order))
  /\ ((0 < n < batch_size)%nat ->
      forall num_classes criterion w,
        exists w', pass k dl num_classes criterion w
                   = (inl (Py.AssertionError (empty_message k)), w')).
Proof.
  intros Hloaders Hperm dl n batch_size.
  destruct (get_dataset_loaders_inv _ _ _ _ Hloaders) as (root & _ & Hbs & Hk).
  assert (dl_drop_last dl = true) as Hdrop by (subst dl; now rewrite (Hk k)).
  assert (dl_batch_size dl = model_batch_size config) as Hsize
    by (subst dl; now rewrite (Hk k)).
  assert (0 < batch_size)%nat as Hpos by (subst batch_size; lia).
  split; [exact Hdrop|]. split.
  - intros w order w1 Hrun.
    pose proof (sampler_length dl w w1 order Hperm Hrun) as Hlen.
    split; [exact Hlen|]. split.
    { intros ->. unfold sampler in Hrun. subst dl n.
      rewrite (Hk ValidatePass) in Hrun |- *. simpl in Hrun |- *.
      now injection Hrun as <- _. }
    unfold batches_of. rewrite Hdrop, Hsize. fold batch_size.
    subst n. rewrite <- Hlen. now apply batch_sampler_visits.
  - intros [Hne Hshort] num_classes criterion w.
    rewrite pass_unfold.
    destruct (sampler_returns dl (enter_pass k w) Hperm) as (order & w1 & Hrun & Hlen).
    assert (iterate dl (enter_pass k w) = (inr [], w1)) as ->.
    { unfold iterate. erewrite bind_inr by exact Hrun. cbv beta.
      unfold batches_of. rewrite Hdrop, Hsize. fold batch_size.
      rewrite batch_sampler_short by (rewrite Hlen; exact Hshort).
      reflexivity. }
    rewrite pass_batches_fold. simpl foldM. unfold ret.
    rewrite bool_decide_eq_false_2 by (simpl; lia). eauto.
Qed.

End DropLastPass.

(** ** The command-line overrides *)

Section Overrides.
Context `{Robosat}.

(** An int given to [--dataset] is not a path: the loaders cannot be built. *)
Lemma dataset_int_is_no_path (args : Args) (config : Config) (n : Z) :
  args_dataset args = Some n -> n ≠ 0 ->
  get_dataset_loaders (choose_dataset_path args config) config (args_workers args)
  = inl Py.TypeError.
Proof.
  intros Hn Hne. unfold choose_dataset_path. rewrite Hn.
  now rewrite bool_decide_eq_true_2.
Qed.

(** Whenever the loaders are built, their roots come from the configured
    path, whatever was given to [--dataset]. *)
Lemma dataset_root_from_config (args : Args) (config : Config)
    (loaders : DataLoader * DataLoader) :
  get_dataset_loaders (choose_dataset_path args config) config (args_workers args)
  = inr loaders ->
  ds_root (dl_dataset (fst loaders)) = Py.path_join (dataset_path config) "training"
  /\ ds_root (dl_dataset (snd loaders)) = Py.path_join (dataset_path config) "validation".
Proof.
  intros Hloaders.
  destruct (get_dataset_loaders_inv _ _ _ _ Hloaders) as (root & Hroot & _ & Hk).
  assert (root = dataset_path config) as ->.
  { unfold choose_dataset_path in Hroot.
    destruct (args_dataset args) as [n|]; [case_bool_decide|]; congruence. }
  pose proof (Hk TrainPass) as Ht. pose proof (Hk ValidatePass) as Hv.
  simpl in Ht, Hv. now rewrite Ht, Hv.
Qed.

(** [--epochs] and [--lr] override the configuration when the value given
    is not zero. *)
Lemma epochs_override (args : Args) (config : Config) (n : Z) :
  args_epochs args = Some n -> n ≠ 0 -> choose_num_epochs args config = n.
Proof.
  intros Hn Hne. unfold choose_num_epochs. rewrite Hn.
  now rewrite bool_decide_eq_true_2.
Qed.

Lemma lr_override (args : Args) (config : Config) (x : float) :
  args_lr args = Some x -> float_truthy x = true -> choose_lr args config = x.
Proof. intros Hx Ht. unfold choose_lr. now rewrite Hx, Ht. Qed.

(** C8. Given [--dataset /data/tiles], the parser rejects the command line:
    the value is converted with [int], the conversion fails, and the process
    ends with a usage error and status 2 before [main] runs. *)
Theorem dataset_flag_rejects_a_path (env : Env) (w : World) :
  let argv := ["--config"; "config.toml"; "--dataset"; "/data/tiles"; "out"] in
  run env argv w = UsageError "argument --dataset: invalid int value: '/data/tiles'"
  /\ status (run env argv w) = 2.
Proof. split; reflexivity. Qed.

End Overrides.

(** ** What a run of [main] writes *)

Section MainFiles.
Context `{Robosat}.

Lemma bind_inv_inl {A B} (m : M A) (k : A -> M B) (w w' : World) (e : Py.exn) :
  bind m k w = (inl e, w') ->
  m w = (inl e, w') \/ exists a w1, m w = (inr a, w1) /\ k a w1 = (inl e, w').
Proof.
  unfold bind. destruct (m w) as [[e'|a] w1]; [intros [= <- <-]; now left|].
  intros Hk. right. eauto.
Qed.

Lemma same_files_torch_load (path : string) : preserves same_files (torch_load path).
Proof.
  intros w r w'. unfold torch_load, bind, record, modify, get_world. simpl.
  destruct (files w !! path); now intros [= <- <-].
Qed.

Lemma same_files_load_checkpoint (args : Args) : preserves same_files (load_checkpoint args).
Proof.
  unfold load_checkpoint. destruct (checkpoint_given args) as [path|].
  - frame_step same_files; [apply same_files_torch_load|]. intros chkpt.
    frame_step same_files; [now apply same_files_modify|]. intros _.
    frame_step same_files; [apply same_files_log|]. intros _.
    destruct (args_resume args); [|frame_step same_files].
    frame_step same_files; [now apply same_files_modify|]. intros _.
    frame_step same_files.
  - frame_step same_files.
Qed.

Lemma same_files_log_channels (chans : list Channel) : preserves same_files (log_channels chans).
Proof.
  unfold log_channels. frame_step same_files; [|intros; frame_step same_files].
  apply (preserves_foldM same_files frame_refl frame_trans). intros n channel.
  apply (preserves_foldM same_files frame_refl frame_trans). intros n' band.
  frame_step same_files; [apply same_files_log|]. intros _. frame_step same_files.
Qed.

Lemma same_files_log_hyper_parameters (config : Config) (lr : float) :
  preserves same_files (log_hyper_parameters config lr).
Proof.
  unfold log_hyper_parameters.
  do 10 (apply (preserves_bind _ frame_trans); [apply same_files_log|intros _]).
  apply same_files_log.
Qed.

(** The training loop leaves alone every file that is not the checkpoint of
    one of its epochs. *)
Lemma same_file_training (env : Env) (args : Args) (resume : Z)
    (loaders : DataLoader * DataLoader) (path : string) :
  let config := load_config env (args_config args) in
  let num_epochs := choose_num_epochs args config in
  (forall epoch, resume <= epoch < num_epochs ->
     path ≠ Py.path_join (args_out args) (checkpoint_name (epoch + 1) num_epochs)) ->
  preserves (same_file path) (training env args resume loaders).
Proof.
  intros config num_epochs Hpath. unfold training. cbv zeta.
  apply (preserves_bind _ frame_trans);
    [apply same_files_same_file, same_files_log|intros _].
  apply (preserves_bind _ frame_trans);
    [apply same_files_same_file, same_files_log|intros _].
  apply (preserves_bind _ frame_trans);
    [apply same_files_same_file, same_files_log_channels|intros _].
  apply (preserves_bind _ frame_trans);
    [apply same_files_same_file, same_files_log|intros _].
  apply (preserves_bind _ frame_trans);
    [apply same_files_same_file, same_files_log_hyper_parameters|intros _].
  apply preserves_for_each_in; [apply _|]. intros epoch Hin.
  apply same_file_run_epoch. apply Hpath. now apply in_range.
Qed.

(** Whatever [main] does before the training loop leaves the files alone. *)
Lemma main_reaches_training (env : Env) (args : Args) (w w' : World) (r : Py.exn + unit) :
  main env args w = (r, w') ->
  files w' = files w
  \/ exists resume loaders w1,
       files w1 = files w /\ training env args resume loaders w1 = (r, w')
       /\ load_checkpoint args (created env args w) = (inr resume, w1).
Proof.
  rewrite main_unfold. cbv zeta.
  case_bool_decide; [intros [= <- <-]; now left|].
  destruct (load_checkpoint args (created env args w)) as [[e|resume] w1] eqn:Hload;
    pose proof (same_files_load_checkpoint args _ _ _ Hload) as Hfiles;
    unfold same_files in Hfiles; simpl in Hfiles.
  { intros [= <- <-]. now left. }
  case_bool_decide; [intros [= <- <-]; now left|].
  destruct (get_dataset_loaders _ _ _) as [e|loaders]; [intros [= <- <-]; now left|].
  case_bool_decide; [intros [= <- <-]; now left|].
  intros Hrun. right. exists resume, loaders, w1. auto.
Qed.

(** X1. The log apart, a run of [main] saves nothing but its checkpoints:
    whatever the run does and however it ends, what [torch.load] finds at a
    path that is not that of a checkpoint of this run (the output directory
    joined with [checkpoint-EEEEE-of-NNNNN.pth] for some epoch number) is as
    it was before the run. *)
Theorem main_writes_only_checkpoints (env : Env) (args : Args) (w w' : World)
    (r : Py.exn + unit) (path : string) :
  let num_epochs := choose_num_epochs args (load_config env (args_config args)) in
  main env args w = (r, w') ->
  (forall epoch : Z,
     path ≠ Py.path_join (args_out args)
              ("checkpoint-" +:+ Py.format_05d epoch +:+ "-of-"
               +:+ Py.format_05d num_epochs +:+ ".pth")) ->
  files w' !! path = files w !! path.
Proof.
  intros num_epochs Hrun Hpath.
  destruct (main_reaches_training _ _ _ _ _ Hrun)
    as [-> | (resume & loaders & w1 & Hfiles & Htraining & _)]; [reflexivity|].
  rewrite <- Hfiles.
  refine (same_file_training env args resume loaders path _ _ _ _ Htraining).
  intros epoch _. apply Hpath.
Qed.

End MainFiles.

(** ** Epochs and resuming *)

Section Resuming.
Context `{Robosat}.

(** X2. With fewer than two class titles, an epoch whose training pass
    returns raises [IndexError] when it formats the training line of the log:
    the network has been trained for that pass, validation does not run and
    no checkpoint is saved. *)
Theorem single_class_fails_after_training (config : Config) (out : string)
    (num_epochs : Z) (num_classes : nat) (criterion : string)
    (train_loader val_loader : DataLoader) (epoch : Z) (w w1 : World) (train_hist : Hist) :
  (length (classes_titles config) < 2)%nat ->
  train train_loader num_classes criterion
    (world_after (log_log "---" ;;
                  log_log ("Epoch: " +:+ Py.str_int (epoch + 1) +:+ "/"
                           +:+ Py.str_int num_epochs)) w)
  = (inr train_hist, w1) ->
  run_epoch config out num_epochs num_classes criterion train_loader val_loader epoch w
  = (inl Py.IndexError, w1)
  /\ files w1 = files w.
Proof.
  intros Hshort Htrain.
  pose proof (same_files_pass TrainPass _ _ _ _ _ _ Htrain) as Hfiles.
  split; [|exact Hfiles].
  unfold run_epoch. run_ok run_log. run_ok run_log.
  erewrite bind_inr by exact Htrain. cbv beta.
  unfold bind at 1, lift, Py.index.
  rewrite (lookup_ge_None_2 (classes_titles config) 1) by lia. reflexivity.
Qed.

(** An epoch that returns has written the state the validation pass left. *)
Lemma run_epoch_inv (config : Config) (out : string) (num_epochs : Z)
    (num_classes : nat) (criterion : string) (train_loader val_loader : DataLoader)
    (epoch : Z) (w w' : World) :
  run_epoch config out num_epochs num_classes criterion train_loader val_loader epoch w
  = (inr tt, w') ->
  exists title train_hist w1 val_hist w2,
    classes_titles config !! 1%nat = Some title
    /\ train train_loader num_classes criterion
         (world_after (log_log "---" ;;
                       log_log ("Epoch: " +:+ Py.str_int (epoch + 1) +:+ "/"
                                +:+ Py.str_int num_epochs)) w)
       = (inr train_hist, w1)
    /\ validate val_loader num_classes criterion
         (world_after (log_log (hist_line "Train   " title train_hist)) w1)
       = (inr val_hist, w2)
    /\ net_sd w' = net_sd w2 /\ optimizer_sd w' = optimizer_sd w2
    /\ files w' =
       <[Py.path_join out (checkpoint_name (epoch + 1) num_epochs) :=
           {| ck_epoch := epoch + 1; ck_state_dict := net_sd w2;
              ck_optimizer := optimizer_sd w2 |}]> (files w2)
    /\ logged w' = logged w2 ++ [hist_line "Validate" title val_hist].
Proof.
  unfold run_epoch. intros Hrun.
  apply bind_inv_inr in Hrun as ([] & wa & Ha & Hrun). rewrite run_log in Ha.
  injection Ha as <-.
  apply bind_inv_inr in Hrun as ([] & wb & Hb & Hrun). rewrite run_log in Hb.
  injection Hb as <-.
  apply bind_inv_inr in Hrun as (train_hist & w1 & Htrain & Hrun).
  apply bind_inv_inr in Hrun as (title & wc & Htitle & Hrun).
  unfold lift in Htitle. injection Htitle as Htitle <-.
  apply bind_inv_inr in Hrun as ([] & wd & Hd & Hrun). rewrite run_log in Hd.
  injection Hd as <-.
  apply bind_inv_inr in Hrun as (val_hist & w2 & Hval & Hrun).
  apply bind_inv_inr in Hrun as (title' & we & Htitle' & Hrun).
  unfold lift in Htitle'. injection Htitle' as Htitle' <-.
  assert (title' = title) as -> by congruence.
  apply bind_inv_inr in Hrun as ([] & wf & Hf & Hrun). rewrite run_log in Hf.
  injection Hf as <-.
  apply bind_inv_inr in Hrun as (wg & wh & Hg & Hrun).
  unfold get_world in Hg. injection Hg as <- <-.
  cbv zeta in Hrun. rewrite run_torch_save in Hrun. injection Hrun as <-.
  exists title, train_hist, w1, val_hist, w2.
  split; [|split; [exact Htrain|split; [exact Hval|repeat split]]].
  unfold Py.index in Htitle. destruct (classes_titles config !! 1%nat); congruence.
Qed.

(** X3. Saving and resuming round-trip: after an epoch has returned, loading
    with [--resume] the checkpoint file it wrote, in any later world with the
    same files, gives the following epoch as the resume epoch and puts back
    the state dict and the optimizer state the epoch ended with. *)
Theorem resume_round_trip (config : Config) (out : string) (num_epochs : Z)
    (num_classes : nat) (criterion : string) (train_loader val_loader : DataLoader)
    (epoch : Z) (w w3 later : World) (args : Args) :
  run_epoch config out num_epochs num_classes criterion train_loader val_loader epoch w
  = (inr tt, w3) ->
  checkpoint_given args
  = Some (Py.path_join out (checkpoint_name (epoch + 1) num_epochs)) ->
  args_resume args = true ->
  files later = files w3 ->
  exists w5,
    load_checkpoint args later = (inr (epoch + 1), w5)
    /\ net_sd w5 = net_sd w3
    /\ optimizer_sd w5 = optimizer_sd w3.
Proof.
  intros Hrun Hgiven Hresume Hfiles.
  destruct (run_epoch_inv _ _ _ _ _ _ _ _ _ _ Hrun)
    as (title & th & w1 & vh & w2 & _ & _ & _ & Hsd & Hopt & Hsaved & _).
  eexists. split.
  - rewrite (load_checkpoint_found args
               (Py.path_join out (checkpoint_name (epoch + 1) num_epochs))
               {| ck_epoch := epoch + 1; ck_state_dict := net_sd w2;
                  ck_optimizer := optimizer_sd w2 |});
      [now rewrite Hresume|exact Hgiven|].
    rewrite Hfiles, Hsaved. apply lookup_insert_eq.
  - unfold loaded. rewrite Hresume. simpl. split; congruence.
Qed.

(** X4. With [--resume], a checkpoint whose stored epoch is below the number
    of epochs, names that resolve and loaders that can be built, [main] goes
    on to the training loop from the stored epoch with the state dict and the
    optimizer state of the checkpoint; however the run ends, the checkpoint
    files of the epochs before the stored one are as they were, and a run
    that returns has written a checkpoint for every epoch from the stored one
    on. *)
Theorem resume_continues (env : Env) (args : Args) (w : World) (path : string)
    (chkpt : Checkpoint) (loaders : DataLoader * DataLoader) :
  let config := load_config env (args_config args) in
  let num_epochs := choose_num_epochs args config in
  let file epoch := Py.path_join (args_out args) (checkpoint_name (epoch + 1) num_epochs) in
  checkpoint_given args = Some path ->
  args_resume args = true ->
  files w !! path = Some chkpt ->
  model_name config ∈ model_modules env ->
  model_loss config ∈ loss_modules env ->
  get_dataset_loaders (choose_dataset_path args config) config (args_workers args)
  = inr loaders ->
  ck_epoch chkpt < num_epochs ->
  exists w1,
    main env args w = training env args (ck_epoch chkpt) loaders w1
    /\ net_sd w1 = ck_state_dict chkpt
    /\ optimizer_sd w1 = ck_optimizer chkpt
    /\ forall r w', main env args w = (r, w') ->
         (forall epoch, epoch < ck_epoch chkpt ->
            files w' !! file epoch = files w !! file epoch)
         /\ (r = inr tt ->
             forall epoch, ck_epoch chkpt <= epoch < num_epochs ->
               exists saved, files w' !! file epoch = Some saved
                             /\ ck_epoch saved = epoch + 1).
Proof.
  intros config num_epochs file Hgiven Hresume Hfile Hmodel Hloss Hloaders Hbelow.
  assert (main env args w
          = training env args (ck_epoch chkpt) loaders
              (loaded args path chkpt (created env args w))) as Hmain.
  { rewrite main_unfold. cbv zeta. fold config. fold num_epochs.
    rewrite bool_decide_eq_false_2 by (intros Hnot; contradiction).
    rewrite (load_checkpoint_found args path chkpt) by assumption.
    rewrite Hresume.
    rewrite bool_decide_eq_false_2 by (intros Hnot; contradiction).
    rewrite Hloaders.
    now rewrite bool_decide_eq_false_2 by lia. }
  exists (loaded args path chkpt (created env args w)).
  split; [exact Hmain|].
  unfold loaded. rewrite Hresume.
  split; [reflexivity|]. split; [reflexivity|].
  intros r w' Hrun. rewrite Hmain in Hrun. split.
  - intros epoch Hbefore.
    transitivity (files (loaded args path chkpt (created env args w)) !! file epoch);
      [|unfold loaded; now destruct (args_resume args)].
    refine (same_file_training env args (ck_epoch chkpt) loaders (file epoch) _ _ _ _ Hrun).
    intros epoch' Hin Heq. apply checkpoint_path_inj in Heq. lia.
  - intros -> epoch Hepoch. unfold training in Hrun.
    do 5 (apply bind_inv_inr in Hrun as (? & ? & _ & Hrun)).
    eapply epochs_all_saved; [apply NoDup_range|exact Hrun|].
    apply in_range. exact Hepoch.
Qed.

(** X5. Without a checkpoint path, or with an empty one, [--resume] has no
    effect: when the names resolve, the loaders can be built and there is at
    least one epoch to run, [main] reads no checkpoint and goes on to the
    training loop from epoch 0 with the newly created network and optimizer. *)
Theorem resume_without_checkpoint (env : Env) (args : Args) (w : World)
    (loaders : DataLoader * DataLoader) :
  let config := load_config env (args_config args) in
  let num_epochs := choose_num_epochs args config in
  args_checkpoint args = None \/ args_checkpoint args = Some "" ->
  model_name config ∈ model_modules env ->
  model_loss config ∈ loss_modules env ->
  get_dataset_loaders (choose_dataset_path args config) config (args_workers args)
  = inr loaders ->
  0 < num_epochs ->
  exists w1,
    main env args w = training env args 0 loaders w1
    /\ calls w1 = calls w
    /\ files w1 = files w
    /\ net_sd w1 = new_model (model_name config) (length (classes_titles config))
                     (count_channels (channels config)) (model_encoder config)
                     (model_pretrained config)
    /\ optimizer_sd w1 = new_adam (choose_lr args config) (model_decay config).
Proof.
  intros config num_epochs Hnone Hmodel Hloss Hloaders Hpos.
  assert (checkpoint_given args = None) as Hgiven.
  { unfold checkpoint_given. destruct Hnone as [-> | ->]; reflexivity. }
  exists (created env args w). split; [|repeat split].
  rewrite main_unfold. cbv zeta. fold config. fold num_epochs.
  rewrite bool_decide_eq_false_2 by (intros Hnot; contradiction).
  rewrite load_checkpoint_none by assumption.
  rewrite bool_decide_eq_false_2 by (intros Hnot; contradiction).
  rewrite Hloaders.
  now rewrite bool_decide_eq_false_2 by lia.
Qed.

End Resuming.

(** ** Drawing batches changes the random generator only *)

Section OnlyRng.
Context `{Robosat}.

Lemma only_rng_refl (w : World) : only_rng w w.
Proof. unfold only_rng. now destruct w. Qed.

Lemma only_rng_trans (w1 w2 w3 : World) : only_rng w1 w2 -> only_rng w2 w3 -> only_rng w1 w3.
Proof. unfold only_rng. intros -> ->. reflexivity. Qed.

Lemma only_rng_set (g : rng) : preserves only_rng (modify (set_rng_state g)).
Proof. intros w r w' [= <- <-]. reflexivity. Qed.

Ltac rng_step :=
  first
    [ apply (preserves_bind only_rng only_rng_trans)
    | apply (preserves_ret only_rng only_rng_refl)
    | apply (preserves_lift only_rng only_rng_refl)
    | apply (preserves_get only_rng only_rng_refl)
    | apply only_rng_set ].

Lemma only_rng_apply_stage (s : joint_stage) (im : tensor * tensor) :
  preserves only_rng (apply_stage s im).
Proof.
  destruct s as [sz|[]|it mt]; simpl; [rng_step| |rng_step|rng_step].
  rng_step; [rng_step|]. intros w.
  destruct (random_choice (rng_state w)) as [op g].
  rng_step; [rng_step|intros _; rng_step].
Qed.

Lemma only_rng_getitem (ds : Dataset) (i : nat) : preserves only_rng (getitem ds i).
Proof.
  unfold getitem. rng_step; [rng_step|]. intros [[image mask] t].
  rng_step; [|intros im; rng_step].
  unfold JointCompose. apply (preserves_foldM only_rng only_rng_refl only_rng_trans).
  intros im s. apply only_rng_apply_stage.
Qed.

Lemma only_rng_sampler (dl : DataLoader) : preserves only_rng (sampler dl).
Proof.
  unfold sampler. destruct (dl_shuffle dl); [|rng_step].
  rng_step; [rng_step|]. intros w.
  destruct (randperm (rng_state w) (dataset_len (dl_dataset dl))) as [order g].
  rng_step; [rng_step|intros _; rng_step].
Qed.

Lemma only_rng_iterate (dl : DataLoader) : preserves only_rng (iterate dl).
Proof.
  unfold iterate. rng_step; [apply only_rng_sampler|]. intros order.
  apply (preserves_mapM only_rng only_rng_refl only_rng_trans). intros idxs.
  rng_step; [|intros samples; rng_step].
  apply (preserves_mapM only_rng only_rng_refl only_rng_trans).
  apply only_rng_getitem.
Qed.

End OnlyRng.

(** ** The loop bodies, when they return *)

Section LoopBodies.
Context `{Robosat}.

Lemma assert_inv (c : bool) (msg : string) (w w' : World) (u : unit) :
  assert c msg w = (inr u, w') -> c = true /\ w' = w.
Proof. destruct c; [now intros [= _ <-]|discriminate]. Qed.

Lemma lift_inv {A} (x : Py.exn + A) (a : A) (w w' : World) :
  lift x w = (inr a, w') -> x = inr a /\ w' = w.
Proof. unfold lift. now intros [= -> <-]. Qed.

Lemma iter_tensor_inv (t : tensor) (l : list tensor) (w w' : World) :
  iter_tensor t w = (inr l, w') -> l = unbind t /\ w' = w.
Proof. unfold iter_tensor. destruct (size t); [discriminate|]. now intros [= <- <-]. Qed.

(** The inner loop over (mask, output) pairs always returns. *)
Lemma run_accumulate (pairs : list (tensor * tensor)) (w : World) :
  for_each pairs (fun mo => metrics_add_call (fst mo) (snd mo)) w
  = (inr tt,
     set_metrics_obj (add_pairs (metrics_obj w) pairs)
       (set_calls (calls w ++ replicate (length pairs) CMetricsAdd) w)).
Proof.
  revert w. induction pairs as [|mo pairs IH]; intros w.
  - simpl. unfold ret, set_metrics_obj, set_calls. simpl. rewrite app_nil_r.
    now destruct w.
  - simpl for_each. unfold bind at 1. unfold metrics_add_call at 1.
    unfold bind at 1, record, modify. rewrite IH.
    unfold set_metrics_obj, set_calls, add_pairs. simpl.
    now rewrite <- app_assoc.
Qed.

(** A batch of the validation loop that returns. *)
Lemma validate_batch_inv (num_classes : nat) (criterion : string) (acc acc' : Counters)
    (b : Batch) (w w' : World) :
  validate_batch num_classes criterion acc b w = (inr acc', w') ->
  let fw := forward (net_training w) (net_sd w) (b_images b) in
  let pairs := zip (unbind (b_masks b)) (unbind (fst fw)) in
  running_loss acc' = float_add (running_loss acc) (criterion_item criterion (fst fw) (b_masks b))
  /\ w' = set_metrics_obj (add_pairs (metrics_obj w) pairs)
            (set_calls
               (calls w ++ CForward (net_training w) (grad_enabled w)
                  :: replicate (length pairs) CMetricsAdd)
               (set_net_sd (snd fw) w)).
Proof.
  unfold validate_batch. intros Hrun.
  apply bind_inv_inr in Hrun as (? & ? & [_ ->]%assert_inv & Hrun).
  apply bind_inv_inr in Hrun as (n & ? & [_ ->]%lift_inv & Hrun).
  apply bind_inv_inr in Hrun as (outputs & wn & Hnet & Hrun).
  rewrite run_net_call in Hnet. injection Hnet as <- <-.
  apply bind_inv_inr in Hrun as (? & ? & [_ ->]%assert_inv & Hrun).
  apply bind_inv_inr in Hrun as (k & ? & [_ ->]%lift_inv & Hrun).
  apply bind_inv_inr in Hrun as (? & ? & [_ ->]%assert_inv & Hrun).
  apply bind_inv_inr in Hrun as (ms & ? & [-> ->]%iter_tensor_inv & Hrun).
  apply bind_inv_inr in Hrun as (os & ? & [-> ->]%iter_tensor_inv & Hrun).
  unfold bind in Hrun. rewrite run_accumulate in Hrun.
  unfold ret in Hrun. injection Hrun as <- <-.
  split; [reflexivity|].
  unfold set_metrics_obj, set_calls, set_net_sd. simpl.
  now rewrite <- app_assoc.
Qed.

End LoopBodies.

(** ** The calls of a training pass *)

Section TrainingCalls.
Context `{Robosat}.

(** A batch of the training loop that returns. *)
Lemma train_batch_inv (num_classes : nat) (criterion : string) (acc acc' : Counters)
    (b : Batch) (w w' : World) :
  net_training w = true ->
  train_batch num_classes criterion acc b w = (inr acc', w') ->
  calls w' = calls w
             ++ train_batch_calls (grad_enabled w) (length (train_pairs (learner_of w) b))
  /\ learner_of w' = train_step criterion (learner_of w) b
  /\ metrics_obj w' = add_pairs (metrics_obj w) (train_pairs (learner_of w) b)
  /\ net_training w' = true
  /\ grad_enabled w' = grad_enabled w.
Proof.
  unfold train_batch. intros Hmode Hrun.
  apply bind_inv_inr in Hrun as (? & ? & [_ ->]%assert_inv & Hrun).
  apply bind_inv_inr in Hrun as (n & ? & [_ ->]%lift_inv & Hrun).
  apply bind_inv_inr in Hrun as (? & wz & Hz & Hrun).
  rewrite run_zero_grad in Hz. injection Hz as Hz.
  apply bind_inv_inr in Hrun as (outputs & wn & Hnet & Hrun).
  rewrite run_net_call in Hnet. injection Hnet as Houtputs Hwn.
  apply bind_inv_inr in Hrun as (? & ? & [_ ->]%assert_inv & Hrun).
  apply bind_inv_inr in Hrun as (k & ? & [_ ->]%lift_inv & Hrun).
  apply bind_inv_inr in Hrun as (? & ? & [_ ->]%assert_inv & Hrun).
  apply bind_inv_inr in Hrun as (? & wb & Hb & Hrun).
  unfold loss_backward, bind, record, modify in Hb. injection Hb as Hb.
  apply bind_inv_inr in Hrun as (? & ws & Hs & Hrun).
  unfold optimizer_step, bind, record, modify in Hs. injection Hs as Hs.
  apply bind_inv_inr in Hrun as (ms & ? & [-> ->]%iter_tensor_inv & Hrun).
  apply bind_inv_inr in Hrun as (os & ? & [-> ->]%iter_tensor_inv & Hrun).
  unfold bind in Hrun. rewrite run_accumulate in Hrun.
  unfold ret in Hrun. injection Hrun as _ <-.
  subst ws wb wn outputs wz. simpl. rewrite Hmode.
  unfold train_pairs, train_step, learner_of, train_batch_calls. simpl.
  destruct (adam_step _ _ _) as [o sd2] eqn:Hadam. simpl.
  repeat split; [|exact Hmode].
  rewrite <- !app_assoc. reflexivity.
Qed.

Lemma train_fold_calls (num_classes : nat) (criterion : string) (batches : list Batch)
    (acc acc' : Counters) (w w' : World) :
  net_training w = true ->
  foldM (train_batch num_classes criterion) acc batches w = (inr acc', w') ->
  calls w' = calls w ++ train_trace (grad_enabled w) criterion (learner_of w) batches
  /\ learner_of w' = fold_left (train_step criterion) batches (learner_of w)
  /\ metrics_obj w' = train_seen criterion (learner_of w) (metrics_obj w) batches
  /\ net_training w' = true.
Proof.
  revert acc w. induction batches as [|b batches IH]; intros acc w Hmode; simpl.
  - intros [= _ <-]. rewrite app_nil_r. auto.
  - intros Hrun. apply bind_inv_inr in Hrun as (acc1 & w1 & Hb & Hrun).
    apply train_batch_inv in Hb as (Hc & Hl & Hm & Ht & Hg); [|exact Hmode].
    destruct (IH _ _ Ht Hrun) as (Hcalls & Hlearner & Hmetrics & Hmode').
    rewrite Hcalls, Hlearner, Hmetrics, Hc, Hl, Hm, Hg, <- app_assoc. auto.
Qed.

(** X6. A training pass that returns has drawn its batches, switched the
    network to training mode once and then, for each batch in turn, made
    exactly the calls zero_grad, forward in training mode, backward,
    optimizer step, followed by one addition to the metrics for each
    (mask, output) pair of the batch, the outputs being those of that
    forward pass; the state dict, the gradients and the optimizer state it
    leaves are those of these steps taken in order, the metrics are a fresh
    object that took these pairs, and the network is left in training
    mode. *)
Theorem training_pass_calls (loader : DataLoader) (num_classes : nat) (criterion : string)
    (w w' : World) (h : Hist) :
  train loader num_classes criterion w = (inr h, w') ->
  exists batches w1,
    iterate loader (enter_pass TrainPass w) = (inr batches, w1)
    /\ calls w' = calls w ++ CTrainMode
                    :: train_trace (grad_enabled w) criterion (learner_of w) batches
    /\ learner_of w' = fold_left (train_step criterion) batches (learner_of w)
    /\ metrics_obj w' = train_seen criterion (learner_of w) Metrics batches
    /\ net_training w' = true.
Proof.
  intros Hrun.
  change (pass TrainPass loader num_classes criterion w = (inr h, w')) in Hrun.
  rewrite pass_unfold in Hrun.
  destruct (iterate loader _) as [[e|batches] w1] eqn:Hiter; [discriminate|].
  pose proof (only_rng_iterate _ _ _ _ Hiter) as Hrng.
  destruct (pass_batches _ _ _ _ _) as [[e|acc] w2] eqn:Hloop; [discriminate|].
  simpl in Hloop. unfold train_batches in Hloop.
  apply train_fold_calls in Hloop as (Hcalls & Hlearner & Hmetrics & Hmode);
    [|now rewrite Hrng].
  destruct (bool_decide _); [|discriminate]. injection Hrun as _ <-.
  exists batches, w1. split; [reflexivity|].
  simpl. rewrite Hcalls, Hlearner, Hmetrics, Hrng. simpl.
  rewrite <- app_assoc. auto.
Qed.

End TrainingCalls.

(** ** What validation computes *)

Section ValidationStatistics.
Context `{Robosat}.
Hypothesis forward_eval : forall sd x, snd (forward false sd x) = sd.

Lemma validate_fold (num_classes : nat) (criterion : string) (batches : list Batch)
    (acc acc' : Counters) (w w' : World) :
  net_training w = false ->
  foldM (validate_batch num_classes criterion) acc batches w = (inr acc', w') ->
  running_loss acc'
  = fold_left (fun x b => float_add x (eval_loss criterion (net_sd w) b)) batches
      (running_loss acc)
  /\ metrics_obj w' = fold_left (eval_metrics (net_sd w)) batches (metrics_obj w)
  /\ net_sd w' = net_sd w
  /\ optimizer_sd w' = optimizer_sd w.
Proof.
  revert acc w. induction batches as [|b batches IH]; intros acc w Hmode; simpl.
  - intros [= <- <-]. auto.
  - intros Hrun. apply bind_inv_inr in Hrun as (acc1 & w1 & Hb & Hrun).
    apply validate_batch_inv in Hb as [Hloss ->]. rewrite Hmode in *.
    apply IH in Hrun as (Hl & Hm & Hsd & Hopt); [|exact Hmode].
    simpl in Hl, Hm, Hsd, Hopt. rewrite forward_eval in Hl, Hm, Hsd.
    rewrite Hl, Hm, Hsd, Hopt, Hloss. auto.
Qed.

(** A validation pass, however it ends, leaves the state dict and the
    optimizer state as they were. *)
Lemma validate_keeps_state (loader : DataLoader) (num_classes : nat) (criterion : string)
    (w w' : World) (r : Py.exn + Hist) :
  validate loader num_classes criterion w = (r, w') ->
  net_sd w' = net_sd w /\ optimizer_sd w' = optimizer_sd w.
Proof.
  intros Hrun.
  change (pass ValidatePass loader num_classes criterion w = (r, w')) in Hrun.
  rewrite pass_unfold in Hrun.
  assert (exists w2, w' = leave_pass ValidatePass w w2
                     /\ eval_frame (enter_pass ValidatePass w) w2) as (w2 & -> & Hframe).
  { destruct (iterate loader _) as [[e|batches] w1] eqn:Hiter.
    { injection Hrun as _ <-. eexists. split; [reflexivity|].
      eapply (keeps_iterate eval_frame), Hiter. }
    pose proof (keeps_iterate eval_frame _ _ _ _ Hiter) as H1.
    destruct (pass_batches _ _ _ _ _) as [[e|acc] w2] eqn:Hloop;
      pose proof (eval_frame_validate_batches forward_eval _ _ _ _ _ _ Hloop) as H2.
    - injection Hrun as _ <-. eexists. split; [reflexivity|].
      eapply frame_trans; eassumption.
    - exists w2. split; [|eapply frame_trans; eassumption].
      destruct (bool_decide _); now injection Hrun as _ <-. }
  destruct (Hframe eq_refl eq_refl) as (_ & _ & Hsd & Ho & _).
  simpl in *. auto.
Qed.

End ValidationStatistics.

Section ValidationResult.
Context `{Robosat}.

(** X7. Provided a forward pass in evaluation mode leaves the state dict as
    it is, the statistics a validation pass returns are a function of the
    state dict of the network it was called with and of the batches drawn
    alone: the loss is the sum, from zero, of the losses of the batches
    under that one state dict, divided by the number of samples, and the
    three other figures are read from metrics that start fresh and take the
    (mask, output) pairs of the batches in order. *)
Theorem validation_statistics (loader : DataLoader) (num_classes : nat)
    (criterion : string) (w w1 w' : World) (batches : list Batch) (h : Hist) :
  (forall sd x, snd (forward false sd x) = sd) ->
  iterate loader (enter_pass ValidatePass w) = (inr batches, w1) ->
  validate loader num_classes criterion w = (inr h, w') ->
  let sd := net_sd w in
  let seen := fold_left (eval_metrics sd) batches Metrics in
  h = {| loss := float_div
                   (fold_left (fun x b => float_add x (eval_loss criterion sd b)) batches
                      (float_of_int 0))
                   (samples_processed batches);
         miou := get_miou seen;
         fg_iou := get_fg_iou seen;
         mcc := get_mcc seen |}.
Proof.
  intros forward_eval Hiter Hrun sd seen.
  change (pass ValidatePass loader num_classes criterion w = (inr h, w')) in Hrun.
  rewrite pass_unfold, Hiter in Hrun.
  pose proof (only_rng_iterate _ _ _ _ Hiter) as Hrng.
  destruct (pass_batches _ _ _ _ _) as [[e|acc] w2] eqn:Hloop; [discriminate|].
  pose proof (pass_batches_counts _ _ _ _ _ _ _ Hloop) as Hcount.
  simpl in Hloop. unfold validate_batches in Hloop.
  apply (validate_fold forward_eval) in Hloop as (Hloss & Hmetrics & _);
    [|now rewrite Hrng].
  destruct (bool_decide _); [|discriminate]. injection Hrun as <- _.
  unfold hist_of. rewrite Hloss, Hmetrics, Hcount, Hrng. reflexivity.
Qed.

(** X8. Provided a forward pass in evaluation mode leaves the state dict as
    it is, the checkpoint an epoch writes holds the state dict and the
    optimizer state as the training pass of that epoch left them, and these
    are also the ones the epoch ends with: validating in between changes
    neither. *)
Theorem checkpoint_holds_trained_state (config : Config) (out : string) (num_epochs : Z)
    (num_classes : nat) (criterion : string) (train_loader val_loader : DataLoader)
    (epoch : Z) (w w3 : World) :
  (forall sd x, snd (forward false sd x) = sd) ->
  run_epoch config out num_epochs num_classes criterion train_loader val_loader epoch w
  = (inr tt, w3) ->
  exists train_hist w1,
    train train_loader num_classes criterion
      (world_after (log_log "---" ;;
                    log_log ("Epoch: " +:+ Py.str_int (epoch + 1) +:+ "/"
                             +:+ Py.str_int num_epochs)) w)
    = (inr train_hist, w1)
    /\ files w3 !! Py.path_join out (checkpoint_name (epoch + 1) num_epochs)
       = Some {| ck_epoch := epoch + 1; ck_state_dict := net_sd w1;
                 ck_optimizer := optimizer_sd w1 |}
    /\ net_sd w3 = net_sd w1
    /\ optimizer_sd w3 = optimizer_sd w1.
Proof.
  intros forward_eval Hrun.
  destruct (run_epoch_inv _ _ _ _ _ _ _ _ _ _ Hrun)
    as (title & th & w1 & vh & w2 & _ & Htrain & Hval & Hsd & Hopt & Hsaved & _).
  destruct (validate_keeps_state forward_eval _ _ _ _ _ _ Hval) as [Hsd2 Hopt2].
  simpl in Hsd2, Hopt2.
  exists th, w1. split; [exact Htrain|].
  rewrite Hsaved, lookup_insert_eq, Hsd, Hopt, Hsd2, Hopt2. auto.
Qed.

End ValidationResult.

(** ** The batches of one iteration *)

Section Batches.
Context `{Robosat}.

Lemma mapM_inv {A B} (f : A -> M B) (l : list A) (l' : list B) (w w' : World) :
  mapM f l w = (inr l', w') ->
  Forall2 (fun a b => exists w0 w1, f a w0 = (inr b, w1)) l l'.
Proof.
  revert l' w w'. induction l as [|a l IH]; intros l' w w'; simpl.
  - intros [= <- _]. constructor.
  - intros Hrun. apply bind_inv_inr in Hrun as (b & w1 & Hb & Hrun).
    apply bind_inv_inr in Hrun as (bs & w2 & Hbs & Hrun).
    injection Hrun as <- _. constructor; [eauto|]. eapply IH, Hbs.
Qed.

Lemma length_concat_uniform {A} (n : nat) (ls : list (list A)) :
  Forall (fun l => length l = n) ls -> length (concat ls) = (length ls * n)%nat.
Proof.
  induction 1 as [|l ls Hl _ IH]; [reflexivity|].
  simpl. rewrite length_app, IH, Hl. reflexivity.
Qed.

(** With [drop_last], an order of [n] indices falls into [n / bs] batches. *)
Lemma batch_sampler_count (bs : nat) (order : list nat) :
  (0 < bs)%nat ->
  length (batch_sampler bs true [] order) = (length order / bs)%nat.
Proof.
  intros Hbs.
  destruct (batch_sampler_drop_last bs order [] Hbs) as [Hcat Hall]; [simpl; lia|].
  simpl app in Hcat. apply (f_equal length) in Hcat.
  rewrite (length_concat_uniform bs) in Hcat by exact Hall.
  rewrite length_take in Hcat.
  pose proof (Nat.Div0.mul_div_le (length order) bs) as Hle.
  revert Hcat Hle. generalize (length order / bs)%nat as q.
  generalize (length (batch_sampler bs true [] order)) as k.
  intros k q Hcat Hle. nia.
Qed.

(** X9. One iteration of either loader that [get_dataset_loaders] built,
    when it returns, yields as many batches as the batch size goes into the
    number of samples of its data set, rounded down, each of them the
    collation of exactly [batch_size] samples; and drawing them has changed
    nothing in the world but the random generator. *)
Theorem batches_per_pass (path : path_val) (config : Config) (workers : Z)
    (loaders : DataLoader * DataLoader) (k : pass_kind) (w w1 : World)
    (batches : list Batch) :
  get_dataset_loaders path config workers = inr loaders ->
  (forall g n, length (fst (randperm g n)) = n) ->
  iterate (loader_of k loaders) w = (inr batches, w1) ->
  let batch_size := Z.to_nat (model_batch_size config) in
  length batches = (dataset_len (dl_dataset (loader_of k loaders)) / batch_size)%nat
  /\ Forall (fun b => exists samples, length samples = batch_size /\ b = collate samples)
       batches
  /\ w1 = set_rng_state (rng_state w1) w.
Proof.
  intros Hloaders Hperm Hiter batch_size.
  pose proof (only_rng_iterate _ _ _ _ Hiter) as Hrng.
  destruct (get_dataset_loaders_inv _ _ _ _ Hloaders) as (root & _ & Hbs & Hk).
  set (dl := loader_of k loaders) in *.
  assert (dl_drop_last dl = true) as Hdrop by (subst dl; now rewrite (Hk k)).
  assert (dl_batch_size dl = model_batch_size config) as Hsize
    by (subst dl; now rewrite (Hk k)).
  assert (0 < batch_size)%nat as Hpos by (subst batch_size; lia).
  unfold iterate in Hiter.
  apply bind_inv_inr in Hiter as (order & w0 & Horder & Hiter).
  apply (sampler_length dl _ _ _ Hperm) in Horder.
  apply mapM_inv in Hiter. unfold batches_of in Hiter.
  rewrite Hdrop, Hsize in Hiter. fold batch_size in Hiter.
  split; [|split; [|exact Hrng]].
  - rewrite <- (Forall2_length _ _ _ Hiter), <- Horder.
    now apply batch_sampler_count.
  - destruct (batch_sampler_visits batch_size order Hpos) as [_ Hall].
    revert Hall. induction Hiter as [|idxs b ls bs' Hb _ IH]; intros Hall; [constructor|].
    apply Forall_cons in Hall as [Hlen Hall].
    constructor; [|now apply IH].
    destruct Hb as (wa & wb & Hb).
    apply bind_inv_inr in Hb as (samples & wc & Hsamples & Hb).
    injection Hb as <- _. apply mapM_inv, Forall2_length in Hsamples.
    exists samples. split; [congruence|reflexivity].
Qed.

End Batches.

(** ** More refusals of [main] *)

Section MoreRefusals.
Context `{Robosat}.

(** X10. A non-zero int given to [--dataset] stops [main]: whatever else
    holds, the run raises without having trained and without saving a
    checkpoint; when the model and loss names resolve and the checkpoint, if
    one is given, can be read, what it raises is the [TypeError] of joining
    an int with a directory name. *)
Theorem dataset_override_stops_main (env : Env) (args : Args) (w : World) (n : Z) :
  let config := load_config env (args_config args) in
  args_dataset args = Some n -> n ≠ 0 ->
  exists e w',
    main env args w = (inl e, w')
    /\ untrained w w'
    /\ (model_name config ∈ model_modules env ->
        model_loss config ∈ loss_modules env ->
        (forall path, checkpoint_given args = Some path -> is_Some (files w !! path)) ->
        e = Py.TypeError).
Proof.
  intros config Hn Hne.
  rewrite main_unfold. cbv zeta. fold config.
  rewrite (dataset_int_is_no_path args config n Hn Hne).
  case_bool_decide as Hmodel.
  { eexists _, _. split; [reflexivity|].
    split; [split; [reflexivity|now left]|]. intros Hin. contradiction. }
  destruct (checkpoint_given args) as [path|] eqn:Hgiven.
  - destruct (files w !! path) as [chkpt|] eqn:Hfile.
    + rewrite (load_checkpoint_found args path chkpt) by assumption.
      assert (untrained w (loaded args path chkpt (created env args w))) as Hun.
      { unfold loaded. split; [now destruct (args_resume args)|].
        right. exists path. now destruct (args_resume args). }
      case_bool_decide as Hloss.
      * eexists _, _. split; [reflexivity|]. split; [exact Hun|].
        intros _ Hin. contradiction.
      * eexists _, _. split; [reflexivity|]. split; [exact Hun|]. reflexivity.
    + rewrite (load_checkpoint_missing args path) by assumption.
      eexists _, _. split; [reflexivity|].
      split; [split; [reflexivity|right; now exists path]|].
      intros _ _ Hfiles. destruct (Hfiles path eq_refl) as [chkpt Hsome]. congruence.
  - rewrite load_checkpoint_none by assumption.
    case_bool_decide as Hloss.
    + eexists _, _. split; [reflexivity|].
      split; [split; [reflexivity|now left]|]. intros _ Hin. contradiction.
    + eexists _, _. split; [reflexivity|].
      split; [split; [reflexivity|now left]|]. reflexivity.
Qed.

(** X11. The checkpoint is read before the loss name is looked up and
    before the loaders are built, with or without [--resume]: when the model
    name resolves and there is no file at the checkpoint path given, [main]
    raises the error of the missing file, whatever the loss name and the
    data set path are, having only created the network and the optimizer
    and tried to load. *)
Theorem missing_checkpoint_stops_main (env : Env) (args : Args) (w : World)
    (path : string) :
  let config := load_config env (args_config args) in
  model_name config ∈ model_modules env ->
  checkpoint_given args = Some path ->
  files w !! path = None ->
  main env args w
  = (inl (Py.FileNotFoundError path),
     set_calls (calls w ++ [CLoad path]) (created env args w)).
Proof.
  intros config Hmodel Hgiven Hfile.
  rewrite main_unfold. cbv zeta. fold config.
  rewrite bool_decide_eq_false_2 by (intros Hnot; contradiction).
  now rewrite (load_checkpoint_missing args path) by assumption.
Qed.

End MoreRefusals.

(** ** The channel lines of the log *)

Section ChannelLines.
Context `{Robosat}.

Lemma channel_lines_app (n : Z) (l1 l2 : list (string * Z)) :
  channel_lines n (l1 ++ l2)
  = channel_lines n l1 ++ channel_lines (n + Z.of_nat (length l1)) l2.
Proof.
  unfold channel_lines. rewrite imap_app. f_equal.
  apply imap_ext. intros i sb _. simpl. f_equal. lia.
Qed.

Lemma run_log_bands (channel : Channel) (l : list Z) (n : Z) (w : World) :
  foldM (fun num_channel band =>
           log_log ("Channel " +:+ Py.str_int num_channel +:+ ":"
                    +:+ String Py.tab (String Py.tab " ")
                    +:+ sub channel +:+ "[band: " +:+ Py.str_int band +:+ "]") ;;
           ret (num_channel + 1)) n l w
  = (inr (n + Z.of_nat (length l)),
     set_logged
       (logged w ++ channel_lines n (map (fun band => (sub channel, band)) l)) w).
Proof.
  revert n w. induction l as [|band l IH]; intros n w.
  - simpl. unfold ret, channel_lines. simpl. rewrite Z.add_0_r, app_nil_r.
    now destruct w.
  - simpl foldM. unfold bind at 1. unfold bind at 1. rewrite run_log.
    unfold ret at 1. rewrite IH. f_equal; [f_equal; simpl length; lia|].
    unfold set_logged. simpl. f_equal.
    change ((sub channel, band) :: map (fun band0 => (sub channel, band0)) l)
      with ([(sub channel, band)] ++ map (fun band0 => (sub channel, band0)) l).
    rewrite channel_lines_app, <- app_assoc. f_equal.
    unfold channel_lines at 2. simpl. unfold channel_line. simpl.
    now rewrite Z.add_0_r.
Qed.

Lemma run_log_channel_loop (chans : list Channel) (n : Z) (w : World) :
  foldM (fun num_channel channel =>
           foldM (fun num_channel band =>
                    log_log ("Channel " +:+ Py.str_int num_channel +:+ ":"
                             +:+ String Py.tab (String Py.tab " ")
                             +:+ sub channel +:+ "[band: " +:+ Py.str_int band +:+ "]") ;;
                    ret (num_channel + 1))
                 num_channel (bands channel)) n chans w
  = (inr (n + Z.of_nat (length (channel_bands chans))),
     set_logged (logged w ++ channel_lines n (channel_bands chans)) w).
Proof.
  revert n w. induction chans as [|channel chans IH]; intros n w.
  - simpl. unfold ret, channel_lines. simpl. rewrite Z.add_0_r, app_nil_r.
    now destruct w.
  - simpl foldM. unfold bind at 1. rewrite run_log_bands, IH.
    unfold channel_bands. simpl flat_map. fold (channel_bands chans).
    rewrite length_app, length_map, channel_lines_app, length_map.
    f_equal; [f_equal; lia|].
    unfold set_logged. simpl. now rewrite <- app_assoc.
Qed.

Lemma count_channels_from (chans : list Channel) (n : nat) :
  fold_left (fun n channel => (n + length (bands channel))%nat) chans n
  = (n + length (channel_bands chans))%nat.
Proof.
  revert n. induction chans as [|channel chans IH]; intros n; simpl.
  - lia.
  - rewrite IH. unfold channel_bands. simpl flat_map. fold (channel_bands chans).
    rewrite length_app, length_map. lia.
Qed.

(** The channel loop always returns, and changes the log only. *)
Lemma run_log_channels (chans : list Channel) (w : World) :
  log_channels chans w
  = (inr tt, set_logged (logged w ++ channel_lines 1 (channel_bands chans)) w).
Proof. unfold log_channels, bind. now rewrite run_log_channel_loop. Qed.

(** X12. The channel loop of [main] always returns and writes one line per
    band of each channel, in the order of the configuration, numbered from 1
    without starting over at the next channel; the lines are as many as the
    input channels the network is created with. *)
Theorem channel_lines_numbered (chans : list Channel) (w : World) :
  exists w',
    log_channels chans w = (inr tt, w')
    /\ logged w' = logged w
                   ++ imap (fun i sb => channel_line (1 + Z.of_nat i) sb) (channel_bands chans)
    /\ length (channel_bands chans) = count_channels chans
    /\ files w' = files w /\ calls w' = calls w.
Proof.
  eexists. split; [apply run_log_channels|].
  split; [reflexivity|]. split; [|split; reflexivity].
  unfold count_channels. now rewrite count_channels_from.
Qed.

End ChannelLines.

(** ** A run that is interrupted *)

Section Interrupted.
Context `{Robosat}.

Lemma for_each_inv_inl {A} (l : list A) (body : A -> M unit) (w w' : World) (e : Py.exn) :
  for_each l body w = (inl e, w') ->
  exists pre x post w1,
    l = pre ++ x :: post
    /\ for_each pre body w = (inr tt, w1)
    /\ body x w1 = (inl e, w').
Proof.
  revert w. induction l as [|a l IH]; intros w; simpl; [discriminate|].
  intros Hrun. apply bind_inv_inl in Hrun as [Ha | ([] & w1 & Ha & Hrun)].
  - exists [], a, l, w. auto.
  - destruct (IH _ Hrun) as (pre & x & post & w2 & -> & Hpre & Hx).
    exists (a :: pre), x, post, w2. split; [reflexivity|]. split; [|exact Hx].
    simpl. now erewrite bind_inr by exact Ha.
Qed.

Lemma range_split (a b x : Z) (pre post : list Z) :
  Py.range a b = pre ++ x :: post -> pre = Py.range a x /\ a <= x < b.
Proof.
  intros Heq.
  assert (Py.range a b !! length pre = Some x) as Hx
    by (rewrite Heq; apply list_lookup_middle; reflexivity).
  assert (pre = take (length pre) (Py.range a b)) as Hpre
    by (now rewrite Heq, take_app_length).
  unfold Py.range in Hx, Hpre |- *.
  rewrite list_lookup_fmap in Hx.
  destruct (seq 0 (Z.to_nat (b - a)) !! length pre) as [i|] eqn:Hi; [|discriminate].
  apply lookup_seq in Hi as [-> Hlt]. simpl in Hx. injection Hx as <-.
  split; [|lia].
  rewrite Hpre at 1. rewrite <- fmap_take, take_seq. f_equal. f_equal. lia.
Qed.

(** An epoch that raises has saved nothing. *)
Lemma same_files_failed_epoch (config : Config) (out : string) (num_epochs : Z)
    (num_classes : nat) (criterion : string) (train_loader val_loader : DataLoader)
    (epoch : Z) (w w' : World) (e : Py.exn) :
  run_epoch config out num_epochs num_classes criterion train_loader val_loader epoch w
  = (inl e, w') ->
  files w' = files w.
Proof.
  unfold run_epoch. intros Hrun.
  repeat match type of Hrun with
  | bind ?m ?k ?w0 = (inl _, _) =>
      let Hm := fresh "Hm" in
      apply bind_inv_inl in Hrun as [Hm | (? & ? & Hm & Hrun)]
  end.
  all: repeat match goal with
  | Hm : log_log _ _ = _ |- _ => apply same_files_log in Hm
  | Hm : train _ _ _ _ = _ |- _ => apply (same_files_pass TrainPass) in Hm
  | Hm : validate _ _ _ _ = _ |- _ => apply (same_files_pass ValidatePass) in Hm
  | Hm : lift _ _ = _ |- _ => apply (preserves_lift same_files frame_refl) in Hm
  | Hm : get_world _ = _ |- _ => apply (preserves_get same_files frame_refl) in Hm
  end; unfold same_files in *; try congruence.
  cbv zeta in Hrun. rewrite run_torch_save in Hrun. discriminate Hrun.
Qed.

(** X13. When the training loop raises, it does so in one epoch, the failed
    one, which has saved nothing; the checkpoints of the epochs of this run
    before it are all in place, and every other checkpoint file of the
    output directory, those of the failed epoch and of the epochs after it
    included, is as it was before the run. *)
Theorem interrupted_run_keeps_checkpoints (env : Env) (args : Args) (resume : Z)
    (loaders : DataLoader * DataLoader) (w w' : World) (e : Py.exn) :
  let config := load_config env (args_config args) in
  let num_epochs := choose_num_epochs args config in
  let file epoch := Py.path_join (args_out args) (checkpoint_name (epoch + 1) num_epochs) in
  let body :=
    run_epoch config (args_out args) num_epochs (length (classes_titles config))
      (model_loss config) (fst loaders) (snd loaders) in
  training env args resume loaders w = (inl e, w') ->
  exists failed w0 w1,
    resume <= failed < num_epochs
    /\ files w0 = files w
    /\ for_each (Py.range resume failed) body w0 = (inr tt, w1)
    /\ body failed w1 = (inl e, w')
    /\ files w' = files w1
    /\ (forall epoch, resume <= epoch < failed ->
          exists saved, files w' !! file epoch = Some saved /\ ck_epoch saved = epoch + 1)
    /\ (forall epoch, ~ resume <= epoch < failed ->
          files w' !! file epoch = files w !! file epoch).
Proof.
  intros config num_epochs file body Hrun. unfold training in Hrun. cbv zeta in Hrun.
  fold config in Hrun. fold num_epochs in Hrun. fold body in Hrun.
  apply bind_inv_inl in Hrun as [Hm | ([] & wa & Hm & Hrun)]; [discriminate Hm|].
  rewrite run_log in Hm. injection Hm as <-.
  apply bind_inv_inl in Hrun as [Hm | ([] & wb & Hm & Hrun)]; [discriminate Hm|].
  rewrite run_log in Hm. injection Hm as <-.
  apply bind_inv_inl in Hrun as [Hm | ([] & wc & Hm & Hrun)];
    [rewrite run_log_channels in Hm; discriminate Hm|].
  rewrite run_log_channels in Hm. injection Hm as <-.
  apply bind_inv_inl in Hrun as [Hm | ([] & wd & Hm & Hrun)]; [discriminate Hm|].
  rewrite run_log in Hm. injection Hm as <-.
  apply bind_inv_inl in Hrun as [Hm | ([] & w0 & Hm & Hrun)];
    [discriminate Hm|].
  apply same_files_log_hyper_parameters in Hm. unfold same_files in Hm. simpl in Hm.
  apply for_each_inv_inl in Hrun as (pre & failed & post & w1 & Hsplit & Hpre & Hfailed).
  apply range_split in Hsplit as [-> Hin].
  pose proof (same_files_failed_epoch _ _ _ _ _ _ _ _ _ _ _ Hfailed) as Hsame.
  exists failed, w0, w1.
  split; [exact Hin|]. split; [exact Hm|]. split; [exact Hpre|].
  split; [exact Hfailed|]. split; [exact Hsame|]. split.
  - intros epoch Hepoch. rewrite Hsame.
    eapply epochs_all_saved; [apply NoDup_range|exact Hpre|].
    now apply in_range.
  - intros epoch Hout. rewrite Hsame, <- Hm.
    refine (preserves_for_each_in (same_file _) _ _ _ _ _ _ Hpre).
    intros e' He'. apply in_range in He'.
    apply same_file_run_epoch. intros Heq.
    apply checkpoint_path_inj in Heq. lia.
Qed.

End Interrupted.

(** ** The order of the checkpoint files *)

Section SortedNames.
Context `{Robosat}.

Lemma length_zeros (k : nat) : String.length (Py.zeros k) = k.
Proof. induction k as [|k IH]; [reflexivity|]. simpl. now rewrite IH. Qed.

Lemma length_pretty_go (k : nat) (x : N) (s : string) :
  (x < 10 ^ N.of_nat k)%N ->
  (String.length (pretty_N_go x s) <= k + String.length s)%nat.
Proof.
  revert x s. induction k as [|k IH]; intros x s Hx.
  - assert (x = 0%N) as -> by (simpl in Hx; lia). rewrite pretty_N_go_0. lia.
  - destruct (decide (x = 0)%N) as [-> | Hpos].
    { rewrite pretty_N_go_0. lia. }
    rewrite pretty_N_go_step by lia.
    etransitivity; [apply IH|simpl; lia].
    rewrite Nat2N.inj_succ, N.pow_succ_r' in Hx.
    apply N.Div0.div_lt_upper_bound. lia.
Qed.

Lemma length_format_05d (n : Z) :
  0 <= n <= 99999 -> String.length (Py.format_05d n) = 5%nat.
Proof.
  intros Hn. rewrite format_05d_nonneg by lia.
  unfold Py.zero_pad. rewrite append_length, length_zeros.
  assert (String.length (pretty (Z.to_N n)) <= 5)%nat; [|lia].
  unfold pretty, pretty_N. case_decide; [simpl; lia|].
  etransitivity; [apply (length_pretty_go 5)|simpl; lia].
  change (10 ^ N.of_nat 5)%N with 100000%N. lia.
Qed.

Lemma digit_value_bound (c : ascii) :
  (48 <= nat_of_ascii c <= 57)%nat ->
  (N.of_nat (nat_of_ascii c) - 48 <= 9)%N /\ N.of_nat (nat_of_ascii c) = N_of_ascii c
  /\ (48 <= N_of_ascii c)%N.
Proof.
  intros Hc. unfold nat_of_ascii in *. rewrite N2Nat.id. lia.
Qed.

Lemma dec_value_bound (s : string) :
  all_digits s = true -> (dec_value s < 10 ^ N.of_nat (String.length s))%N.
Proof.
  induction s as [|c s IH]; [simpl; lia|].
  simpl all_digits. intros [Hc Hs]%andb_true_iff.
  apply bool_decide_eq_true in Hc. apply digit_value_bound in Hc as (Hc & _ & _).
  specialize (IH Hs). simpl dec_value. simpl String.length.
  rewrite Nat2N.inj_succ, N.pow_succ_r'.
  generalize dependent (10 ^ N.of_nat (String.length s))%N. intros p IH. nia.
Qed.

(** Among strings of digits of one length, the order of the strings is the
    order of the numbers. *)
Lemma digits_compare (s t : string) :
  all_digits s = true -> all_digits t = true ->
  String.length s = String.length t ->
  (dec_value s < dec_value t)%N -> String.compare s t = Lt.
Proof.
  revert t. induction s as [|c s IH]; intros [|d t] Hs Ht Hlen Hlt;
    try discriminate Hlen; [simpl in Hlt; lia|].
  simpl all_digits in Hs, Ht.
  apply andb_true_iff in Hs as [Hc Hs]. apply andb_true_iff in Ht as [Hd Ht].
  injection Hlen as Hlen.
  apply bool_decide_eq_true in Hc, Hd.
  apply digit_value_bound in Hc as (_ & Hc & Hc').
  apply digit_value_bound in Hd as (_ & Hd & Hd').
  pose proof (dec_value_bound s Hs) as Bs. pose proof (dec_value_bound t Ht) as Bt.
  simpl dec_value in Hlt. rewrite Hc, Hd, Hlen in Hlt. rewrite Hlen in Bs.
  simpl String.compare. unfold Ascii.compare.
  destruct (N.compare_spec (N_of_ascii c) (N_of_ascii d)) as [Heq|Hcd|Hcd].
  - apply IH; try assumption. rewrite Heq in Hlt. lia.
  - reflexivity.
  - exfalso. revert Hlt Bs Bt.
    generalize (10 ^ N.of_nat (String.length t))%N (dec_value s) (dec_value t).
    intros p vs vt Hlt Bs Bt. nia.
Qed.

Lemma compare_prefix (p s t : string) :
  String.compare (p +:+ s) (p +:+ t) = String.compare s t.
Proof.
  induction p as [|c p IH]; [reflexivity|].
  rewrite !append_cons. simpl. unfold Ascii.compare. now rewrite N.compare_refl.
Qed.

Lemma compare_suffix_lt (a b r : string) :
  String.length a = String.length b ->
  String.compare a b = Lt -> String.compare (a +:+ r) (b +:+ r) = Lt.
Proof.
  revert b. induction a as [|c a IH]; intros [|d b] Hlen Hlt;
    try discriminate Hlen; [discriminate Hlt|].
  injection Hlen as Hlen. rewrite !append_cons. simpl in Hlt |- *.
  destruct (Ascii.compare c d); [now apply IH|reflexivity|discriminate].
Qed.

(** X14. As long as the epoch numbers have at most five digits, the
    checkpoint files of a run sort by name in the order of their epochs:
    the path of an earlier epoch is below the path of a later one in the
    order of strings. *)
Theorem checkpoint_paths_sorted (out : string) (e1 e2 num_epochs : Z) :
  0 <= e1 -> e1 < e2 -> e2 <= 99999 ->
  String.compare (Py.path_join out (checkpoint_name e1 num_epochs))
                 (Py.path_join out (checkpoint_name e2 num_epochs)) = Lt.
Proof.
  intros Hnonneg Hlt Hmax.
  assert (String.compare (checkpoint_name e1 num_epochs) (checkpoint_name e2 num_epochs)
          = Lt) as Hnames.
  { unfold checkpoint_name. rewrite compare_prefix.
    apply compare_suffix_lt; [now rewrite !length_format_05d by lia|].
    rewrite !format_05d_nonneg by lia.
    apply digits_compare; try apply all_digits_zero_pad.
    - rewrite <- !format_05d_nonneg by lia. now rewrite !length_format_05d by lia.
    - rewrite !dec_value_zero_pad. lia. }
  unfold Py.path_join. rewrite !checkpoint_name_relative.
  destruct (bool_decide (out = "") || Py.endswith_sep out).
  - now rewrite compare_prefix.
  - now rewrite !compare_prefix.
Qed.

End SortedNames.

(** ** The log of an epoch *)

Section EpochLog.
Context `{Robosat}.

#[global] Instance same_log_frame : Frame same_log.
Proof.
  split; unfold same_log; try reflexivity. intros w1 w2 w3. congruence.
Qed.

Lemma same_log_net_call (images : tensor) : preserves same_log (net_call images).
Proof. intros w r w'. rewrite run_net_call. now intros [= <- <-]. Qed.

Lemma same_log_pass_batch (k : pass_kind) (num_classes : nat) (criterion : string)
    (acc : Counters) (b : Batch) :
  preserves same_log (pass_batch k num_classes criterion acc b).
Proof.
  destruct k; simpl.
  - unfold train_batch.
    assert (preserves same_log optimizer_zero_grad) as Hz
      by (intros w r w'; rewrite run_zero_grad; now intros [= <- <-]).
    assert (forall images masks, preserves same_log (loss_backward criterion images masks))
      as Hb by now intros images masks w r w' [= <- <-].
    assert (preserves same_log optimizer_step) as Hs.
    { intros w r w'. unfold optimizer_step, record, modify, bind. simpl.
      destruct (adam_step _ _ _). now intros [= <- <-]. }
    repeat first
      [ apply same_log_net_call | apply Hz | apply Hb | apply Hs
      | frame_step same_log | intros ? ].
  - apply keeps_validate_batch; [apply _|]. apply same_log_net_call.
Qed.

(** Neither pass writes to the log, however it ends. *)
Lemma same_log_pass (k : pass_kind) (loader : DataLoader) (num_classes : nat)
    (criterion : string) :
  preserves same_log (pass k loader num_classes criterion).
Proof.
  intros w r w'. rewrite pass_unfold.
  assert (forall w2, logged (leave_pass k w w2) = logged w2) as Hleave by now destruct k.
  assert (logged (enter_pass k w) = logged w) as Henter by now destruct k.
  destruct (iterate loader _) as [[e|batches] w1] eqn:Hiter;
    pose proof (keeps_iterate same_log _ _ _ _ Hiter) as H1; unfold same_log in *.
  { intros [= <- <-]. rewrite Hleave. congruence. }
  rewrite pass_batches_fold.
  destruct (foldM _ _ _ _) as [[e|acc] w2] eqn:Hloop;
    pose proof (preserves_foldM same_log frame_refl frame_trans _ _
                  (same_log_pass_batch k num_classes criterion) _ _ _ _ Hloop) as H2;
    unfold same_log in H2.
  { intros [= <- <-]. rewrite Hleave. congruence. }
  destruct (bool_decide _); intros [= <- <-]; rewrite Hleave; congruence.
Qed.

(** X15. An epoch that returns has added exactly four lines to the log: the
    separator, the epoch counted from one over the number of epochs, the
    statistics of the training pass and those of the validation pass, both
    labelled with the title of the second class. *)
Theorem epoch_log_lines (config : Config) (out : string) (num_epochs : Z)
    (num_classes : nat) (criterion : string) (train_loader val_loader : DataLoader)
    (epoch : Z) (w w' : World) :
  run_epoch config out num_epochs num_classes criterion train_loader val_loader epoch w
  = (inr tt, w') ->
  exists title train_hist val_hist w1 w2,
    classes_titles config !! 1%nat = Some title
    /\ train train_loader num_classes criterion
         (world_after (log_log "---" ;;
                       log_log ("Epoch: " +:+ Py.str_int (epoch + 1) +:+ "/"
                                +:+ Py.str_int num_epochs)) w)
       = (inr train_hist, w1)
    /\ validate val_loader num_classes criterion
         (world_after (log_log (hist_line "Train   " title train_hist)) w1)
       = (inr val_hist, w2)
    /\ logged w'
       = logged w
         ++ [ "---";
              "Epoch: " +:+ Py.str_int (epoch + 1) +:+ "/" +:+ Py.str_int num_epochs;
              hist_line "Train   " title train_hist;
              hist_line "Validate" title val_hist ].
Proof.
  intros Hrun.
  destruct (run_epoch_inv _ _ _ _ _ _ _ _ _ _ Hrun)
    as (title & th & w1 & vh & w2 & Htitle & Htrain & Hval & _ & _ & _ & Hlog).
  exists title, th, vh, w1, w2.
  split; [exact Htitle|]. split; [exact Htrain|]. split; [exact Hval|].
  pose proof (same_log_pass TrainPass _ _ _ _ _ _ Htrain) as H1.
  pose proof (same_log_pass ValidatePass _ _ _ _ _ _ Hval) as H2.
  unfold same_log in H1, H2. simpl in H1, H2.
  rewrite Hlog, H2, H1, <- !app_assoc. reflexivity.
Qed.

End EpochLog.

(** ** The command line *)

Section CommandLine.
Context `{Robosat}.

Lemma parse_known_config (value : string) (rest : list string)
    (ns : gmap string arg_value) :
  is_option value = false ->
  parse_known ("--config" :: value :: rest) ns
  = parse_known rest (<["config" := VStr value]> ns).
Proof. intros Hvalue. simpl. now rewrite Hvalue. Qed.

Lemma parse_known_out (value : string) (rest : list string) (ns : gmap string arg_value) :
  is_option value = false -> ns !! "out" = None ->
  parse_known (value :: rest) ns = parse_known rest (<["out" := VStr value]> ns).
Proof. intros Hvalue Hout. simpl. now rewrite Hvalue, Hout. Qed.

(** X16. A command line that gives only [--config] and the output
    directory, in either order, neither value being read as an option, is
    accepted with the defaults: no checkpoint, no resume, zero workers and
    none of the three overrides. *)
Theorem minimal_command_line (config out : string) :
  is_option config = false -> is_option out = false ->
  let args :=
    {| args_config := config; args_checkpoint := None; args_resume := false;
       args_workers := 0; args_dataset := None; args_epochs := None; args_lr := None;
       args_out := out |} in
  parse_args ["--config"; config; out] = inr args
  /\ parse_args [out; "--config"; config] = inr args.
Proof.
  intros Hconfig Hout args. unfold parse_args. split.
  - rewrite parse_known_config, parse_known_out by (assumption || reflexivity).
    reflexivity.
  - rewrite parse_known_out, parse_known_config by (assumption || reflexivity).
    reflexivity.
Qed.

End CommandLine.

(** ** The properties on the small backend *)

Lemma resume_guard_witness :
  exists w',
    main (Tiny.env "data" 1 2) (TinyRuns.args_with true) (TinyRuns.world_with 2)
    = (inl (Py.SystemExit
              "Error: Epoch 2 set in config.toml already reached by the checkpoint provided"),
       w')
    /\ untrained (TinyRuns.world_with 2) w'.
Proof.
  destruct (resume_guard (Tiny.env "data" 1 2) (TinyRuns.args_with true)
              (TinyRuns.world_with 2) "ck.pth" (TinyRuns.chkpt 2))
    as (e & w' & Hmain & _ & Hun & Hmsg).
  - reflexivity.
  - reflexivity.
  - reflexivity.
  - apply Z.leb_le. reflexivity.
  - exists w'. split; [|exact Hun]. rewrite Hmain, Hmsg.
    + reflexivity.
    + apply list_elem_of_here.
    + apply list_elem_of_further, list_elem_of_here.
    + eexists. reflexivity.
Defined.

Lemma unknown_plugin_exits_witness :
  (exists w',
     main TinyRuns.unknown_env Tiny.args Tiny.world0
     = (inl (Py.SystemExit "Unknown model, thoses available are ['unet']"), w'))
  /\ (exists w',
        main TinyRuns.unknown_loss_env (TinyRuns.args_with false) (TinyRuns.world_with 2)
        = (inl (Py.SystemExit "Unknown loss, thoses available are ['crossentropy']"), w')
        /\ untrained (TinyRuns.world_with 2) w').
Proof.
  split.
  - destruct (unknown_plugin_exits TinyRuns.unknown_env Tiny.args Tiny.world0)
      as (e & w' & Hmain & _ & _ & Hmodel & _).
    + left. intros Hin. apply list_elem_of_singleton in Hin. discriminate Hin.
    + exists w'. rewrite Hmain.
      destruct Hmodel as [-> _]; [|reflexivity].
      intros Hin. apply list_elem_of_singleton in Hin. discriminate Hin.
  - destruct (unknown_plugin_exits TinyRuns.unknown_loss_env (TinyRuns.args_with false)
                (TinyRuns.world_with 2))
      as (e & w' & Hmain & _ & Hun & _ & Hloss).
    + right. intros Hin. apply list_elem_of_singleton in Hin. discriminate Hin.
    + exists w'. split; [|exact Hun]. rewrite Hmain.
      destruct Hloss as [-> _]; [| |reflexivity].
      * apply list_elem_of_here.
      * intros path [= <-]. eexists. reflexivity.
Defined.

(** C4, as it is written, fails: with a model name that resolves, a loss
    name that does not and a checkpoint path at which there is no file,
    [main] raises the error of the missing file, since the checkpoint is
    loaded before the loss name is looked up; it does not exit with the
    message that lists the loss names. *)
Lemma unknown_plugin_exits_counterexample :
  (model_name (load_config TinyRuns.unknown_loss_env "config.toml")
     ∈ model_modules TinyRuns.unknown_loss_env)
  /\ (model_loss (load_config TinyRuns.unknown_loss_env "config.toml")
      ∉ loss_modules TinyRuns.unknown_loss_env)
  /\ fst (main TinyRuns.unknown_loss_env (TinyRuns.args_with false) Tiny.world0)
     = inl (Py.FileNotFoundError "ck.pth")
  /\ fst (main TinyRuns.unknown_loss_env (TinyRuns.args_with false) Tiny.world0)
     ≠ inl (Py.SystemExit (exit_unknown_loss (loss_modules TinyRuns.unknown_loss_env))).
Proof.
  split; [apply list_elem_of_here|].
  split; [intros Hin; apply list_elem_of_singleton in Hin; discriminate Hin|].
  assert (fst (main TinyRuns.unknown_loss_env (TinyRuns.args_with false) Tiny.world0)
          = inl (Py.FileNotFoundError "ck.pth")) as Hrun by (vm_compute; reflexivity).
  split; [exact Hrun|]. rewrite Hrun. discriminate.
Qed.

Lemma retrain_from_weights_witness :
  exists w1,
    main (Tiny.env "data" 1 2) (TinyRuns.args_with false) (TinyRuns.world_with 2)
    = training (Tiny.env "data" 1 2) (TinyRuns.args_with false) 0
        (TinyRuns.loaders "data" 1) w1
    /\ net_sd w1 = 7%nat /\ optimizer_sd w1 = 0%nat.
Proof.
  destruct (retrain_from_weights (Tiny.env "data" 1 2) (TinyRuns.args_with false)
              (TinyRuns.world_with 2) "ck.pth" (TinyRuns.chkpt 2)
              (TinyRuns.loaders "data" 1))
    as (w1 & Hmain & Hsd & Hopt & _).
  - reflexivity.
  - reflexivity.
  - reflexivity.
  - apply list_elem_of_here.
  - apply list_elem_of_further, list_elem_of_here.
  - reflexivity.
  - reflexivity.
  - exists w1. split; [exact Hmain|]. split; [exact Hsd|exact Hopt].
Defined.

Lemma shape_mismatch_is_fatal_witness :
  exists w',
    pass TrainPass TinyPass.train_loader 3 "lovasz" Tiny.world0
    = (inl (Py.AssertionError "classes for predictions and dataset are in sync"), w').
Proof.
  destruct (shape_mismatch_is_fatal TrainPass TinyPass.train_loader 3 "lovasz" Tiny.world0
              (snd TinyPass.drawn) (snd TinyPass.drawn) [] (tail TinyPass.batches)
              TinyPass.first_batch counters0)
    as (msg & w' & Hpass & Hmsg & _).
  - vm_compute. reflexivity.
  - vm_compute. reflexivity.
  - discriminate.
  - right. right. exists 2%nat. split; [reflexivity|discriminate].
  - exists w'. rewrite Hpass, Hmsg. reflexivity.
Defined.

Lemma empty_dataset_iff_no_samples_witness :
  exists h w', pass TrainPass TinyPass.train_loader 2 "lovasz" Tiny.world0 = (inr h, w').
Proof.
  destruct (empty_dataset_iff_no_samples TrainPass TinyPass.train_loader 2 "lovasz"
              Tiny.world0 (snd TinyPass.drawn) (snd TinyPass.looped) TinyPass.batches
              TinyPass.counted)
    as [_ Hpos].
  - vm_compute. reflexivity.
  - vm_compute. reflexivity.
  - assert (0 < samples_processed TinyPass.batches)%nat as Hsome
      by (apply Nat.ltb_lt; vm_compute; reflexivity).
    eexists _, _. exact (Hpos Hsome).
Defined.

Lemma checkpoint_per_epoch_witness :
  exists w3,
    run_epoch (Tiny.config "data" 1 2) "out" 2 2 "lovasz" TinyPass.train_loader
      TinyPass.val_loader 0 Tiny.world0
    = (inr tt, w3)
    /\ files w3 =
       <["out/checkpoint-00001-of-00002.pth" :=
           {| ck_epoch := 1; ck_state_dict := net_sd (snd TinyPass.validated);
              ck_optimizer := optimizer_sd (snd TinyPass.validated) |}]> (files Tiny.world0).
Proof.
  destruct (checkpoint_per_epoch (Tiny.config "data" 1 2) "out" 2 2 "lovasz"
              TinyPass.train_loader TinyPass.val_loader 0 Tiny.world0
              (snd TinyPass.trained) (snd TinyPass.validated) "building"
              TinyPass.train_hist TinyPass.val_hist)
    as (w3 & Hrun & Hfiles & _).
  - vm_compute. reflexivity.
  - vm_compute. reflexivity.
  - vm_compute. reflexivity.
  - exists w3. split; [exact Hrun|exact Hfiles].
Defined.

Lemma validate_leaves_model_alone_witness :
  net_sd (snd (validate TinyPass.val_loader 2 "lovasz" Tiny.world0)) = net_sd Tiny.world0
  /\ optimizer_sd (snd (validate TinyPass.val_loader 2 "lovasz" Tiny.world0))
     = optimizer_sd Tiny.world0.
Proof.
  destruct (validate_leaves_model_alone TinyPass.val_loader 2 "lovasz" Tiny.world0
              (snd (validate TinyPass.val_loader 2 "lovasz" Tiny.world0))
              (fst (validate TinyPass.val_loader 2 "lovasz" Tiny.world0)))
    as (Hsd & Hopt & _).
  - intros sd x. reflexivity.
  - apply surjective_pairing.
  - split; [exact Hsd|exact Hopt].
Defined.

Lemma joint_transform_order_witness :
  JointCompose (ds_joint_transform (dl_dataset TinyPass.train_loader))
    ([3; 4; 4]%nat, [4; 4]%nat) Tiny.world0
  = (inr ([3; 4; 4]%nat, [4; 4]%nat), set_rng_state 1%nat Tiny.world0).
Proof.
  destruct (joint_transform_order (PathStr "data") (Tiny.config "data" 1 2) 0
              (TinyRuns.loaders "data" 1) TrainPass [3; 4; 4]%nat [4; 4]%nat Tiny.world0)
    as [_ Hrun].
  - vm_compute. reflexivity.
  - exact Hrun.
Defined.

Lemma drop_last_skips_remainder_witness :
  exists w',
    pass TrainPass (fst (TinyRuns.loaders "data" 4)) 2 "lovasz" Tiny.world0
    = (inl (Py.AssertionError "dataset contains training images and labels"), w').
Proof.
  destruct (drop_last_skips_remainder (PathStr "data") (Tiny.config "data" 4 2) 0
              (TinyRuns.loaders "data" 4) TrainPass)
    as (_ & _ & Hshort).
  - vm_compute. reflexivity.
  - intros g n. simpl. rewrite length_reverse. apply length_seq.
  - apply (Hshort ltac:(split; [apply Nat.ltb_lt|apply Nat.ltb_lt]; vm_compute; reflexivity) 2%nat
             "lovasz" Tiny.world0).
Defined.

(** ** The further properties on the small backend *)

Lemma main_writes_only_checkpoints_witness :
  files (snd (main (Tiny.env "data" 1 2) (TinyRuns.args_with false) (TinyRuns.world_with 2)))
    !! "ck.pth"
  = Some (TinyRuns.chkpt 2).
Proof.
  pose proof (main_writes_only_checkpoints (Tiny.env "data" 1 2) (TinyRuns.args_with false)
                (TinyRuns.world_with 2)
                (snd (main (Tiny.env "data" 1 2) (TinyRuns.args_with false)
                        (TinyRuns.world_with 2)))
                (fst (main (Tiny.env "data" 1 2) (TinyRuns.args_with false)
                        (TinyRuns.world_with 2)))
                "ck.pth") as Hkept.
  cbv zeta in Hkept. rewrite Hkept.
  - reflexivity.
  - apply surjective_pairing.
  - intros epoch Heq. discriminate Heq.
Defined.

Lemma interrupted_run_keeps_checkpoints_witness :
  exists failed w1,
    run_epoch (Tiny.config "bad" 1 2) "out" 2 2 "lovasz"
      (fst (TinyRuns.loaders "bad" 1)) (snd (TinyRuns.loaders "bad" 1)) failed w1
    = (inl (Py.AssertionError "resolutions for images and masks are in sync"),
       snd TinyEpoch.interrupted)
    /\ files (snd TinyEpoch.interrupted) = files w1.
Proof.
  destruct (interrupted_run_keeps_checkpoints (Tiny.env "bad" 1 2) Tiny.args 0
              (TinyRuns.loaders "bad" 1) Tiny.world0 (snd TinyEpoch.interrupted)
              (Py.AssertionError "resolutions for images and masks are in sync"))
    as (failed & w0 & w1 & _ & _ & _ & Hfailed & Hsame & _).
  - vm_compute. reflexivity.
  - exists failed, w1. split; [exact Hfailed|exact Hsame].
Defined.

Lemma single_class_fails_after_training_witness :
  run_epoch TinyEpoch.single_class "out" 2 2 "lovasz" TinyPass.train_loader
    TinyPass.val_loader 0 Tiny.world0
  = (inl Py.IndexError, snd TinyPass.trained).
Proof.
  destruct (single_class_fails_after_training TinyEpoch.single_class "out" 2 2 "lovasz"
              TinyPass.train_loader TinyPass.val_loader 0 Tiny.world0
              (snd TinyPass.trained) TinyPass.train_hist)
    as [Hrun _].
  - apply Nat.ltb_lt. reflexivity.
  - vm_compute. reflexivity.
  - exact Hrun.
Defined.

Lemma resume_round_trip_witness :
  exists w5,
    load_checkpoint TinyEpoch.resume_args (snd TinyEpoch.done) = (inr (0 + 1), w5)
    /\ net_sd w5 = net_sd (snd TinyEpoch.done)
    /\ optimizer_sd w5 = optimizer_sd (snd TinyEpoch.done).
Proof.
  apply (resume_round_trip (Tiny.config "data" 1 2) "out" 2 2 "lovasz"
           TinyPass.train_loader TinyPass.val_loader 0 Tiny.world0 (snd TinyEpoch.done)
           (snd TinyEpoch.done) TinyEpoch.resume_args).
  - vm_compute. reflexivity.
  - reflexivity.
  - reflexivity.
  - reflexivity.
Defined.

Lemma resume_continues_witness :
  exists w1,
    main (Tiny.env "data" 1 2) (TinyRuns.args_with true) (TinyRuns.world_with 1)
    = training (Tiny.env "data" 1 2) (TinyRuns.args_with true) 1
        (TinyRuns.loaders "data" 1) w1
    /\ net_sd w1 = 7%nat /\ optimizer_sd w1 = 9%nat.
Proof.
  destruct (resume_continues (Tiny.env "data" 1 2) (TinyRuns.args_with true)
              (TinyRuns.world_with 1) "ck.pth" (TinyRuns.chkpt 1)
              (TinyRuns.loaders "data" 1))
    as (w1 & Hmain & Hsd & Hopt & _).
  - reflexivity.
  - reflexivity.
  - reflexivity.
  - apply list_elem_of_here.
  - apply list_elem_of_further, list_elem_of_here.
  - reflexivity.
  - reflexivity.
  - exists w1. split; [exact Hmain|]. split; [exact Hsd|exact Hopt].
Defined.

Lemma resume_without_checkpoint_witness :
  exists w1,
    main (Tiny.env "data" 1 2) TinyEpoch.resume_only Tiny.world0
    = training (Tiny.env "data" 1 2) TinyEpoch.resume_only 0 (TinyRuns.loaders "data" 1) w1
    /\ calls w1 = calls Tiny.world0.
Proof.
  destruct (resume_without_checkpoint (Tiny.env "data" 1 2) TinyEpoch.resume_only
              Tiny.world0 (TinyRuns.loaders "data" 1))
    as (w1 & Hmain & Hcalls & _).
  - now left.
  - apply list_elem_of_here.
  - apply list_elem_of_further, list_elem_of_here.
  - reflexivity.
  - reflexivity.
  - exists w1. split; [exact Hmain|exact Hcalls].
Defined.

Lemma training_pass_calls_witness :
  calls (snd TinyEpoch.trained)
  = [ CTrainMode;
      CZeroGrad; CForward true true; CBackward; CStep; CMetricsAdd;
      CZeroGrad; CForward true true; CBackward; CStep; CMetricsAdd;
      CZeroGrad; CForward true true; CBackward; CStep; CMetricsAdd ].
Proof.
  destruct (training_pass_calls TinyPass.train_loader 2 "lovasz" Tiny.world0
              (snd TinyEpoch.trained) TinyEpoch.train_hist)
    as (batches & w1 & Hiter & Hcalls & _).
  - vm_compute. reflexivity.
  - rewrite Hcalls.
    change (iterate TinyPass.train_loader (enter_pass TrainPass Tiny.world0))
      with TinyPass.drawn in Hiter.
    assert (batches = TinyPass.batches) as ->.
    { unfold TinyPass.batches. now rewrite Hiter. }
    vm_compute. reflexivity.
Defined.

Lemma validation_statistics_witness :
  miou TinyEpoch.val_hist
  = get_miou (fold_left (eval_metrics (net_sd Tiny.world0)) TinyEpoch.val_batches Metrics).
Proof.
  rewrite (validation_statistics TinyPass.val_loader 2 "lovasz" Tiny.world0
             (snd TinyEpoch.val_drawn) (snd TinyEpoch.validated) TinyEpoch.val_batches
             TinyEpoch.val_hist).
  - reflexivity.
  - intros sd x. reflexivity.
  - vm_compute. reflexivity.
  - vm_compute. reflexivity.
Defined.

Lemma checkpoint_holds_trained_state_witness :
  exists train_hist w1,
    train TinyPass.train_loader 2 "lovasz" TinyPass.epoch_start = (inr train_hist, w1)
    /\ net_sd (snd TinyEpoch.done) = net_sd w1.
Proof.
  destruct (checkpoint_holds_trained_state (Tiny.config "data" 1 2) "out" 2 2 "lovasz"
              TinyPass.train_loader TinyPass.val_loader 0 Tiny.world0 (snd TinyEpoch.done))
    as (th & w1 & Htrain & _ & Hsd & _).
  - intros sd x. reflexivity.
  - vm_compute. reflexivity.
  - exists th, w1. split; [exact Htrain|exact Hsd].
Defined.

Lemma batches_per_pass_witness :
  length TinyEpoch.pairs_batches = 1%nat
  /\ Forall (fun b => exists samples, length samples = 2%nat /\ b = collate samples)
       TinyEpoch.pairs_batches.
Proof.
  destruct (batches_per_pass (PathStr "data") (Tiny.config "data" 2 2) 0
              (TinyRuns.loaders "data" 2) TrainPass Tiny.world0 (snd TinyEpoch.pairs_drawn)
              TinyEpoch.pairs_batches)
    as (Hcount & Hfull & _).
  - vm_compute. reflexivity.
  - intros g n. simpl. rewrite length_reverse. apply length_seq.
  - vm_compute. reflexivity.
  - split; [exact Hcount|exact Hfull].
Defined.

Lemma dataset_override_stops_main_witness :
  exists w', main (Tiny.env "data" 1 2) TinyEpoch.dataset_args Tiny.world0
             = (inl Py.TypeError, w').
Proof.
  destruct (dataset_override_stops_main (Tiny.env "data" 1 2) TinyEpoch.dataset_args
              Tiny.world0 5)
    as (e & w' & Hmain & _ & Herror).
  - reflexivity.
  - discriminate.
  - exists w'. rewrite Hmain, Herror.
    + reflexivity.
    + apply list_elem_of_here.
    + apply list_elem_of_further, list_elem_of_here.
    + intros path Hgiven. discriminate Hgiven.
Defined.

Lemma missing_checkpoint_stops_main_witness :
  fst (main (Tiny.env "data" 1 2) (TinyRuns.args_with false) Tiny.world0)
  = inl (Py.FileNotFoundError "ck.pth").
Proof.
  rewrite (missing_checkpoint_stops_main (Tiny.env "data" 1 2) (TinyRuns.args_with false)
             Tiny.world0 "ck.pth").
  - reflexivity.
  - apply list_elem_of_here.
  - reflexivity.
  - reflexivity.
Defined.

Lemma checkpoint_paths_sorted_witness :
  String.compare (Py.path_join "out" (checkpoint_name 9 10))
                 (Py.path_join "out" (checkpoint_name 10 10)) = Lt.
Proof. apply checkpoint_paths_sorted; lia. Defined.

Lemma epoch_log_lines_witness :
  exists title train_hist val_hist,
    logged (snd TinyEpoch.done)
    = logged Tiny.world0
      ++ [ "---"; "Epoch: " +:+ Py.str_int (0 + 1) +:+ "/" +:+ Py.str_int 2;
           hist_line "Train   " title train_hist; hist_line "Validate" title val_hist ].
Proof.
  destruct (epoch_log_lines (Tiny.config "data" 1 2) "out" 2 2 "lovasz"
              TinyPass.train_loader TinyPass.val_loader 0 Tiny.world0 (snd TinyEpoch.done))
    as (title & th & vh & w1 & w2 & _ & _ & _ & Hlog).
  - vm_compute. reflexivity.
  - exists title, th, vh. exact Hlog.
Defined.

Lemma minimal_command_line_witness :
  parse_args ["--config"; "config.toml"; "out"] = inr Tiny.args.
Proof.
  destruct (minimal_command_line "config.toml" "out") as [Hfirst _].
  - reflexivity.
  - reflexivity.
  - exact Hfirst.
Defined.
